(** * Three-dimensional image processing lecture: model and properties

    The program is the notebook [lectures/three_dimensional_image_processing.ipynb].
    Its code cells form one linear script that sequences calls into numpy,
    scipy, scikit-image and matplotlib.

    The development has two layers.

    - [Module Ast]: the code cells as abstract syntax (a transcription of
      Python's own [ast] of each cell), with the traversals used to state
      facts about the shape of the script: which statements carry control
      flow, which exceptions are handled, which library routines are called
      and in what order, and what each variable is bound to.

    - [Module Sem]: executable models of the cells that compute something
      themselves: the spacing arithmetic, the guarded [io.imshow] call, the
      [display] helper, the planewise filter loops, the thresholding
      comparisons and the region-property probe; then the [show_plane]
      helper, the index expressions of cells 10, 60 and 76, the
      statistics of cell 74 and the processing steps of cells 3 to 54.
      The widths of the Gaussian filter are computed in double precision.
      Library routines appear there as parameters. *)

From Stdlib Require Import ZArith QArith Qminmax Qround SpecFloat Lia.
From stdpp Require Import base strings list gmap.

#[local] Open Scope string_scope.
#[local] Open Scope list_scope.

(** ** Abstract syntax of the code cells *)

Module Ast.

#[local] Unset Elimination Schemes.

Inductive constant :=
| NoneC
| Bool (b : bool)
| Int (n : Z)
| Float (q : Q)        (* a decimal literal, as the rational it denotes *)
| Str (s : string).    (* the text between the quotes, escapes as written *)

Inductive unaryop := USub | UAdd | Not | Invert.

Inductive operator := Add | Sub | Mult | Div | FloorDiv | Mod | Pow.

Inductive cmpop := Eq | NotEq | Lt | LtE | Gt | GtE.

Inductive expr :=
| Name (id : string)
| Constant (value : constant)
| Attribute (value : expr) (attr : string)
| Subscript (value : expr) (slice : expr)
| Slice (lower upper step : option expr)
| Tuple (elts : list expr)
| ListLit (elts : list expr)
| Call (func : expr) (args : list expr) (keywords : list (string * expr))
| UnaryOp (op : unaryop) (operand : expr)
| BinOp (left : expr) (op : operator) (right : expr)
| Compare (left : expr) (op : cmpop) (right : expr)
| ListComp (elt : expr) (target : expr) (iter : expr).

Inductive stmt :=
| Magic (line : string)                          (* an IPython [%] line *)
| Import (names : list (string * option string))
| ImportFrom (module : string) (names : list (string * option string))
| FunctionDef (name : string) (params : list (string * option expr))
              (body : list stmt)
| Return (value : option expr)
| Assign (target : expr) (value : expr)
| For (target : expr) (iter : expr) (body : list stmt)
| If (test : expr) (body orelse : list stmt)
| Try (body : list stmt) (handlers : list excepthandler)
      (orelse finalbody : list stmt)
| Expr (value : expr)
with excepthandler :=
| ExceptHandler (type : option expr) (name : option string) (body : list stmt).

#[local] Set Elimination Schemes.

(** *** The notebook, cell by cell

    Cell numbers count every cell of the notebook, markdown cells included,
    from 0; only code cells appear. *)

(* cell 0:
     %matplotlib inline
*)
Definition cell_00 : list stmt :=
  [Magic "matplotlib inline"].

(* cell 1:
     from matplotlib import cm
     from matplotlib import pyplot as plt
     from mpl_toolkits.mplot3d.art3d import Poly3DCollection
     import numpy as np
     from scipy import ndimage as ndi
     from scipy import stats

     from skimage import exposure, feature, filters, io, measure, morphology, restoration, segmentation, util
*)
Definition cell_01 : list stmt :=
  [ImportFrom "matplotlib" [("cm", None)];
   ImportFrom "matplotlib" [("pyplot", Some "plt")];
   ImportFrom "mpl_toolkits.mplot3d.art3d" [("Poly3DCollection", None)];
   Import [("numpy", Some "np")];
   ImportFrom "scipy" [("ndimage", Some "ndi")];
   ImportFrom "scipy" [("stats", None)];
   ImportFrom "skimage"
     [("exposure", None); ("feature", None); ("filters", None); ("io", None);
      ("measure", None); ("morphology", None); ("restoration", None);
      ("segmentation", None); ("util", None)]].

(* cell 3:
     data = io.imread("../images/cells.tif")

     print("shape: {}".format(data.shape))
     print("dtype: {}".format(data.dtype))
     print("range: ({}, {})".format(data.min(), data.max()))
*)
Definition cell_03 : list stmt :=
  [Assign (Name "data")
     (Call (Attribute (Name "io") "imread") [Constant (Str "../images/cells.tif")] []);
   Expr
     (Call (Name "print")
        [Call (Attribute (Constant (Str "shape: {}")) "format")
           [Attribute (Name "data") "shape"]
           []]
        []);
   Expr
     (Call (Name "print")
        [Call (Attribute (Constant (Str "dtype: {}")) "format")
           [Attribute (Name "data") "dtype"]
           []]
        []);
   Expr
     (Call (Name "print")
        [Call (Attribute (Constant (Str "range: ({}, {})")) "format")
           [Call (Attribute (Name "data") "min") [] [];
            Call (Attribute (Name "data") "max") [] []]
           []]
        [])].

(* cell 5:
     original_spacing = (0.2900000, 0.0650000, 0.0650000)

     rescaled_spacing = np.multiply((1.0, 4.0, 4.0), original_spacing)

     spacing = rescaled_spacing / rescaled_spacing[1]

     print("spacing: {}".format(spacing))
*)
Definition cell_05 : list stmt :=
  [Assign (Name "original_spacing")
     (Tuple
        [Constant (Float (29 # 100)); Constant (Float (65 # 1000));
         Constant (Float (65 # 1000))]);
   Assign (Name "rescaled_spacing")
     (Call (Attribute (Name "np") "multiply")
        [Tuple
           [Constant (Float (1 # 1)); Constant (Float (4 # 1));
            Constant (Float (4 # 1))];
         Name "original_spacing"]
        []);
   Assign (Name "spacing")
     (BinOp (Name "rescaled_spacing") Div
        (Subscript (Name "rescaled_spacing") (Constant (Int 1))));
   Expr
     (Call (Name "print")
        [Call (Attribute (Constant (Str "spacing: {}")) "format") [Name "spacing"] []]
        [])].

(* cell 7:
     try:
         io.imshow(data, cmap="gray")
     except TypeError as e:
         print(str(e))
*)
Definition cell_07 : list stmt :=
  [Try
     [Expr
        (Call (Attribute (Name "io") "imshow") [Name "data"]
           [("cmap", Constant (Str "gray"))])]
     [ExceptHandler (Some (Name "TypeError")) (Some "e")
        [Expr (Call (Name "print") [Call (Name "str") [Name "e"] []] [])]]
     []
     []].

(* cell 9:
     def show_plane(ax, plane, cmap="gray", title=None):
         ax.imshow(plane, cmap=cmap)
         ax.set_xticks([])
         ax.set_yticks([])

         if title:
             ax.set_title(title)
*)
Definition cell_09 : list stmt :=
  [FunctionDef "show_plane"
     [("ax", None); ("plane", None); ("cmap", Some (Constant (Str "gray")));
      ("title", Some (Constant NoneC))]
     [Expr
        (Call (Attribute (Name "ax") "imshow") [Name "plane"] [("cmap", Name "cmap")]);
      Expr (Call (Attribute (Name "ax") "set_xticks") [ListLit []] []);
      Expr (Call (Attribute (Name "ax") "set_yticks") [ListLit []] []);
      If (Name "title")
        [Expr (Call (Attribute (Name "ax") "set_title") [Name "title"] [])]
        []]].

(* cell 10:
     _, (a, b, c) = plt.subplots(nrows=1, ncols=3, figsize=(16, 4))

     show_plane(a, data[32], title="Plane = 32")
     show_plane(b, data[:, 128, :], title="Row = 128")
     show_plane(c, data[:, :, 128], title="Column = 128")
*)
Definition cell_10 : list stmt :=
  [Assign (Tuple [Name "_"; Tuple [Name "a"; Name "b"; Name "c"]])
     (Call (Attribute (Name "plt") "subplots") []
        [("nrows", Constant (Int 1));
         ("ncols", Constant (Int 3));
         ("figsize", Tuple [Constant (Int 16); Constant (Int 4)])]);
   Expr
     (Call (Name "show_plane") [Name "a"; Subscript (Name "data") (Constant (Int 32))]
        [("title", Constant (Str "Plane = 32"))]);
   Expr
     (Call (Name "show_plane")
        [Name "b";
         Subscript (Name "data")
           (Tuple [Slice None None None; Constant (Int 128); Slice None None None])]
        [("title", Constant (Str "Row = 128"))]);
   Expr
     (Call (Name "show_plane")
        [Name "c";
         Subscript (Name "data")
           (Tuple [Slice None None None; Slice None None None; Constant (Int 128)])]
        [("title", Constant (Str "Column = 128"))])].

(* cell 12:
     def display(im3d, cmap="gray", step=2):
         _, axes = plt.subplots(nrows=5, ncols=6, figsize=(16, 14))

         vmin = im3d.min()
         vmax = im3d.max()

         for ax, image in zip(axes.flatten(), im3d[::step]):
             ax.imshow(image, cmap=cmap, vmin=vmin, vmax=vmax)
             ax.set_xticks([])
             ax.set_yticks([])
*)
Definition cell_12 : list stmt :=
  [FunctionDef "display"
     [("im3d", None); ("cmap", Some (Constant (Str "gray")));
      ("step", Some (Constant (Int 2)))]
     [Assign (Tuple [Name "_"; Name "axes"])
        (Call (Attribute (Name "plt") "subplots") []
           [("nrows", Constant (Int 5));
            ("ncols", Constant (Int 6));
            ("figsize", Tuple [Constant (Int 16); Constant (Int 14)])]);
      Assign (Name "vmin") (Call (Attribute (Name "im3d") "min") [] []);
      Assign (Name "vmax") (Call (Attribute (Name "im3d") "max") [] []);
      For (Tuple [Name "ax"; Name "image"])
        (Call (Name "zip")
           [Call (Attribute (Name "axes") "flatten") [] [];
            Subscript (Name "im3d") (Slice None None (Some (Name "step")))]
           [])
        [Expr
           (Call (Attribute (Name "ax") "imshow") [Name "image"]
              [("cmap", Name "cmap"); ("vmin", Name "vmin"); ("vmax", Name "vmax")]);
         Expr (Call (Attribute (Name "ax") "set_xticks") [ListLit []] []);
         Expr (Call (Attribute (Name "ax") "set_yticks") [ListLit []] [])]]].

(* cell 13:
     display(data)
*)
Definition cell_13 : list stmt :=
  [Expr (Call (Name "display") [Name "data"] [])].

(* cell 16:
     # Helper function for plotting histograms.
     def plot_hist(ax, data, title=None):
         ax.hist(data.ravel(), bins=256)
         ax.ticklabel_format(axis="y", style="scientific", scilimits=(0, 0))

         if title:
             ax.set_title(title)
*)
Definition cell_16 : list stmt :=
  [FunctionDef "plot_hist"
     [("ax", None); ("data", None); ("title", Some (Constant NoneC))]
     [Expr
        (Call (Attribute (Name "ax") "hist")
           [Call (Attribute (Name "data") "ravel") [] []]
           [("bins", Constant (Int 256))]);
      Expr
        (Call (Attribute (Name "ax") "ticklabel_format") []
           [("axis", Constant (Str "y"));
            ("style", Constant (Str "scientific"));
            ("scilimits", Tuple [Constant (Int 0); Constant (Int 0)])]);
      If (Name "title")
        [Expr (Call (Attribute (Name "ax") "set_title") [Name "title"] [])]
        []]].

(* cell 17:
     gamma_low_val = 0.5
     gamma_low = exposure.adjust_gamma(data, gamma=gamma_low_val)

     gamma_high_val = 1.5
     gamma_high = exposure.adjust_gamma(data, gamma=gamma_high_val)

     _, ((a, b, c), (d, e, f)) = plt.subplots(nrows=2, ncols=3, figsize=(12, 8))

     show_plane(a, data[32], title="Original")
     show_plane(b, gamma_low[32], title="Gamma = {}".format(gamma_low_val))
     show_plane(c, gamma_high[32], title="Gamma = {}".format(gamma_high_val))

     plot_hist(d, data)
     plot_hist(e, gamma_low)
     plot_hist(f, gamma_high)
*)
Definition cell_17 : list stmt :=
  [Assign (Name "gamma_low_val") (Constant (Float (5 # 10)));
   Assign (Name "gamma_low")
     (Call (Attribute (Name "exposure") "adjust_gamma") [Name "data"]
        [("gamma", Name "gamma_low_val")]);
   Assign (Name "gamma_high_val") (Constant (Float (15 # 10)));
   Assign (Name "gamma_high")
     (Call (Attribute (Name "exposure") "adjust_gamma") [Name "data"]
        [("gamma", Name "gamma_high_val")]);
   Assign
     (Tuple
        [Name "_";
         Tuple
           [Tuple [Name "a"; Name "b"; Name "c"]; Tuple [Name "d"; Name "e"; Name "f"]]])
     (Call (Attribute (Name "plt") "subplots") []
        [("nrows", Constant (Int 2));
         ("ncols", Constant (Int 3));
         ("figsize", Tuple [Constant (Int 12); Constant (Int 8)])]);
   Expr
     (Call (Name "show_plane") [Name "a"; Subscript (Name "data") (Constant (Int 32))]
        [("title", Constant (Str "Original"))]);
   Expr
     (Call (Name "show_plane")
        [Name "b"; Subscript (Name "gamma_low") (Constant (Int 32))]
        [("title",
          Call (Attribute (Constant (Str "Gamma = {}")) "format") [Name "gamma_low_val"]
            [])]);
   Expr
     (Call (Name "show_plane")
        [Name "c"; Subscript (Name "gamma_high") (Constant (Int 32))]
        [("title",
          Call (Attribute (Constant (Str "Gamma = {}")) "format")
            [Name "gamma_high_val"]
            [])]);
   Expr (Call (Name "plot_hist") [Name "d"; Name "data"] []);
   Expr (Call (Name "plot_hist") [Name "e"; Name "gamma_low"] []);
   Expr (Call (Name "plot_hist") [Name "f"; Name "gamma_high"] [])].

(* cell 19:
     equalized = exposure.equalize_hist(data)

     display(equalized)

     _, ((a, b), (c, d)) = plt.subplots(nrows=2, ncols=2, figsize=(16, 8))

     plot_hist(a, data, title="Original")
     plot_hist(b, equalized, title="Histogram equalization")

     cdf, bins = exposure.cumulative_distribution(data.ravel())
     c.plot(bins, cdf, "r")
     c.set_title("Original CDF")

     cdf, bins = exposure.cumulative_distribution(equalized.ravel())
     d.plot(bins, cdf, "r")
     d.set_title("Histogram equalization CDF");
*)
Definition cell_19 : list stmt :=
  [Assign (Name "equalized")
     (Call (Attribute (Name "exposure") "equalize_hist") [Name "data"] []);
   Expr (Call (Name "display") [Name "equalized"] []);
   Assign
     (Tuple [Name "_"; Tuple [Tuple [Name "a"; Name "b"]; Tuple [Name "c"; Name "d"]]])
     (Call (Attribute (Name "plt") "subplots") []
        [("nrows", Constant (Int 2));
         ("ncols", Constant (Int 2));
         ("figsize", Tuple [Constant (Int 16); Constant (Int 8)])]);
   Expr
     (Call (Name "plot_hist") [Name "a"; Name "data"]
        [("title", Constant (Str "Original"))]);
   Expr
     (Call (Name "plot_hist") [Name "b"; Name "equalized"]
        [("title", Constant (Str "Histogram equalization"))]);
   Assign (Tuple [Name "cdf"; Name "bins"])
     (Call (Attribute (Name "exposure") "cumulative_distribution")
        [Call (Attribute (Name "data") "ravel") [] []]
        []);
   Expr
     (Call (Attribute (Name "c") "plot") [Name "bins"; Name "cdf"; Constant (Str "r")]
        []);
   Expr (Call (Attribute (Name "c") "set_title") [Constant (Str "Original CDF")] []);
   Assign (Tuple [Name "cdf"; Name "bins"])
     (Call (Attribute (Name "exposure") "cumulative_distribution")
        [Call (Attribute (Name "equalized") "ravel") [] []]
        []);
   Expr
     (Call (Attribute (Name "d") "plot") [Name "bins"; Name "cdf"; Constant (Str "r")]
        []);
   Expr
     (Call (Attribute (Name "d") "set_title")
        [Constant (Str "Histogram equalization CDF")]
        [])].

(* cell 21:
     vmin, vmax = stats.scoreatpercentile(data, (0.5, 99.5))

     clipped = exposure.rescale_intensity(
         data,
         in_range=(vmin, vmax),
         out_range=np.float32
     ).astype(np.float32)

     display(clipped)
*)
Definition cell_21 : list stmt :=
  [Assign (Tuple [Name "vmin"; Name "vmax"])
     (Call (Attribute (Name "stats") "scoreatpercentile")
        [Name "data"; Tuple [Constant (Float (5 # 10)); Constant (Float (995 # 10))]]
        []);
   Assign (Name "clipped")
     (Call
        (Attribute
           (Call (Attribute (Name "exposure") "rescale_intensity") [Name "data"]
              [("in_range", Tuple [Name "vmin"; Name "vmax"]);
               ("out_range", Attribute (Name "np") "float32")])
           "astype")
        [Attribute (Name "np") "float32"]
        []);
   Expr (Call (Name "display") [Name "clipped"] [])].

(* cell 22:
     # Pick your favorite result.
     rescaled = clipped
*)
Definition cell_22 : list stmt :=
  [Assign (Name "rescaled") (Name "clipped")].

(* cell 24:
     sobel = np.empty_like(rescaled)

     for plane, image in enumerate(rescaled):
         sobel[plane] = filters.sobel(image)

     display(sobel)
*)
Definition cell_24 : list stmt :=
  [Assign (Name "sobel")
     (Call (Attribute (Name "np") "empty_like") [Name "rescaled"] []);
   For (Tuple [Name "plane"; Name "image"])
     (Call (Name "enumerate") [Name "rescaled"] [])
     [Assign (Subscript (Name "sobel") (Name "plane"))
        (Call (Attribute (Name "filters") "sobel") [Name "image"] [])];
   Expr (Call (Name "display") [Name "sobel"] [])].

(* cell 25:
     _, ((a, b), (c, d)) = plt.subplots(nrows=2, ncols=2, figsize=(16, 4))

     show_plane(a, sobel[:, 128, :], title="3D sobel, row = 128")

     row_sobel = filters.sobel(rescaled[:, 128, :])
     show_plane(b, row_sobel, title="2D sobel, row=128")

     show_plane(c, sobel[:, :, 128], title="3D sobel, column = 128")

     column_sobel = filters.sobel(rescaled[:, :, 128])
     show_plane(d, column_sobel, title="2D sobel, column=128")
*)
Definition cell_25 : list stmt :=
  [Assign
     (Tuple [Name "_"; Tuple [Tuple [Name "a"; Name "b"]; Tuple [Name "c"; Name "d"]]])
     (Call (Attribute (Name "plt") "subplots") []
        [("nrows", Constant (Int 2));
         ("ncols", Constant (Int 2));
         ("figsize", Tuple [Constant (Int 16); Constant (Int 4)])]);
   Expr
     (Call (Name "show_plane")
        [Name "a";
         Subscript (Name "sobel")
           (Tuple [Slice None None None; Constant (Int 128); Slice None None None])]
        [("title", Constant (Str "3D sobel, row = 128"))]);
   Assign (Name "row_sobel")
     (Call (Attribute (Name "filters") "sobel")
        [Subscript (Name "rescaled")
           (Tuple [Slice None None None; Constant (Int 128); Slice None None None])]
        []);
   Expr
     (Call (Name "show_plane") [Name "b"; Name "row_sobel"]
        [("title", Constant (Str "2D sobel, row=128"))]);
   Expr
     (Call (Name "show_plane")
        [Name "c";
         Subscript (Name "sobel")
           (Tuple [Slice None None None; Slice None None None; Constant (Int 128)])]
        [("title", Constant (Str "3D sobel, column = 128"))]);
   Assign (Name "column_sobel")
     (Call (Attribute (Name "filters") "sobel")
        [Subscript (Name "rescaled")
           (Tuple [Slice None None None; Slice None None None; Constant (Int 128)])]
        []);
   Expr
     (Call (Name "show_plane") [Name "d"; Name "column_sobel"]
        [("title", Constant (Str "2D sobel, column=128"))])].

(* cell 27:
     base_sigma = 3.0

     sigma = base_sigma / spacing

     gaussian = filters.gaussian(rescaled, multichannel=False, sigma=sigma)

     display(gaussian)
*)
Definition cell_27 : list stmt :=
  [Assign (Name "base_sigma") (Constant (Float (3 # 1)));
   Assign (Name "sigma") (BinOp (Name "base_sigma") Div (Name "spacing"));
   Assign (Name "gaussian")
     (Call (Attribute (Name "filters") "gaussian") [Name "rescaled"]
        [("multichannel", Constant (Bool false)); ("sigma", Name "sigma")]);
   Expr (Call (Name "display") [Name "gaussian"] [])].

(* cell 29:
     rescaled_uint8 = util.img_as_ubyte(rescaled)

     median = np.empty_like(rescaled_uint8)

     for plane, image in enumerate(rescaled_uint8):
         median[plane] = filters.median(image)

     median = util.img_as_float(median)

     display(median)
*)
Definition cell_29 : list stmt :=
  [Assign (Name "rescaled_uint8")
     (Call (Attribute (Name "util") "img_as_ubyte") [Name "rescaled"] []);
   Assign (Name "median")
     (Call (Attribute (Name "np") "empty_like") [Name "rescaled_uint8"] []);
   For (Tuple [Name "plane"; Name "image"])
     (Call (Name "enumerate") [Name "rescaled_uint8"] [])
     [Assign (Subscript (Name "median") (Name "plane"))
        (Call (Attribute (Name "filters") "median") [Name "image"] [])];
   Assign (Name "median")
     (Call (Attribute (Name "util") "img_as_float") [Name "median"] []);
   Expr (Call (Name "display") [Name "median"] [])].

(* cell 31:
     bilateral = np.empty_like(rescaled)

     for index, plane in enumerate(rescaled):
         bilateral[index] = restoration.denoise_bilateral(
             plane,
             multichannel=False
         )

     display(bilateral)
*)
Definition cell_31 : list stmt :=
  [Assign (Name "bilateral")
     (Call (Attribute (Name "np") "empty_like") [Name "rescaled"] []);
   For (Tuple [Name "index"; Name "plane"])
     (Call (Name "enumerate") [Name "rescaled"] [])
     [Assign (Subscript (Name "bilateral") (Name "index"))
        (Call (Attribute (Name "restoration") "denoise_bilateral") [Name "plane"]
           [("multichannel", Constant (Bool false))])];
   Expr (Call (Name "display") [Name "bilateral"] [])].

(* cell 32:
     _, (a, b, c, d) = plt.subplots(nrows=1, ncols=4, figsize=(16, 4))

     show_plane(a, rescaled[32], title="Original")
     show_plane(b, gaussian[32], title="Gaussian")
     show_plane(c, median[32], title="Median")
     show_plane(d, bilateral[32], title="Bilateral")
*)
Definition cell_32 : list stmt :=
  [Assign (Tuple [Name "_"; Tuple [Name "a"; Name "b"; Name "c"; Name "d"]])
     (Call (Attribute (Name "plt") "subplots") []
        [("nrows", Constant (Int 1));
         ("ncols", Constant (Int 4));
         ("figsize", Tuple [Constant (Int 16); Constant (Int 4)])]);
   Expr
     (Call (Name "show_plane")
        [Name "a"; Subscript (Name "rescaled") (Constant (Int 32))]
        [("title", Constant (Str "Original"))]);
   Expr
     (Call (Name "show_plane")
        [Name "b"; Subscript (Name "gaussian") (Constant (Int 32))]
        [("title", Constant (Str "Gaussian"))]);
   Expr
     (Call (Name "show_plane") [Name "c"; Subscript (Name "median") (Constant (Int 32))]
        [("title", Constant (Str "Median"))]);
   Expr
     (Call (Name "show_plane")
        [Name "d"; Subscript (Name "bilateral") (Constant (Int 32))]
        [("title", Constant (Str "Bilateral"))])].

(* cell 33:
     denoised = bilateral
*)
Definition cell_33 : list stmt :=
  [Assign (Name "denoised") (Name "bilateral")].

(* cell 35:
     threshold_li = filters.threshold_li(denoised)
     li = denoised >= threshold_li

     threshold_otsu = filters.threshold_otsu(denoised)
     otsu = denoised >= threshold_otsu

     _, (a, b, c) = plt.subplots(nrows=1, ncols=3, figsize=(16, 4))

     plot_hist(a, denoised, "Thresholds (Li: red, Otsu: blue)")
     a.axvline(threshold_li, c="r")
     a.axvline(threshold_otsu, c="b")

     show_plane(b, li[32], title="Li's threshold = {:0.3f}".format(threshold_li))
     show_plane(c, otsu[32], title="Otsu's threshold = {:0.3f}".format(threshold_otsu))
*)
Definition cell_35 : list stmt :=
  [Assign (Name "threshold_li")
     (Call (Attribute (Name "filters") "threshold_li") [Name "denoised"] []);
   Assign (Name "li") (Compare (Name "denoised") GtE (Name "threshold_li"));
   Assign (Name "threshold_otsu")
     (Call (Attribute (Name "filters") "threshold_otsu") [Name "denoised"] []);
   Assign (Name "otsu") (Compare (Name "denoised") GtE (Name "threshold_otsu"));
   Assign (Tuple [Name "_"; Tuple [Name "a"; Name "b"; Name "c"]])
     (Call (Attribute (Name "plt") "subplots") []
        [("nrows", Constant (Int 1));
         ("ncols", Constant (Int 3));
         ("figsize", Tuple [Constant (Int 16); Constant (Int 4)])]);
   Expr
     (Call (Name "plot_hist")
        [Name "a"; Name "denoised"; Constant (Str "Thresholds (Li: red, Otsu: blue)")]
        []);
   Expr
     (Call (Attribute (Name "a") "axvline") [Name "threshold_li"]
        [("c", Constant (Str "r"))]);
   Expr
     (Call (Attribute (Name "a") "axvline") [Name "threshold_otsu"]
        [("c", Constant (Str "b"))]);
   Expr
     (Call (Name "show_plane") [Name "b"; Subscript (Name "li") (Constant (Int 32))]
        [("title",
          Call (Attribute (Constant (Str "Li's threshold = {:0.3f}")) "format")
            [Name "threshold_li"]
            [])]);
   Expr
     (Call (Name "show_plane") [Name "c"; Subscript (Name "otsu") (Constant (Int 32))]
        [("title",
          Call (Attribute (Constant (Str "Otsu's threshold = {:0.3f}")) "format")
            [Name "threshold_otsu"]
            [])])].

(* cell 36:
     binary = li

     display(binary)
*)
Definition cell_36 : list stmt :=
  [Assign (Name "binary") (Name "li");
   Expr (Call (Name "display") [Name "binary"] [])].

(* cell 39:
     ball = morphology.ball(radius=5)
     print("ball shape: {}".format(ball.shape))

     cube = morphology.cube(width=5)
     print("cube shape: {}".format(cube.shape))
*)
Definition cell_39 : list stmt :=
  [Assign (Name "ball")
     (Call (Attribute (Name "morphology") "ball") [] [("radius", Constant (Int 5))]);
   Expr
     (Call (Name "print")
        [Call (Attribute (Constant (Str "ball shape: {}")) "format")
           [Attribute (Name "ball") "shape"]
           []]
        []);
   Assign (Name "cube")
     (Call (Attribute (Name "morphology") "cube") [] [("width", Constant (Int 5))]);
   Expr
     (Call (Name "print")
        [Call (Attribute (Constant (Str "cube shape: {}")) "format")
           [Attribute (Name "cube") "shape"]
           []]
        [])].

(* cell 41:
     selem = morphology.ball(radius=3)

     closing = morphology.closing(rescaled, selem=selem)
     dilation = morphology.dilation(rescaled, selem=selem)
     erosion = morphology.erosion(rescaled, selem=selem)
     opening = morphology.opening(rescaled, selem=selem)

     binary_closing = morphology.binary_closing(binary, selem=selem)
     binary_dilation = morphology.binary_dilation(binary, selem=selem)
     binary_erosion = morphology.binary_erosion(binary, selem=selem)
     binary_opening = morphology.binary_opening(binary, selem=selem)

     _, ((a, b, c, d), (e, f, g, h)) = plt.subplots(nrows=2, ncols=4, figsize=(16, 8))

     show_plane(a, erosion[32], title="Erosion")
     show_plane(b, dilation[32], title="Dilation")
     show_plane(c, closing[32], title="Closing")
     show_plane(d, opening[32], title="Opening")

     show_plane(e, binary_erosion[32], title="Binary erosion")
     show_plane(f, binary_dilation[32], title="Binary dilation")
     show_plane(g, binary_closing[32], title="Binary closing")
     show_plane(h, binary_opening[32], title="Binary opening")
*)
Definition cell_41 : list stmt :=
  [Assign (Name "selem")
     (Call (Attribute (Name "morphology") "ball") [] [("radius", Constant (Int 3))]);
   Assign (Name "closing")
     (Call (Attribute (Name "morphology") "closing") [Name "rescaled"]
        [("selem", Name "selem")]);
   Assign (Name "dilation")
     (Call (Attribute (Name "morphology") "dilation") [Name "rescaled"]
        [("selem", Name "selem")]);
   Assign (Name "erosion")
     (Call (Attribute (Name "morphology") "erosion") [Name "rescaled"]
        [("selem", Name "selem")]);
   Assign (Name "opening")
     (Call (Attribute (Name "morphology") "opening") [Name "rescaled"]
        [("selem", Name "selem")]);
   Assign (Name "binary_closing")
     (Call (Attribute (Name "morphology") "binary_closing") [Name "binary"]
        [("selem", Name "selem")]);
   Assign (Name "binary_dilation")
     (Call (Attribute (Name "morphology") "binary_dilation") [Name "binary"]
        [("selem", Name "selem")]);
   Assign (Name "binary_erosion")
     (Call (Attribute (Name "morphology") "binary_erosion") [Name "binary"]
        [("selem", Name "selem")]);
   Assign (Name "binary_opening")
     (Call (Attribute (Name "morphology") "binary_opening") [Name "binary"]
        [("selem", Name "selem")]);
   Assign
     (Tuple
        [Name "_";
         Tuple
           [Tuple [Name "a"; Name "b"; Name "c"; Name "d"];
            Tuple [Name "e"; Name "f"; Name "g"; Name "h"]]])
     (Call (Attribute (Name "plt") "subplots") []
        [("nrows", Constant (Int 2));
         ("ncols", Constant (Int 4));
         ("figsize", Tuple [Constant (Int 16); Constant (Int 8)])]);
   Expr
     (Call (Name "show_plane")
        [Name "a"; Subscript (Name "erosion") (Constant (Int 32))]
        [("title", Constant (Str "Erosion"))]);
   Expr
     (Call (Name "show_plane")
        [Name "b"; Subscript (Name "dilation") (Constant (Int 32))]
        [("title", Constant (Str "Dilation"))]);
   Expr
     (Call (Name "show_plane")
        [Name "c"; Subscript (Name "closing") (Constant (Int 32))]
        [("title", Constant (Str "Closing"))]);
   Expr
     (Call (Name "show_plane")
        [Name "d"; Subscript (Name "opening") (Constant (Int 32))]
        [("title", Constant (Str "Opening"))]);
   Expr
     (Call (Name "show_plane")
        [Name "e"; Subscript (Name "binary_erosion") (Constant (Int 32))]
        [("title", Constant (Str "Binary erosion"))]);
   Expr
     (Call (Name "show_plane")
        [Name "f"; Subscript (Name "binary_dilation") (Constant (Int 32))]
        [("title", Constant (Str "Binary dilation"))]);
   Expr
     (Call (Name "show_plane")
        [Name "g"; Subscript (Name "binary_closing") (Constant (Int 32))]
        [("title", Constant (Str "Binary closing"))]);
   Expr
     (Call (Name "show_plane")
        [Name "h"; Subscript (Name "binary_opening") (Constant (Int 32))]
        [("title", Constant (Str "Binary opening"))])].

(* cell 43:
     binary_equalized = equalized >= filters.threshold_li(equalized)

     despeckled1 = morphology.closing(
         morphology.opening(binary_equalized, selem=morphology.ball(1)),
         selem=morphology.ball(1)
     )

     despeckled3 = morphology.closing(
         morphology.opening(binary_equalized, selem=morphology.ball(3)),
         selem=morphology.ball(3)
     )

     _, (a, b, c) = plt.subplots(nrows=1, ncols=3, figsize=(16, 4))

     show_plane(a, binary_equalized[32], title="Noisy data")
     show_plane(b, despeckled1[32], title="Despeckled, r = 1")
     show_plane(c, despeckled3[32], title="Despeckled, r = 3")
*)
Definition cell_43 : list stmt :=
  [Assign (Name "binary_equalized")
     (Compare (Name "equalized") GtE
        (Call (Attribute (Name "filters") "threshold_li") [Name "equalized"] []));
   Assign (Name "despeckled1")
     (Call (Attribute (Name "morphology") "closing")
        [Call (Attribute (Name "morphology") "opening") [Name "binary_equalized"]
           [("selem", Call (Attribute (Name "morphology") "ball") [Constant (Int 1)] [])]]
        [("selem", Call (Attribute (Name "morphology") "ball") [Constant (Int 1)] [])]);
   Assign (Name "despeckled3")
     (Call (Attribute (Name "morphology") "closing")
        [Call (Attribute (Name "morphology") "opening") [Name "binary_equalized"]
           [("selem", Call (Attribute (Name "morphology") "ball") [Constant (Int 3)] [])]]
        [("selem", Call (Attribute (Name "morphology") "ball") [Constant (Int 3)] [])]);
   Assign (Tuple [Name "_"; Tuple [Name "a"; Name "b"; Name "c"]])
     (Call (Attribute (Name "plt") "subplots") []
        [("nrows", Constant (Int 1));
         ("ncols", Constant (Int 3));
         ("figsize", Tuple [Constant (Int 16); Constant (Int 4)])]);
   Expr
     (Call (Name "show_plane")
        [Name "a"; Subscript (Name "binary_equalized") (Constant (Int 32))]
        [("title", Constant (Str "Noisy data"))]);
   Expr
     (Call (Name "show_plane")
        [Name "b"; Subscript (Name "despeckled1") (Constant (Int 32))]
        [("title", Constant (Str "Despeckled, r = 1"))]);
   Expr
     (Call (Name "show_plane")
        [Name "c"; Subscript (Name "despeckled3") (Constant (Int 32))]
        [("title", Constant (Str "Despeckled, r = 3"))])].

(* cell 45:
     width = 20

     remove_holes = morphology.remove_small_holes(
         binary,
         min_size=width ** 3
     )

     display(remove_holes)
*)
Definition cell_45 : list stmt :=
  [Assign (Name "width") (Constant (Int 20));
   Assign (Name "remove_holes")
     (Call (Attribute (Name "morphology") "remove_small_holes") [Name "binary"]
        [("min_size", BinOp (Name "width") Pow (Constant (Int 3)))]);
   Expr (Call (Name "display") [Name "remove_holes"] [])].

(* cell 46:
     width = 20

     remove_objects = morphology.remove_small_objects(
         remove_holes,
         min_size=width ** 3
     )

     display(remove_objects)
*)
Definition cell_46 : list stmt :=
  [Assign (Name "width") (Constant (Int 20));
   Assign (Name "remove_objects")
     (Call (Attribute (Name "morphology") "remove_small_objects") [Name "remove_holes"]
        [("min_size", BinOp (Name "width") Pow (Constant (Int 3)))]);
   Expr (Call (Name "display") [Name "remove_objects"] [])].

(* cell 49:
     # Display label matrices with the background value 0 set to black.
     def get_cmap(labels, name="viridis"):
         cmap = cm.get_cmap("viridis")
         masked_labels = np.ma.masked_where(labels == 0, labels)
         cmap.set_bad(color="black")

         return masked_labels, cmap
*)
Definition cell_49 : list stmt :=
  [FunctionDef "get_cmap" [("labels", None); ("name", Some (Constant (Str "viridis")))]
     [Assign (Name "cmap")
        (Call (Attribute (Name "cm") "get_cmap") [Constant (Str "viridis")] []);
      Assign (Name "masked_labels")
        (Call (Attribute (Attribute (Name "np") "ma") "masked_where")
           [Compare (Name "labels") Eq (Constant (Int 0)); Name "labels"]
           []);
      Expr
        (Call (Attribute (Name "cmap") "set_bad") [] [("color", Constant (Str "black"))]);
      Return (Some (Tuple [Name "masked_labels"; Name "cmap"]))]].

(* cell 50:
     labels = measure.label(remove_objects)

     masked_labels, cmap = get_cmap(labels)

     display(masked_labels, cmap=cmap)
*)
Definition cell_50 : list stmt :=
  [Assign (Name "labels")
     (Call (Attribute (Name "measure") "label") [Name "remove_objects"] []);
   Assign (Tuple [Name "masked_labels"; Name "cmap"])
     (Call (Name "get_cmap") [Name "labels"] []);
   Expr (Call (Name "display") [Name "masked_labels"] [("cmap", Name "cmap")])].

(* cell 52:
     _, (a, b, c) = plt.subplots(nrows=1, ncols=3, figsize=(16, 4))

     show_plane(a, rescaled[32, :100, 125:], title="Rescaled")
     show_plane(b, masked_labels[32, :100, 125:], cmap=cmap, title="Labels")
     show_plane(c, labels[32, :100, 125:] == 8, title="Labels = 8")
*)
Definition cell_52 : list stmt :=
  [Assign (Tuple [Name "_"; Tuple [Name "a"; Name "b"; Name "c"]])
     (Call (Attribute (Name "plt") "subplots") []
        [("nrows", Constant (Int 1));
         ("ncols", Constant (Int 3));
         ("figsize", Tuple [Constant (Int 16); Constant (Int 4)])]);
   Expr
     (Call (Name "show_plane")
        [Name "a";
         Subscript (Name "rescaled")
           (Tuple
              [Constant (Int 32);
               Slice None (Some (Constant (Int 100))) None;
               Slice (Some (Constant (Int 125))) None None])]
        [("title", Constant (Str "Rescaled"))]);
   Expr
     (Call (Name "show_plane")
        [Name "b";
         Subscript (Name "masked_labels")
           (Tuple
              [Constant (Int 32);
               Slice None (Some (Constant (Int 100))) None;
               Slice (Some (Constant (Int 125))) None None])]
        [("cmap", Name "cmap"); ("title", Constant (Str "Labels"))]);
   Expr
     (Call (Name "show_plane")
        [Name "c";
         Compare
           (Subscript (Name "labels")
              (Tuple
                 [Constant (Int 32);
                  Slice None (Some (Constant (Int 100))) None;
                  Slice (Some (Constant (Int 125))) None None]))
           Eq
           (Constant (Int 8))]
        [("title", Constant (Str "Labels = 8"))])].

(* cell 54:
     distance = ndi.distance_transform_edt(remove_objects)

     peak_local_max = feature.peak_local_max(
         distance,
         footprint=np.ones((15, 15, 15), dtype=np.bool),
         indices=False,
         labels=measure.label(remove_objects)
     )

     markers = measure.label(peak_local_max)

     labels = morphology.watershed(
         -rescaled,
         markers,
         mask=remove_objects
     )

     masked_labels, cmap = get_cmap(labels)

     display(masked_labels, cmap=cmap)
*)
Definition cell_54 : list stmt :=
  [Assign (Name "distance")
     (Call (Attribute (Name "ndi") "distance_transform_edt") [Name "remove_objects"] []);
   Assign (Name "peak_local_max")
     (Call (Attribute (Name "feature") "peak_local_max") [Name "distance"]
        [("footprint",
          Call (Attribute (Name "np") "ones")
            [Tuple [Constant (Int 15); Constant (Int 15); Constant (Int 15)]]
            [("dtype", Attribute (Name "np") "bool")]);
         ("indices", Constant (Bool false));
         ("labels",
          Call (Attribute (Name "measure") "label") [Name "remove_objects"] [])]);
   Assign (Name "markers")
     (Call (Attribute (Name "measure") "label") [Name "peak_local_max"] []);
   Assign (Name "labels")
     (Call (Attribute (Name "morphology") "watershed")
        [UnaryOp USub (Name "rescaled"); Name "markers"]
        [("mask", Name "remove_objects")]);
   Assign (Tuple [Name "masked_labels"; Name "cmap"])
     (Call (Name "get_cmap") [Name "labels"] []);
   Expr (Call (Name "display") [Name "masked_labels"] [("cmap", Name "cmap")])].

(* cell 56:
     _, ((a, b, c), (d, e, f)) = plt.subplots(nrows=2, ncols=3, figsize=(16, 8))

     show_plane(a, masked_labels[32, :100, 125:], cmap=cmap, title="Labels")
     show_plane(b, labels[32, :100, 125:] == 20, title="Labels = 20")
     show_plane(c, labels[32, :100, 125:] == 21, title="Labels = 21")

     show_plane(d, masked_labels[32, 75:175, 125:], cmap=cmap, title="Labels")
     show_plane(e, labels[32, 75:175, 125:] == 13, title="Labels = 13")
     show_plane(f, labels[32, 75:175, 125:] == 14, title="Labels = 14")
*)
Definition cell_56 : list stmt :=
  [Assign
     (Tuple
        [Name "_";
         Tuple
           [Tuple [Name "a"; Name "b"; Name "c"]; Tuple [Name "d"; Name "e"; Name "f"]]])
     (Call (Attribute (Name "plt") "subplots") []
        [("nrows", Constant (Int 2));
         ("ncols", Constant (Int 3));
         ("figsize", Tuple [Constant (Int 16); Constant (Int 8)])]);
   Expr
     (Call (Name "show_plane")
        [Name "a";
         Subscript (Name "masked_labels")
           (Tuple
              [Constant (Int 32);
               Slice None (Some (Constant (Int 100))) None;
               Slice (Some (Constant (Int 125))) None None])]
        [("cmap", Name "cmap"); ("title", Constant (Str "Labels"))]);
   Expr
     (Call (Name "show_plane")
        [Name "b";
         Compare
           (Subscript (Name "labels")
              (Tuple
                 [Constant (Int 32);
                  Slice None (Some (Constant (Int 100))) None;
                  Slice (Some (Constant (Int 125))) None None]))
           Eq
           (Constant (Int 20))]
        [("title", Constant (Str "Labels = 20"))]);
   Expr
     (Call (Name "show_plane")
        [Name "c";
         Compare
           (Subscript (Name "labels")
              (Tuple
                 [Constant (Int 32);
                  Slice None (Some (Constant (Int 100))) None;
                  Slice (Some (Constant (Int 125))) None None]))
           Eq
           (Constant (Int 21))]
        [("title", Constant (Str "Labels = 21"))]);
   Expr
     (Call (Name "show_plane")
        [Name "d";
         Subscript (Name "masked_labels")
           (Tuple
              [Constant (Int 32);
               Slice (Some (Constant (Int 75))) (Some (Constant (Int 175))) None;
               Slice (Some (Constant (Int 125))) None None])]
        [("cmap", Name "cmap"); ("title", Constant (Str "Labels"))]);
   Expr
     (Call (Name "show_plane")
        [Name "e";
         Compare
           (Subscript (Name "labels")
              (Tuple
                 [Constant (Int 32);
                  Slice (Some (Constant (Int 75))) (Some (Constant (Int 175))) None;
                  Slice (Some (Constant (Int 125))) None None]))
           Eq
           (Constant (Int 13))]
        [("title", Constant (Str "Labels = 13"))]);
   Expr
     (Call (Name "show_plane")
        [Name "f";
         Compare
           (Subscript (Name "labels")
              (Tuple
                 [Constant (Int 32);
                  Slice (Some (Constant (Int 75))) (Some (Constant (Int 175))) None;
                  Slice (Some (Constant (Int 125))) None None]))
           Eq
           (Constant (Int 14))]
        [("title", Constant (Str "Labels = 14"))])].

(* cell 58:
     _, (a, b, c) = plt.subplots(nrows=1, ncols=3, figsize=(16, 8))

     show_plane(a, masked_labels[32, 156:, 20:150], cmap=cmap)
     show_plane(b, masked_labels[34, 90:190, 126:], cmap=cmap)
     show_plane(c, masked_labels[32, 150:, 118:248], cmap=cmap)
*)
Definition cell_58 : list stmt :=
  [Assign (Tuple [Name "_"; Tuple [Name "a"; Name "b"; Name "c"]])
     (Call (Attribute (Name "plt") "subplots") []
        [("nrows", Constant (Int 1));
         ("ncols", Constant (Int 3));
         ("figsize", Tuple [Constant (Int 16); Constant (Int 8)])]);
   Expr
     (Call (Name "show_plane")
        [Name "a";
         Subscript (Name "masked_labels")
           (Tuple
              [Constant (Int 32);
               Slice (Some (Constant (Int 156))) None None;
               Slice (Some (Constant (Int 20))) (Some (Constant (Int 150))) None])]
        [("cmap", Name "cmap")]);
   Expr
     (Call (Name "show_plane")
        [Name "b";
         Subscript (Name "masked_labels")
           (Tuple
              [Constant (Int 34);
               Slice (Some (Constant (Int 90))) (Some (Constant (Int 190))) None;
               Slice (Some (Constant (Int 126))) None None])]
        [("cmap", Name "cmap")]);
   Expr
     (Call (Name "show_plane")
        [Name "c";
         Subscript (Name "masked_labels")
           (Tuple
              [Constant (Int 32);
               Slice (Some (Constant (Int 150))) None None;
               Slice (Some (Constant (Int 118))) (Some (Constant (Int 248))) None])]
        [("cmap", Name "cmap")])].

(* cell 60:
     _, axes = plt.subplots(nrows=3, ncols=4, figsize=(16, 12))

     vmin = distance.min()
     vmax = distance.max()

     for index, ax in enumerate(axes.flatten()):
         ax.imshow(
             distance[31 + index],
             cmap="gray",
             vmin=vmin,
             vmax=vmax
         )

         peaks = np.nonzero(peak_local_max[31 + index])

         ax.plot(peaks[1], peaks[0], "r.")
         ax.set_xticks([])
         ax.set_yticks([])
*)
Definition cell_60 : list stmt :=
  [Assign (Tuple [Name "_"; Name "axes"])
     (Call (Attribute (Name "plt") "subplots") []
        [("nrows", Constant (Int 3));
         ("ncols", Constant (Int 4));
         ("figsize", Tuple [Constant (Int 16); Constant (Int 12)])]);
   Assign (Name "vmin") (Call (Attribute (Name "distance") "min") [] []);
   Assign (Name "vmax") (Call (Attribute (Name "distance") "max") [] []);
   For (Tuple [Name "index"; Name "ax"])
     (Call (Name "enumerate") [Call (Attribute (Name "axes") "flatten") [] []] [])
     [Expr
        (Call (Attribute (Name "ax") "imshow")
           [Subscript (Name "distance") (BinOp (Constant (Int 31)) Add (Name "index"))]
           [("cmap", Constant (Str "gray")); ("vmin", Name "vmin");
            ("vmax", Name "vmax")]);
      Assign (Name "peaks")
        (Call (Attribute (Name "np") "nonzero")
           [Subscript (Name "peak_local_max")
              (BinOp (Constant (Int 31)) Add (Name "index"))]
           []);
      Expr
        (Call (Attribute (Name "ax") "plot")
           [Subscript (Name "peaks") (Constant (Int 1));
            Subscript (Name "peaks") (Constant (Int 0));
            Constant (Str "r.")]
           []);
      Expr (Call (Attribute (Name "ax") "set_xticks") [ListLit []] []);
      Expr (Call (Attribute (Name "ax") "set_yticks") [ListLit []] [])]].

(* cell 61:
     _, ((a, b, c), (d, e, f)) = plt.subplots(nrows=2, ncols=3, figsize=(16, 8))

     show_plane(a, remove_objects[10:, 193:253, 74])
     show_plane(b, remove_objects[10:, 110:170, 184])
     show_plane(c, remove_objects[10:, 170:230, 179])

     show_plane(d, distance[10:, 193:253, 74])
     show_plane(e, distance[10:, 110:170, 184])
     show_plane(f, distance[10:, 170:230, 179])
*)
Definition cell_61 : list stmt :=
  [Assign
     (Tuple
        [Name "_";
         Tuple
           [Tuple [Name "a"; Name "b"; Name "c"]; Tuple [Name "d"; Name "e"; Name "f"]]])
     (Call (Attribute (Name "plt") "subplots") []
        [("nrows", Constant (Int 2));
         ("ncols", Constant (Int 3));
         ("figsize", Tuple [Constant (Int 16); Constant (Int 8)])]);
   Expr
     (Call (Name "show_plane")
        [Name "a";
         Subscript (Name "remove_objects")
           (Tuple
              [Slice (Some (Constant (Int 10))) None None;
               Slice (Some (Constant (Int 193))) (Some (Constant (Int 253))) None;
               Constant (Int 74)])]
        []);
   Expr
     (Call (Name "show_plane")
        [Name "b";
         Subscript (Name "remove_objects")
           (Tuple
              [Slice (Some (Constant (Int 10))) None None;
               Slice (Some (Constant (Int 110))) (Some (Constant (Int 170))) None;
               Constant (Int 184)])]
        []);
   Expr
     (Call (Name "show_plane")
        [Name "c";
         Subscript (Name "remove_objects")
           (Tuple
              [Slice (Some (Constant (Int 10))) None None;
               Slice (Some (Constant (Int 170))) (Some (Constant (Int 230))) None;
               Constant (Int 179)])]
        []);
   Expr
     (Call (Name "show_plane")
        [Name "d";
         Subscript (Name "distance")
           (Tuple
              [Slice (Some (Constant (Int 10))) None None;
               Slice (Some (Constant (Int 193))) (Some (Constant (Int 253))) None;
               Constant (Int 74)])]
        []);
   Expr
     (Call (Name "show_plane")
        [Name "e";
         Subscript (Name "distance")
           (Tuple
              [Slice (Some (Constant (Int 10))) None None;
               Slice (Some (Constant (Int 110))) (Some (Constant (Int 170))) None;
               Constant (Int 184)])]
        []);
   Expr
     (Call (Name "show_plane")
        [Name "f";
         Subscript (Name "distance")
           (Tuple
              [Slice (Some (Constant (Int 10))) None None;
               Slice (Some (Constant (Int 170))) (Some (Constant (Int 230))) None;
               Constant (Int 179)])]
        [])].

(* cell 64:
     interior_labels = segmentation.clear_border(labels)

     masked_labels, cmap = get_cmap(interior_labels)

     print("interior labels: {}".format(np.unique(interior_labels)))

     display(masked_labels, cmap=cmap)
*)
Definition cell_64 : list stmt :=
  [Assign (Name "interior_labels")
     (Call (Attribute (Name "segmentation") "clear_border") [Name "labels"] []);
   Assign (Tuple [Name "masked_labels"; Name "cmap"])
     (Call (Name "get_cmap") [Name "interior_labels"] []);
   Expr
     (Call (Name "print")
        [Call (Attribute (Constant (Str "interior labels: {}")) "format")
           [Call (Attribute (Name "np") "unique") [Name "interior_labels"] []]
           []]
        []);
   Expr (Call (Name "display") [Name "masked_labels"] [("cmap", Name "cmap")])].

(* cell 66:
     relabeled, _, _ = segmentation.relabel_sequential(interior_labels)

     print("relabeled labels: {}".format(np.unique(relabeled)))
*)
Definition cell_66 : list stmt :=
  [Assign (Tuple [Name "relabeled"; Name "_"; Name "_"])
     (Call (Attribute (Name "segmentation") "relabel_sequential")
        [Name "interior_labels"]
        []);
   Expr
     (Call (Name "print")
        [Call (Attribute (Constant (Str "relabeled labels: {}")) "format")
           [Call (Attribute (Name "np") "unique") [Name "relabeled"] []]
           []]
        [])].

(* cell 68:
     regionprops = measure.regionprops(relabeled, intensity_image=data)

     supported = []
     unsupported = []

     for prop in regionprops[0]:
         try:
             regionprops[0][prop]
             supported.append(prop)
         except NotImplementedError:
             unsupported.append(prop)

     print("Supported properties:")
     print("  " + "\n  ".join(supported))
     print()
     print("Unsupported properties:")
     print("  " + "\n  ".join(unsupported))
*)
Definition cell_68 : list stmt :=
  [Assign (Name "regionprops")
     (Call (Attribute (Name "measure") "regionprops") [Name "relabeled"]
        [("intensity_image", Name "data")]);
   Assign (Name "supported") (ListLit []);
   Assign (Name "unsupported") (ListLit []);
   For (Name "prop") (Subscript (Name "regionprops") (Constant (Int 0)))
     [Try
        [Expr
           (Subscript (Subscript (Name "regionprops") (Constant (Int 0))) (Name "prop"));
         Expr (Call (Attribute (Name "supported") "append") [Name "prop"] [])]
        [ExceptHandler (Some (Name "NotImplementedError")) None
           [Expr (Call (Attribute (Name "unsupported") "append") [Name "prop"] [])]]
        []
        []];
   Expr (Call (Name "print") [Constant (Str "Supported properties:")] []);
   Expr
     (Call (Name "print")
        [BinOp (Constant (Str "  ")) Add
           (Call (Attribute (Constant (Str "\n  ")) "join") [Name "supported"] [])]
        []);
   Expr (Call (Name "print") [] []);
   Expr (Call (Name "print") [Constant (Str "Unsupported properties:")] []);
   Expr
     (Call (Name "print")
        [BinOp (Constant (Str "  ")) Add
           (Call (Attribute (Constant (Str "\n  ")) "join") [Name "unsupported"] [])]
        [])].

(* cell 70:
     print("measured regions: {}".format([regionprop.label for regionprop in regionprops]))
*)
Definition cell_70 : list stmt :=
  [Expr
     (Call (Name "print")
        [Call (Attribute (Constant (Str "measured regions: {}")) "format")
           [ListComp (Attribute (Name "regionprop") "label") (Name "regionprop")
              (Name "regionprops")]
           []]
        [])].

(* cell 72:
     volumes = [regionprop.area for regionprop in regionprops]

     print("total pixels: {}".format(volumes))
*)
Definition cell_72 : list stmt :=
  [Assign (Name "volumes")
     (ListComp (Attribute (Name "regionprop") "area") (Name "regionprop")
        (Name "regionprops"));
   Expr
     (Call (Name "print")
        [Call (Attribute (Constant (Str "total pixels: {}")) "format") [Name "volumes"]
           []]
        [])].

(* cell 74:
     max_volume = np.max(volumes)
     mean_volume = np.mean(volumes)
     min_volume = np.min(volumes)
     sd_volume = np.std(volumes)
     total_volume = np.sum(volumes)

     print("Volume statistics")
     print("total: {}".format(total_volume))
     print("min: {}".format(min_volume))
     print("max: {}".format(max_volume))
     print("mean: {:0.2f}".format(mean_volume))
     print("standard deviation: {:0.2f}".format(sd_volume))
*)
Definition cell_74 : list stmt :=
  [Assign (Name "max_volume") (Call (Attribute (Name "np") "max") [Name "volumes"] []);
   Assign (Name "mean_volume") (Call (Attribute (Name "np") "mean") [Name "volumes"] []);
   Assign (Name "min_volume") (Call (Attribute (Name "np") "min") [Name "volumes"] []);
   Assign (Name "sd_volume") (Call (Attribute (Name "np") "std") [Name "volumes"] []);
   Assign (Name "total_volume") (Call (Attribute (Name "np") "sum") [Name "volumes"] []);
   Expr (Call (Name "print") [Constant (Str "Volume statistics")] []);
   Expr
     (Call (Name "print")
        [Call (Attribute (Constant (Str "total: {}")) "format") [Name "total_volume"] []]
        []);
   Expr
     (Call (Name "print")
        [Call (Attribute (Constant (Str "min: {}")) "format") [Name "min_volume"] []]
        []);
   Expr
     (Call (Name "print")
        [Call (Attribute (Constant (Str "max: {}")) "format") [Name "max_volume"] []]
        []);
   Expr
     (Call (Name "print")
        [Call (Attribute (Constant (Str "mean: {:0.2f}")) "format") [Name "mean_volume"]
           []]
        []);
   Expr
     (Call (Name "print")
        [Call (Attribute (Constant (Str "standard deviation: {:0.2f}")) "format")
           [Name "sd_volume"]
           []]
        [])].

(* cell 76:
     # skimage.measure.marching_cubes expects ordering (row, col, pln)
     volume = (relabeled == regionprops[3].label).transpose(1, 2, 0)

     verts_px, faces_px, _, _ = measure.marching_cubes(volume, level=0, spacing=(1.0, 1.0, 1.0))
     surface_area_pixels = measure.mesh_surface_area(verts_px, faces_px)

     verts, faces, _, _ = measure.marching_cubes(volume, level=0, spacing=tuple(spacing))
     surface_area_actual = measure.mesh_surface_area(verts, faces)

     print("surface area (total pixels): {:0.2f}".format(surface_area_pixels))
     print("surface area (actual): {:0.2f}".format(surface_area_actual))
*)
Definition cell_76 : list stmt :=
  [Assign (Name "volume")
     (Call
        (Attribute
           (Compare (Name "relabeled") Eq
              (Attribute (Subscript (Name "regionprops") (Constant (Int 3))) "label"))
           "transpose")
        [Constant (Int 1); Constant (Int 2); Constant (Int 0)]
        []);
   Assign (Tuple [Name "verts_px"; Name "faces_px"; Name "_"; Name "_"])
     (Call (Attribute (Name "measure") "marching_cubes") [Name "volume"]
        [("level", Constant (Int 0));
         ("spacing",
          Tuple
            [Constant (Float (1 # 1)); Constant (Float (1 # 1));
             Constant (Float (1 # 1))])]);
   Assign (Name "surface_area_pixels")
     (Call (Attribute (Name "measure") "mesh_surface_area")
        [Name "verts_px"; Name "faces_px"]
        []);
   Assign (Tuple [Name "verts"; Name "faces"; Name "_"; Name "_"])
     (Call (Attribute (Name "measure") "marching_cubes") [Name "volume"]
        [("level", Constant (Int 0));
         ("spacing", Call (Name "tuple") [Name "spacing"] [])]);
   Assign (Name "surface_area_actual")
     (Call (Attribute (Name "measure") "mesh_surface_area") [Name "verts"; Name "faces"]
        []);
   Expr
     (Call (Name "print")
        [Call
           (Attribute (Constant (Str "surface area (total pixels): {:0.2f}")) "format")
           [Name "surface_area_pixels"]
           []]
        []);
   Expr
     (Call (Name "print")
        [Call (Attribute (Constant (Str "surface area (actual): {:0.2f}")) "format")
           [Name "surface_area_actual"]
           []]
        [])].

(* cell 78:
     fig = plt.figure(figsize=(10, 10))
     ax = fig.add_subplot(111, projection="3d")

     mesh = Poly3DCollection(verts_px[faces_px])
     mesh.set_edgecolor("k")
     ax.add_collection3d(mesh)

     ax.set_xlabel("col")
     ax.set_ylabel("row")
     ax.set_zlabel("pln")

     min_pln, min_row, min_col, max_pln, max_row, max_col = regionprops[3].bbox

     ax.set_xlim(min_row, max_row)
     ax.set_ylim(min_col, max_col)
     ax.set_zlim(min_pln, max_pln)

     plt.tight_layout()
     plt.show()
*)
Definition cell_78 : list stmt :=
  [Assign (Name "fig")
     (Call (Attribute (Name "plt") "figure") []
        [("figsize", Tuple [Constant (Int 10); Constant (Int 10)])]);
   Assign (Name "ax")
     (Call (Attribute (Name "fig") "add_subplot") [Constant (Int 111)]
        [("projection", Constant (Str "3d"))]);
   Assign (Name "mesh")
     (Call (Name "Poly3DCollection") [Subscript (Name "verts_px") (Name "faces_px")] []);
   Expr (Call (Attribute (Name "mesh") "set_edgecolor") [Constant (Str "k")] []);
   Expr (Call (Attribute (Name "ax") "add_collection3d") [Name "mesh"] []);
   Expr (Call (Attribute (Name "ax") "set_xlabel") [Constant (Str "col")] []);
   Expr (Call (Attribute (Name "ax") "set_ylabel") [Constant (Str "row")] []);
   Expr (Call (Attribute (Name "ax") "set_zlabel") [Constant (Str "pln")] []);
   Assign
     (Tuple
        [Name "min_pln"; Name "min_row"; Name "min_col"; Name "max_pln"; Name "max_row";
         Name "max_col"])
     (Attribute (Subscript (Name "regionprops") (Constant (Int 3))) "bbox");
   Expr (Call (Attribute (Name "ax") "set_xlim") [Name "min_row"; Name "max_row"] []);
   Expr (Call (Attribute (Name "ax") "set_ylim") [Name "min_col"; Name "max_col"] []);
   Expr (Call (Attribute (Name "ax") "set_zlim") [Name "min_pln"; Name "max_pln"] []);
   Expr (Call (Attribute (Name "plt") "tight_layout") [] []);
   Expr (Call (Attribute (Name "plt") "show") [] [])].

Definition notebook : list (nat * list stmt) :=
  [(0, cell_00); (1, cell_01); (3, cell_03); (5, cell_05); (7, cell_07);
   (9, cell_09); (10, cell_10); (12, cell_12); (13, cell_13);
   (16, cell_16); (17, cell_17); (19, cell_19); (21, cell_21);
   (22, cell_22); (24, cell_24); (25, cell_25); (27, cell_27);
   (29, cell_29); (31, cell_31); (32, cell_32); (33, cell_33);
   (35, cell_35); (36, cell_36); (39, cell_39); (41, cell_41);
   (43, cell_43); (45, cell_45); (46, cell_46); (49, cell_49);
   (50, cell_50); (52, cell_52); (54, cell_54); (56, cell_56);
   (58, cell_58); (60, cell_60); (61, cell_61); (64, cell_64);
   (66, cell_66); (68, cell_68); (70, cell_70); (72, cell_72);
   (74, cell_74); (76, cell_76); (78, cell_78)].

(** *** Traversals *)

Definition script : list stmt := flat_map snd notebook.

(** Every statement of a block, nested ones included, in source order.
    With [defs] false the bodies of function definitions are left out, which
    leaves the statements the kernel runs as it evaluates the cells. *)
Fixpoint substmts (defs : bool) (s : stmt) : list stmt :=
  s :: match s with
       | FunctionDef _ _ body => if defs then flat_map (substmts defs) body else []
       | For _ _ body => flat_map (substmts defs) body
       | If _ body orelse =>
           flat_map (substmts defs) body ++ flat_map (substmts defs) orelse
       | Try body handlers orelse finalbody =>
           flat_map (substmts defs) body
           ++ flat_map (handler_stmts defs) handlers
           ++ flat_map (substmts defs) orelse
           ++ flat_map (substmts defs) finalbody
       | _ => []
       end
with handler_stmts (defs : bool) (h : excepthandler) : list stmt :=
  match h with
  | ExceptHandler _ _ body => flat_map (substmts defs) body
  end.

Definition all_stmts (p : list stmt) : list stmt := flat_map (substmts true) p.

Definition handler_type (h : excepthandler) : option expr :=
  match h with ExceptHandler t _ _ => t end.

Definition is_try (s : stmt) : bool :=
  match s with Try _ _ _ _ => true | _ => false end.

(** The [try] statements of a program, wherever they stand. *)
Definition try_statements (p : list stmt) : list stmt :=
  List.filter is_try (all_stmts p).

(** The call sites of an expression in the order Python evaluates them:
    callee, positional arguments, keyword arguments, then the call itself. *)
Fixpoint expr_calls (e : expr) : list expr :=
  match e with
  | Name _ | Constant _ => []
  | Attribute v _ => expr_calls v
  | Subscript v i => expr_calls v ++ expr_calls i
  | Slice l u s =>
      from_option expr_calls [] l ++ from_option expr_calls [] u
      ++ from_option expr_calls [] s
  | Tuple es | ListLit es => flat_map expr_calls es
  | Call f args kws =>
      expr_calls f ++ flat_map expr_calls args
      ++ flat_map (fun kw => expr_calls (snd kw)) kws ++ [e]
  | UnaryOp _ x => expr_calls x
  | BinOp l _ r | Compare l _ r => expr_calls l ++ expr_calls r
  | ListComp elt _ iter => expr_calls iter ++ expr_calls elt
  end.

(** The call sites of a statement.  An assignment evaluates its right-hand
    side before its target; a loop evaluates its iterable, then its body. *)
Fixpoint stmt_calls (defs : bool) (s : stmt) : list expr :=
  match s with
  | Magic _ | Import _ | ImportFrom _ _ => []
  | FunctionDef _ params body =>
      flat_map (fun p => from_option expr_calls [] (snd p)) params
      ++ (if defs then flat_map (stmt_calls defs) body else [])
  | Return v => from_option expr_calls [] v
  | Assign t v => expr_calls v ++ expr_calls t
  | For _ iter body => expr_calls iter ++ flat_map (stmt_calls defs) body
  | If c body orelse =>
      expr_calls c ++ flat_map (stmt_calls defs) body
      ++ flat_map (stmt_calls defs) orelse
  | Try body handlers orelse finalbody =>
      flat_map (stmt_calls defs) body
      ++ flat_map (handler_calls defs) handlers
      ++ flat_map (stmt_calls defs) orelse
      ++ flat_map (stmt_calls defs) finalbody
  | Expr v => expr_calls v
  end
with handler_calls (defs : bool) (h : excepthandler) : list expr :=
  match h with
  | ExceptHandler t _ body =>
      from_option expr_calls [] t ++ flat_map (stmt_calls defs) body
  end.

(** The dotted name a call goes through: [io.imread], [display],
    [data.min].  A receiver that is not a name (a literal, a call result)
    is written [<expr>]. *)
Fixpoint dotted (e : expr) : string :=
  match e with
  | Name x => x
  | Attribute v a => dotted v +:+ "." +:+ a
  | _ => "<expr>"
  end.

Definition callee (e : expr) : string :=
  match e with
  | Call f _ _ => dotted f
  | _ => "<expr>"
  end.

(** Every expression a statement holds, and every subexpression of an
    expression. *)
Fixpoint subexprs (e : expr) : list expr :=
  e :: match e with
       | Name _ | Constant _ => []
       | Attribute v _ => subexprs v
       | Subscript v i => subexprs v ++ subexprs i
       | Slice l u s =>
           from_option subexprs [] l ++ from_option subexprs [] u
           ++ from_option subexprs [] s
       | Tuple es | ListLit es => flat_map subexprs es
       | Call f args kws =>
           subexprs f ++ flat_map subexprs args
           ++ flat_map (fun kw => subexprs (snd kw)) kws
       | UnaryOp _ x => subexprs x
       | BinOp l _ r | Compare l _ r => subexprs l ++ subexprs r
       | ListComp elt t iter => subexprs elt ++ subexprs t ++ subexprs iter
       end.

Definition stmt_exprs (s : stmt) : list expr :=
  match s with
  | FunctionDef _ params _ =>
      flat_map (fun p => from_option (fun e => [e]) [] (snd p)) params
  | Return v => from_option (fun e => [e]) [] v
  | Assign t v => [t; v]
  | For t iter _ => [t; iter]
  | If c _ _ => [c]
  | Try _ handlers _ _ =>
      flat_map (fun h => from_option (fun e => [e]) [] (handler_type h)) handlers
  | Expr v => [v]
  | _ => []
  end.

Definition all_exprs (p : list stmt) : list expr :=
  flat_map subexprs (flat_map stmt_exprs (all_stmts p)).

Definition all_calls (p : list stmt) : list expr :=
  flat_map (stmt_calls true) p.

(** The exception classes the handlers of a program name; a bare [except]
    shows as [<bare>]. *)
Definition handled_exceptions (p : list stmt) : list string :=
  flat_map
    (fun s => match s with
              | Try _ handlers _ _ =>
                  map (fun h => from_option dotted "<bare>" (handler_type h))
                      handlers
              | _ => []
              end)
    (all_stmts p).

(** Statements that carry control flow of the program's own. *)
Definition is_control_flow (s : stmt) : bool :=
  match s with
  | For _ _ _ | If _ _ _ | Try _ _ _ _ => true
  | _ => false
  end.

(** *** Thresholding comparisons *)

Definition is_threshold_call (e : expr) : bool :=
  match e with
  | Call f _ _ =>
      existsb (String.eqb (dotted f))
              ["filters.threshold_li"; "filters.threshold_otsu"]
  | _ => false
  end.

(** The names a program binds to a computed threshold. *)
Definition threshold_names (p : list stmt) : list string :=
  flat_map
    (fun s => match s with
              | Assign (Name x) v => if is_threshold_call v then [x] else []
              | _ => []
              end)
    (all_stmts p).

Definition is_threshold_value (p : list stmt) (e : expr) : bool :=
  is_threshold_call e
  || match e with
     | Name x => existsb (String.eqb x) (threshold_names p)
     | _ => false
     end.

(** The comparisons one of whose operands is a computed threshold. *)
Definition threshold_comparisons (p : list stmt) : list expr :=
  List.filter
    (fun e => match e with
              | Compare l _ r => is_threshold_value p l || is_threshold_value p r
              | _ => false
              end)
    (all_exprs p).

(** *** File access

    The routines of the imported libraries, and the built-ins, that open a
    file, by the name the script would call them through. *)
Definition file_readers : list string :=
  ["io.imread"; "io.imread_collection"; "io.load_sift"; "io.load_surf";
   "plt.imread"; "np.load"; "np.loadtxt"; "np.genfromtxt"; "np.fromfile";
   "np.memmap"; "open"].

Definition file_writers : list string :=
  ["io.imsave"; "plt.savefig"; "plt.imsave"; "np.save"; "np.savez";
   "np.savez_compressed"; "np.savetxt"; "np.memmap"; "open"].

(** Methods that write the object they are called on to a file. *)
Definition file_writer_methods : list string :=
  ["savefig"; "tofile"; "dump"; "save"; "write"; "writelines"].

Definition method_name (e : expr) : string :=
  match e with
  | Call (Attribute _ m) _ _ => m
  | _ => EmptyString
  end.

Definition reads_file (e : expr) : bool :=
  existsb (String.eqb (callee e)) file_readers.

Definition writes_file (e : expr) : bool :=
  existsb (String.eqb (callee e)) file_writers
  || existsb (String.eqb (method_name e)) file_writer_methods.

(** The distinct routines a program calls. *)
Definition callees (p : list stmt) : list string :=
  remove_dups (map callee (all_calls p)).

(** *** Events: the calls the kernel makes, cell by cell, in order *)

Definition cell_events (c : nat * list stmt) : list (nat * expr) :=
  map (pair (fst c)) (flat_map (stmt_calls false) (snd c)).

Definition events : list (nat * expr) := flat_map cell_events notebook.

(** The stages of the pipeline, recognised by the library routine called. *)
Inductive stage :=
| Load | Contrast | Edge | Denoise | Threshold | Morphology | Labeling
| Watershed | Measure | Visualize.

#[global] Instance stage_eq_dec : EqDecision stage.
Proof. solve_decision. Defined.

Definition in_list (x : string) (l : list string) : bool :=
  existsb (String.eqb x) l.

(** Receivers of plotting calls: pyplot, and the names the script binds to
    matplotlib figures, axes and artists. *)
Definition plot_receivers : list string :=
  ["plt"; "fig"; "ax"; "a"; "b"; "c"; "d"; "mesh"].

Definition plot_helpers : list string :=
  ["io.imshow"; "display"; "show_plane"; "plot_hist"; "get_cmap";
   "Poly3DCollection"].

Definition receiver (name : string) : string :=
  match String.index 0 "." name with
  | Some n => String.substring 0 n name
  | None => EmptyString
  end.

Definition stage_of (name : string) : option stage :=
  if in_list name ["io.imread"] then Some Load
  else if in_list name ["exposure.adjust_gamma"; "exposure.equalize_hist";
                        "exposure.rescale_intensity"] then Some Contrast
  else if in_list name ["filters.sobel"] then Some Edge
  else if in_list name ["filters.gaussian"; "filters.median";
                        "restoration.denoise_bilateral"] then Some Denoise
  else if in_list name ["filters.threshold_li"; "filters.threshold_otsu"]
  then Some Threshold
  else if in_list name ["morphology.closing"; "morphology.opening";
                        "morphology.dilation"; "morphology.erosion";
                        "morphology.binary_closing"; "morphology.binary_opening";
                        "morphology.binary_dilation"; "morphology.binary_erosion";
                        "morphology.remove_small_holes";
                        "morphology.remove_small_objects"] then Some Morphology
  else if in_list name ["measure.label"] then Some Labeling
  else if in_list name ["morphology.watershed"] then Some Watershed
  else if in_list name ["measure.regionprops"; "measure.marching_cubes";
                        "measure.mesh_surface_area"] then Some Measure
  else if in_list name plot_helpers || in_list (receiver name) plot_receivers
  then Some Visualize
  else None.

Definition at_stage (st : stage) (ev : nat * expr) : bool :=
  bool_decide (stage_of (callee (snd ev)) = Some st).

(** [precedes p q l]: every [p]-event of [l] comes strictly before every
    [q]-event. *)
Definition precedes {A} (p q : A -> bool) (l : list A) : Prop :=
  forall i j x y, l !! i = Some x -> l !! j = Some y ->
                  p x = true -> q y = true -> (i < j)%nat.

(** The executable check: once a [q]-event has been seen, no [p]-event
    follows (nor is that event itself a [p]-event). *)
Fixpoint precedesb {A} (p q : A -> bool) (l : list A) : bool :=
  match l with
  | [] => true
  | x :: l' => if q x then forallb (fun y => negb (p y)) l else precedesb p q l'
  end.

(** The stages of a run in the order they are first, respectively last,
    entered. *)
Definition stages_of (l : list (nat * expr)) : list stage :=
  omap (fun ev => stage_of (callee (snd ev))) l.

Definition last_occurrences (l : list stage) : list stage := remove_dups l.

Definition first_occurrences (l : list stage) : list stage :=
  rev (remove_dups (rev l)).

Definition in_cell (n : nat) (ev : nat * expr) : bool := (fst ev =? n)%nat.

Definition is_assign (s : stmt) : bool :=
  match s with Assign _ _ => true | _ => false end.

(** *** Bindings: what each name is bound to

    A symbolic run of straight-line code.  An assignment to a name binds it
    to its right-hand side with the names bound so far replaced by what
    they are bound to; unpacking a tuple binds each name to the item it
    receives.  A name written inside a loop, a conditional or a [try], or
    through a subscript, is forgotten: it then stands for itself. *)

Fixpoint target_names (t : expr) : list string :=
  match t with
  | Name x => [x]
  | Tuple es | ListLit es => flat_map target_names es
  | Subscript v _ | Attribute v _ => target_names v
  | _ => []
  end.

Fixpoint assigned_names (s : stmt) : list string :=
  match s with
  | Assign t _ => target_names t
  | For t _ body => target_names t ++ flat_map assigned_names body
  | If _ body orelse =>
      flat_map assigned_names body ++ flat_map assigned_names orelse
  | Try body handlers orelse finalbody =>
      flat_map assigned_names body
      ++ flat_map handler_assigned handlers
      ++ flat_map assigned_names orelse
      ++ flat_map assigned_names finalbody
  | FunctionDef f _ _ => [f]
  | Import names | ImportFrom _ names =>
      map (fun a => from_option id (fst a) (snd a)) names
  | _ => []
  end
with handler_assigned (h : excepthandler) : list string :=
  match h with
  | ExceptHandler _ n body =>
      from_option (fun x => [x]) [] n ++ flat_map assigned_names body
  end.

Definition forget (names : list string) (env : gmap string expr) :
    gmap string expr :=
  foldr delete env names.

Fixpoint subst (env : gmap string expr) (e : expr) : expr :=
  match e with
  | Name x => from_option id e (env !! x)
  | Constant _ => e
  | Attribute v a => Attribute (subst env v) a
  | Subscript v i => Subscript (subst env v) (subst env i)
  | Slice l u s =>
      Slice (option_map (subst env) l) (option_map (subst env) u)
            (option_map (subst env) s)
  | Tuple es => Tuple (map (subst env) es)
  | ListLit es => ListLit (map (subst env) es)
  | Call f args kws =>
      Call (subst env f) (map (subst env) args)
           (map (fun kw => (fst kw, subst env (snd kw))) kws)
  | UnaryOp op x => UnaryOp op (subst env x)
  | BinOp l op r => BinOp (subst env l) op (subst env r)
  | Compare l op r => Compare (subst env l) op (subst env r)
  | ListComp elt t iter =>
      ListComp (subst (forget (target_names t) env) elt) t (subst env iter)
  end.

(** [unpack t v env]: bind the names of target [t] to (the items of) [v]. *)
Fixpoint unpack (t : expr) (v : expr) (env : gmap string expr) :
    gmap string expr :=
  match t with
  | Name x => <[x := v]> env
  | Tuple es | ListLit es =>
      (fix items (es : list expr) (k : Z) (env : gmap string expr) :=
         match es with
         | [] => env
         | t' :: es' =>
             items es' (k + 1)%Z (unpack t' (Subscript v (Constant (Int k))) env)
         end) es 0%Z env
  | _ => forget (target_names t) env
  end.

Definition bind_stmt (env : gmap string expr) (s : stmt) : gmap string expr :=
  match s with
  | Assign t v => unpack t (subst env v) env
  | _ => forget (assigned_names s) env
  end.

Definition bindings (p : list stmt) : gmap string expr :=
  foldl bind_stmt ∅ p.

(** The cells numbered [lo] to [hi], in order. *)
Definition cells (lo hi : nat) : list stmt :=
  flat_map snd
    (List.filter (fun c => (lo <=? fst c)%nat && (fst c <=? hi)%nat) notebook).

(** *** Names read and names bound

    An analysis of a linear run, top to bottom: which names are certainly
    bound when a statement reads them. *)

(** The names an expression reads.  The variable of a comprehension is
    bound inside it. *)
Fixpoint expr_reads (e : expr) : list string :=
  match e with
  | Name x => [x]
  | Constant _ => []
  | Attribute v _ => expr_reads v
  | Subscript v i => expr_reads v ++ expr_reads i
  | Slice l u s =>
      from_option expr_reads [] l ++ from_option expr_reads [] u
      ++ from_option expr_reads [] s
  | Tuple es | ListLit es => flat_map expr_reads es
  | Call f args kws =>
      expr_reads f ++ flat_map expr_reads args
      ++ flat_map (fun kw => expr_reads (snd kw)) kws
  | UnaryOp _ x => expr_reads x
  | BinOp l _ r | Compare l _ r => expr_reads l ++ expr_reads r
  | ListComp elt t iter =>
      expr_reads iter
      ++ List.filter (fun x => negb (in_list x (target_names t)))
                     (expr_reads elt)
  end.

(** The names a target binds, and the names it reads: storing through a
    subscript or an attribute reads the object and the index. *)
Fixpoint bound_by (t : expr) : list string :=
  match t with
  | Name x => [x]
  | Tuple es | ListLit es => flat_map bound_by es
  | _ => []
  end.

Fixpoint target_reads (t : expr) : list string :=
  match t with
  | Name _ => []
  | Tuple es | ListLit es => flat_map target_reads es
  | _ => expr_reads t
  end.

(** The names of [l] that are not in [bound]. *)
Definition missing (bound l : list string) : list string :=
  List.filter (fun x => negb (in_list x bound)) l.

(** [unbound bound s]: the reads of [s] that find their name unbound when
    the names of [bound] are bound on entry, and the names that are
    certainly bound when [s] is left.  A loop may run no iteration and a
    [try] may leave its body early, so what they bind is not counted; a
    conditional binds what both branches bind; the name of a handler is
    unbound when the handler is left.  The body of a function is checked
    where it is defined, against the names bound there, the function itself
    and its parameters. *)
Fixpoint unbound (bound : list string) (s : stmt) :
    list string * list string :=
  let block :=
    fix block (bound : list string) (b : list stmt) :
        list string * list string :=
      match b with
      | [] => ([], bound)
      | s' :: b' =>
          let r := unbound bound s' in
          let r' := block (snd r) b' in
          (fst r ++ fst r', snd r')
      end in
  match s with
  | Magic _ | Return None => ([], bound)
  | Import names | ImportFrom _ names =>
      ([], bound ++ map (fun a => from_option id (fst a) (snd a)) names)
  | FunctionDef f params body =>
      (missing bound
         (flat_map (fun p => from_option expr_reads [] (snd p)) params)
       ++ fst (block (bound ++ f :: map fst params) body),
       bound ++ [f])
  | Return (Some v) | Expr v => (missing bound (expr_reads v), bound)
  | Assign t v =>
      (missing bound (expr_reads v ++ target_reads t), bound ++ bound_by t)
  | For t iter body =>
      (missing bound (expr_reads iter ++ target_reads t)
       ++ fst (block (bound ++ bound_by t) body),
       bound)
  | If c body orelse =>
      let r1 := block bound body in
      let r2 := block bound orelse in
      (missing bound (expr_reads c) ++ fst r1 ++ fst r2,
       List.filter (fun x => in_list x (snd r2)) (snd r1))
  | Try body handlers orelse finalbody =>
      let r := block bound body in
      let names :=
        flat_map (fun h => match h with
                           | ExceptHandler _ n _ => from_option (fun x => [x]) [] n
                           end) handlers in
      let after := missing names bound in
      (fst r
       ++ flat_map (handler_unbound bound) handlers
       ++ fst (block (snd r) orelse)
       ++ fst (block after finalbody),
       after)
  end
with handler_unbound (bound : list string) (h : excepthandler) : list string :=
  let block :=
    fix block (bound : list string) (b : list stmt) :
        list string * list string :=
      match b with
      | [] => ([], bound)
      | s' :: b' =>
          let r := unbound bound s' in
          let r' := block (snd r) b' in
          (fst r ++ fst r', snd r')
      end in
  match h with
  | ExceptHandler t n body =>
      missing bound (from_option expr_reads [] t)
      ++ fst (block (bound ++ from_option (fun x => [x]) [] n) body)
  end.

Fixpoint unbound_block (bound : list string) (b : list stmt) :
    list string * list string :=
  match b with
  | [] => ([], bound)
  | s :: b' =>
      let r := unbound bound s in
      let r' := unbound_block (snd r) b' in
      (fst r ++ fst r', snd r')
  end.

(** The built-in names the notebook uses. *)
Definition builtins : list string :=
  ["print"; "str"; "zip"; "enumerate"; "tuple"; "TypeError";
   "NotImplementedError"].

Definition unbound_reads (p : list stmt) : list string :=
  fst (unbound_block builtins p).

(** *** The helper functions and their call sites *)

(** The functions a program defines at top level, with their parameters. *)
Definition definitions (p : list stmt) :
    list (string * (list (string * option expr) * list stmt)) :=
  flat_map (fun s => match s with
                     | FunctionDef f params body => [(f, (params, body))]
                     | _ => []
                     end) p.

Fixpoint assoc {B} (x : string) (l : list (string * B)) : option B :=
  match l with
  | [] => None
  | (y, b) :: l' => if String.eqb x y then Some b else assoc x l'
  end.

Fixpoint distinct (l : list string) : bool :=
  match l with
  | [] => true
  | x :: l' => negb (in_list x l') && distinct l'
  end.

(** Whether a call binds the parameters as Python requires: no more
    positional arguments than parameters, keywords that name parameters
    not already bound by position, no keyword twice, and every parameter
    without a default bound. *)
Definition fits (params : list (string * option expr)) (args : list expr)
    (kws : list (string * expr)) : bool :=
  let by_keyword := drop (length args) params in
  (length args <=? length params)%nat
  && forallb (fun kw => in_list (fst kw) (map fst by_keyword)) kws
  && distinct (map fst kws)
  && forallb (fun p => match snd p with
                       | Some _ => true
                       | None => in_list (fst p) (map fst kws)
                       end) by_keyword.

(** The calls of the program's own functions. *)
Definition helper_calls (p : list stmt) : list expr :=
  List.filter (fun c => match c with
                        | Call (Name f) _ _ =>
                            bool_decide (is_Some (assoc f (definitions p)))
                        | _ => false
                        end) (all_calls p).

Definition misfit_calls (p : list stmt) : list expr :=
  List.filter (fun c => match c with
                        | Call (Name f) args kws =>
                            match assoc f (definitions p) with
                            | Some d => negb (fits (fst d) args kws)
                            | None => false
                            end
                        | _ => false
                        end) (all_calls p).

(** The names every statement of a block reads, nested statements
    included. *)
Fixpoint stmt_reads (s : stmt) : list string :=
  match s with
  | Magic _ | Import _ | ImportFrom _ _ | Return None => []
  | FunctionDef _ params body =>
      flat_map (fun p => from_option expr_reads [] (snd p)) params
      ++ flat_map stmt_reads body
  | Return (Some v) | Expr v => expr_reads v
  | Assign t v => expr_reads v ++ target_reads t
  | For t iter body =>
      expr_reads iter ++ target_reads t ++ flat_map stmt_reads body
  | If c body orelse =>
      expr_reads c ++ flat_map stmt_reads body ++ flat_map stmt_reads orelse
  | Try body handlers orelse finalbody =>
      flat_map stmt_reads body
      ++ flat_map handler_reads handlers
      ++ flat_map stmt_reads orelse
      ++ flat_map stmt_reads finalbody
  end
with handler_reads (h : excepthandler) : list string :=
  match h with
  | ExceptHandler t _ body =>
      from_option expr_reads [] t ++ flat_map stmt_reads body
  end.

(** The parameters a function never reads, as (function, parameter). *)
Definition unused_parameters (p : list stmt) : list (string * string) :=
  flat_map (fun d =>
              let reads := flat_map stmt_reads (snd (snd d)) in
              flat_map (fun q => if in_list (fst q) reads then []
                                 else [(fst d, fst q)])
                       (fst (snd d)))
           (definitions p).

(** *** Control flow, comprehensions and library steps *)

(** A statement without its bodies: what is looped over, tested or
    caught. *)
Definition heading (s : stmt) : stmt :=
  match s with
  | FunctionDef f params _ => FunctionDef f params []
  | For t iter _ => For t iter []
  | If c _ _ => If c [] []
  | Try _ handlers _ _ =>
      Try [] (map (fun h => match h with
                            | ExceptHandler t n _ => ExceptHandler t n []
                            end) handlers) [] []
  | _ => s
  end.

(** The statements that carry control flow, nested ones and those of
    function bodies included, with the cell they stand in. *)
Definition control_flow_sites : list (nat * stmt) :=
  flat_map (fun c => map (fun s => (fst c, s))
                         (List.filter is_control_flow (all_stmts (snd c))))
           notebook.

Definition is_comprehension (e : expr) : bool :=
  match e with ListComp _ _ _ => true | _ => false end.

Definition comprehensions (p : list stmt) : list expr :=
  List.filter is_comprehension (all_exprs p).

(** The modules of scipy and scikit-image that the script imports, under
    the names it gives them. *)
Definition processing_modules : list string :=
  flat_map (fun s => match s with
                     | ImportFrom m names =>
                         if in_list m ["scipy"; "skimage"]
                         then map (fun a => from_option id (fst a) (snd a))
                                  names
                         else []
                     | _ => []
                     end) script.

Fixpoint root (e : expr) : string :=
  match e with
  | Name x => x
  | Attribute v _ => root v
  | _ => "<expr>"
  end.

(** A call of a routine of one of these modules. *)
Definition is_library_call (e : expr) : bool :=
  match e with
  | Call f _ _ => in_list (root f) processing_modules
  | _ => false
  end.

Definition calls_library (s : stmt) : bool :=
  existsb is_library_call (stmt_calls true s).

(** The calls a handler makes. *)
Definition handler_body_calls (p : list stmt) : list string :=
  flat_map
    (fun s => match s with
              | Try _ handlers _ _ =>
                  flat_map
                    (fun h => match h with
                              | ExceptHandler _ _ body =>
                                  map callee (flat_map (stmt_calls true) body)
                              end) handlers
              | _ => []
              end)
    (all_stmts p).

(** A list without the repetitions of one item after itself. *)
Fixpoint runs (l : list stage) : list stage :=
  match l with
  | [] => []
  | x :: l' =>
      match runs l' with
      | y :: r => if bool_decide (x = y) then y :: r else x :: y :: r
      | [] => [x]
      end
  end.

(** The stages each cell goes through, in order. *)
Definition cell_stages : list (nat * list stage) :=
  flat_map (fun c => match runs (stages_of (cell_events c)) with
                     | [] => []
                     | l => [(fst c, l)]
                     end) notebook.

(** The steps that bind the result of one library call: the names bound,
    the routine, and its first argument.  A method applied to the result
    ([.astype]) is looked through. *)
Fixpoint library_call (e : expr) : option (string * expr) :=
  match e with
  | Call (Attribute v m) args _ =>
      if in_list (root v) processing_modules then
        match args with
        | a :: _ => Some (dotted (Attribute v m), a)
        | [] => None
        end
      else library_call v
  | _ => None
  end.

Definition library_steps (p : list stmt) : list (list string * string * expr) :=
  flat_map (fun s => match s with
                     | Assign t v =>
                         match library_call v with
                         | Some (f, a) => [(target_names t, f, a)]
                         | None => []
                         end
                     | _ => []
                     end) p.

(** The statements that give a value another name: [x = y]. *)
Definition aliases (p : list stmt) : list (string * string) :=
  flat_map (fun s => match s with
                     | Assign (Name x) (Name y) => [(x, y)]
                     | _ => []
                     end) p.

End Ast.

(** ** Executable models of the computing cells *)

Module Sem.

(** *** Exceptions and outcomes *)

(** The built-in exception classes the models mention, with Python's
    class hierarchy. *)
Inductive exc_class :=
| BaseException | Exception
| LookupError | IndexError | KeyError
| NameError
| RuntimeError | NotImplementedError
| TypeError | ValueError.

#[global] Instance exc_class_eq_dec : EqDecision exc_class.
Proof. solve_decision. Defined.

Definition parent (c : exc_class) : option exc_class :=
  match c with
  | BaseException => None
  | Exception => Some BaseException
  | LookupError | NameError | RuntimeError | TypeError | ValueError =>
      Some Exception
  | IndexError | KeyError => Some LookupError
  | NotImplementedError => Some RuntimeError
  end.

(** [issubclass c d]: [c] is [d] or derives from it.  The hierarchy is
    four levels deep. *)
Fixpoint derives (fuel : nat) (c d : exc_class) : bool :=
  bool_decide (c = d)
  || match fuel, parent c with
     | S fuel', Some c' => derives fuel' c' d
     | _, _ => false
     end.

Definition issubclass (c d : exc_class) : bool := derives 4 c d.
Arguments issubclass : simpl never.

Record exception := { exc_type : exc_class; exc_message : string }.

Inductive outcome (A : Type) :=
| Ok (a : A)
| Raise (e : exception).
Arguments Ok {A} a.
Arguments Raise {A} e.

#[global] Instance outcome_ret : MRet outcome := fun A a => Ok a.
#[global] Instance outcome_bind : MBind outcome := fun A B f m =>
  match m with
  | Ok a => f a
  | Raise e => Raise e
  end.

Definition raise {A} (c : exc_class) (msg : string) : outcome A :=
  Raise {| exc_type := c; exc_message := msg |}.

(** [try_except m c handler]: run [m]; an exception whose class derives
    from [c] goes to [handler], any other propagates. *)
Definition try_except {A} (m : outcome A) (c : exc_class)
    (handler : exception -> outcome A) : outcome A :=
  match m with
  | Ok a => Ok a
  | Raise e => if issubclass (exc_type e) c then handler e else Raise e
  end.

(** *** Arrays

    A numpy array: its shape and its items in row-major order. *)
Record ndarray (A : Type) := { shape : list nat; flat : list A }.
Arguments shape {A} _.
Arguments flat {A} _.

Definition size_of (s : list nat) : nat := foldr Nat.mul 1%nat s.

Definition ndim {A} (a : ndarray A) : nat := length (shape a).

Definition wf {A} (a : ndarray A) : Prop :=
  length (flat a) = size_of (shape a).

(** Elementwise operations keep the shape. *)
Definition amap {A B} (f : A -> B) (a : ndarray A) : ndarray B :=
  {| shape := shape a; flat := map f (flat a) |}.

(** *** Cell 5: the spacing *)

(** numpy broadcasting of two one-dimensional operands. *)
Definition broadcast1 {A B C} (op : A -> B -> C) (x : list A) (y : list B) :
    outcome (list C) :=
  match x, y with
  | [a], _ => Ok (map (op a) y)
  | _, [b] => Ok (map (fun a => op a b) x)
  | _, _ =>
      if decide (length x = length y) then Ok (zip_with op x y)
      else raise ValueError "operands could not be broadcast together"
  end.

Definition getitem {A} (l : list A) (i : nat) : outcome A :=
  match l !! i with
  | Some x => Ok x
  | None => raise IndexError "index out of bounds"
  end.

Definition original_spacing : list Q := [29 # 100; 65 # 1000; 65 # 1000]%Q.

Definition rescaled_spacing : outcome (list Q) :=
  broadcast1 Qmult [1; 4; 4]%Q original_spacing.

Definition spacing : outcome (list Q) :=
  r ← rescaled_spacing;
  d ← getitem r 1;
  Ok (map (fun x => x / d)%Q r).

(** The same cell as Python runs it, in double precision.  A float64 is a
    [spec_float] of precision 53 with exponents below 1024; the product and
    the quotient round to nearest, ties to even.  A decimal literal is the
    double nearest to it, which is the rounded quotient of the two integers
    it is a fraction of (both are doubles themselves). *)
Definition float64 : Type := spec_float.

Definition f64_of_Z (n : Z) : float64 := binary_normalize 53 1024 n 0 false.
Definition f64_mul : float64 -> float64 -> float64 := SFmul 53 1024.
Definition f64_div : float64 -> float64 -> float64 := SFdiv 53 1024.

(** The literal [n / 10^k]. *)
Definition f64_literal (n : Z) (k : Z) : float64 :=
  f64_div (f64_of_Z n) (f64_of_Z (10 ^ k)).

(** The rational a finite double stands for. *)
Definition f64_value (x : float64) : option Q :=
  match x with
  | S754_zero _ => Some 0%Q
  | S754_finite s m e =>
      let n := if s then Z.neg m else Z.pos m in
      Some (if (0 <=? e)%Z then inject_Z (n * 2 ^ e)
            else Qmake n (Z.to_pos (2 ^ (- e))))
  | _ => None
  end.

Module Float64.
Definition original_spacing : list float64 :=
  [f64_literal 2900000 7; f64_literal 650000 7; f64_literal 650000 7].

Definition rescaled_spacing : outcome (list float64) :=
  broadcast1 f64_mul [f64_literal 10 1; f64_literal 40 1; f64_literal 40 1]
             original_spacing.

Definition spacing : outcome (list float64) :=
  r ← rescaled_spacing;
  d ← getitem r 1;
  Ok (map (fun x => f64_div x d) r).
End Float64.

(** *** Cell 7: the guarded [io.imshow] call

    [try: io.imshow(data, cmap="gray")]
    [except TypeError as e: print(str(e))]

    The kernel state is the namespace and what has been printed.  The
    library routine is a parameter; it sees the array and the colour map
    and either returns or raises.  What it does to matplotlib's own figure
    registry is not part of the kernel state. *)

Record state (V : Type) := { vars : gmap string V; stdout : list string }.
Arguments vars {V} _.
Arguments stdout {V} _.

Definition load {V} (st : state V) (x : string) : outcome V :=
  match vars st !! x with
  | Some v => Ok v
  | None => raise NameError ("name '" +:+ x +:+ "' is not defined")
  end.

Definition store {V} (x : string) (v : V) (st : state V) : state V :=
  {| vars := <[x := v]> (vars st); stdout := stdout st |}.

Definition unbind {V} (x : string) (st : state V) : state V :=
  {| vars := delete x (vars st); stdout := stdout st |}.

Definition print {V} (line : string) (st : state V) : state V :=
  {| vars := vars st; stdout := stdout st ++ [line] |}.

Section Imshow.
Context {V : Type}.
(** The exception object a handler binds, as a value. *)
Variable of_exception : exception -> V.
Variable io_imshow : V -> string -> outcome V.

(** [except TypeError as e] binds [e] for the handler and unbinds it when
    the handler is left; [str(e)] is the message. *)
Definition run_cell_07 (st : state V) : outcome (state V) :=
  try_except
    (data ← load st "data";
     _ ← io_imshow data "gray";
     Ok st)
    TypeError
    (fun e =>
       let st := store "e" (of_exception e) st in
       let st := print (exc_message e) st in
       Ok (unbind "e" st)).
End Imshow.

(** matplotlib's test on what it is asked to draw: a 2D array, or a 3D one
    whose last axis holds 3 or 4 colour channels. *)
Definition imshow_accepts (s : list nat) : bool :=
  match s with
  | [_; _] => true
  | [_; _; c] => bool_decide (c = 3%nat) || bool_decide (c = 4%nat)
  | _ => false
  end.

Definition matplotlib_imshow {A} (a : ndarray A) (cmap : string) :
    outcome (ndarray A) :=
  if imshow_accepts (shape a) then Ok a
  else raise TypeError "Invalid dimensions for image data".

(** *** Cell 68: probing the region properties

    [for prop in regionprops[0]:]
    [    try: regionprops[0][prop]; supported.append(prop)]
    [    except NotImplementedError: unsupported.append(prop)] *)

Record region (V : Type) := {
  prop_names : list string;            (* iteration yields the names *)
  prop : string -> outcome V           (* subscripting computes the value *)
}.
Arguments prop_names {V} _.
Arguments prop {V} _ _.

Section Probe.
Context {V : Type}.

Definition probe_step (r0 : region V) (acc : list string * list string)
    (p : string) : outcome (list string * list string) :=
  try_except
    (_ ← prop r0 p;
     Ok (acc.1 ++ [p], acc.2))
    NotImplementedError
    (fun _ => Ok (acc.1, acc.2 ++ [p])).

Fixpoint probe_loop (r0 : region V) (props : list string)
    (acc : list string * list string) :
    outcome (list string * list string) :=
  match props with
  | [] => Ok acc
  | p :: props' => acc' ← probe_step r0 acc p; probe_loop r0 props' acc'
  end.

(** The pair (supported, unsupported) the cell goes on to print. *)
Definition run_cell_68 (regionprops : list (region V)) :
    outcome (list string * list string) :=
  r0 ← getitem regionprops 0;
  probe_loop r0 (prop_names r0) ([], []).
End Probe.

(** Whether probing a property returns. *)
Definition computes {V} (r0 : region V) (p : string) : bool :=
  match prop r0 p with Ok _ => true | Raise _ => false end.

(** *** Cells 35 and 43: thresholding

    [li = denoised >= threshold_li]: an elementwise comparison of the array
    with the scalar. *)
Definition ge_scalar (a : ndarray Q) (t : Q) : ndarray bool :=
  amap (fun x => Qle_bool t x) a.

(** *** Iterating and slicing along the first axis *)

Fixpoint chunks {A} (sz count : nat) (xs : list A) : list (list A) :=
  match count with
  | O => []
  | S count' => take sz xs :: chunks sz count' (drop sz xs)
  end.

(** The sub-arrays along the first axis. *)
Definition subarrays {A} (a : ndarray A) : list (ndarray A) :=
  match shape a with
  | [] => []
  | p :: rest =>
      map (fun xs => {| shape := rest; flat := xs |})
          (chunks (size_of rest) p (flat a))
  end.

(** [for x in a] *)
Definition planes {A} (a : ndarray A) : outcome (list (ndarray A)) :=
  match shape a with
  | [] => raise TypeError "iteration over a 0-d array"
  | _ => Ok (subarrays a)
  end.

Fixpoint collect {A} (l : list (outcome A)) : outcome (list A) :=
  match l with
  | [] => Ok []
  | m :: l' => x ← m; xs ← collect l'; Ok (x :: xs)
  end.

(** [l[::step]]: Python computes the number of selected items from the
    length and the step, then reads [l[0], l[step], ...] (from the far end
    when the step is negative). *)
Definition ceil_div (n d : nat) : nat := ((n + d - 1) / d)%nat.

Definition slice_step {A} (step : Z) (l : list A) : outcome (list A) :=
  let n := length l in
  if decide (step = 0)%Z then raise ValueError "slice step cannot be zero"
  else if decide (0 < step)%Z then
    let s := Z.to_nat step in
    collect (map (fun k => getitem l (k * s)) (seq 0 (ceil_div n s)))
  else
    let s := Z.to_nat (- step) in
    collect (map (fun k => getitem l (n - 1 - k * s)) (seq 0 (ceil_div n s))).

(** [a[::step]], as the list of the sub-arrays selected. *)
Definition slice_planes {A} (step : Z) (a : ndarray A) :
    outcome (list (ndarray A)) :=
  match shape a with
  | [] => raise IndexError "too many indices for array"
  | _ => slice_step step (subarrays a)
  end.

(** [a.min()], [a.max()] *)
Definition amin (a : ndarray Q) : outcome Q :=
  match flat a with
  | [] => raise ValueError
            "zero-size array to reduction operation minimum which has no identity"
  | x :: xs => Ok (foldl Qmin x xs)
  end.

Definition amax (a : ndarray Q) : outcome Q :=
  match flat a with
  | [] => raise ValueError
            "zero-size array to reduction operation maximum which has no identity"
  | x :: xs => Ok (foldl Qmax x xs)
  end.

(** *** Cell 12: the [display] helper *)

Record panel := {
  panel_axis : nat;              (* position in [axes.flatten()] *)
  panel_image : ndarray Q;
  panel_cmap : string;
  panel_vmin : Q;
  panel_vmax : Q
}.

(** [ax.imshow(image, cmap=cmap, vmin=vmin, vmax=vmax)] *)
Definition ax_imshow (ax : nat) (image : ndarray Q) (cmap : string)
    (vmin vmax : Q) : outcome panel :=
  _ ← matplotlib_imshow image cmap;
  Ok {| panel_axis := ax; panel_image := image; panel_cmap := cmap;
        panel_vmin := vmin; panel_vmax := vmax |}.

(** The loop over [zip(axes.flatten(), im3d[::step])]; the result lists the
    panels drawn, in order. *)
Fixpoint display_loop (items : list (nat * ndarray Q)) (cmap : string)
    (vmin vmax : Q) : outcome (list panel) :=
  match items with
  | [] => Ok []
  | (ax, image) :: items' =>
      p ← ax_imshow ax image cmap vmin vmax;
      ps ← display_loop items' cmap vmin vmax;
      Ok (p :: ps)
  end.

Definition display (im3d : ndarray Q) (cmap : string) (step : Z) :
    outcome (list panel) :=
  let axes := seq 0 (5 * 6) in
  vmin ← amin im3d;
  vmax ← amax im3d;
  sel ← slice_planes step im3d;
  display_loop (zip axes sel) cmap vmin vmax.

(** The panel an iteration of the loop draws. *)
Definition mk_panel (cmap : string) (vmin vmax : Q) (item : nat * ndarray Q) :
    panel :=
  {| panel_axis := item.1; panel_image := item.2; panel_cmap := cmap;
     panel_vmin := vmin; panel_vmax := vmax |}.

Definition default_cmap : string := "gray".
Definition default_step : Z := 2.

(** *** Storing into a plane: [dst[i] = v] *)

(** numpy broadcasting of items laid out for shape [src] to shape [target]
    of the same rank: an axis of length 1 is repeated. *)
Fixpoint broadcast {A} (target src : list nat) (xs : list A) :
    option (list A) :=
  match target, src with
  | [], [] => Some xs
  | n :: target', m :: src' =>
      if decide (m = n) then
        xss ← mapM (M := option) (broadcast target' src')
                   (chunks (size_of src') m xs);
        Some (concat xss)
      else if decide (m = 1%nat) then
        r ← broadcast target' src' xs; Some (concat (replicate n r))
      else None
  | _, _ => None
  end.

(** [strip_ones k s]: [s] without its [k] leading axes, which must all be
    of length 1. *)
Fixpoint strip_ones (k : nat) (s : list nat) : option (list nat) :=
  match k, s with
  | O, _ => Some s
  | S k', 1%nat :: s' => strip_ones k' s'
  | S _, _ => None
  end.

(** What an assignment does with the value: leading axes of length 1 in
    excess of the target's rank are dropped, a value of lower rank gets
    leading axes of length 1, and the result is broadcast. *)
Definition broadcast_to {A} (target : list nat) (v : ndarray A) :
    option (list A) :=
  s ← strip_ones (ndim v - length target) (shape v);
  broadcast target (replicate (length target - length s) 1%nat ++ s) (flat v).

(** [dst[i] = v]: the value is broadcast to the shape of a plane, cast to
    the item type of [dst], and written over plane [i]. *)
Definition setitem {A B} (cast : A -> B) (dst : ndarray B) (i : nat)
    (v : ndarray A) : outcome (ndarray B) :=
  match shape dst with
  | [] => raise IndexError "too many indices for array"
  | p :: rest =>
      if decide (i < p)%nat then
        match broadcast_to rest v with
        | Some xs =>
            let sz := size_of rest in
            Ok {| shape := shape dst;
                  flat := take (i * sz) (flat dst) ++ map cast xs
                          ++ drop ((i + 1) * sz) (flat dst) |}
        | None => raise ValueError "could not broadcast input array"
        end
      else raise IndexError "index out of bounds"
  end.

(** [np.empty_like(a)]: a fresh array of the shape of [a]; what it holds
    is whatever the buffer held, [junk]. *)
Definition empty_like {A B} (junk : nat -> B) (a : ndarray A) : ndarray B :=
  {| shape := shape a; flat := map junk (seq 0 (size_of (shape a))) |}.

(** *** The planewise loops of cells 24, 29 and 31

    [dst = np.empty_like(src)]
    [for i, image in enumerate(src): dst[i] = f(image)] *)
Fixpoint planewise_loop {A B C} (f : ndarray A -> outcome (ndarray C))
    (cast : C -> B) (items : list (nat * ndarray A)) (dst : ndarray B) :
    outcome (ndarray B) :=
  match items with
  | [] => Ok dst
  | (i, image) :: items' =>
      v ← f image;
      dst' ← setitem cast dst i v;
      planewise_loop f cast items' dst'
  end.

Definition enumerate {A} (l : list A) : list (nat * A) :=
  zip (seq 0 (length l)) l.

Definition planewise {A B C} (f : ndarray A -> outcome (ndarray C))
    (cast : C -> B) (junk : nat -> B) (src : ndarray A) :
    outcome (ndarray B) :=
  let dst := empty_like junk src in
  items ← planes src;
  planewise_loop f cast (enumerate items) dst.

(** *** The processing steps, cells 3 to 54

    [run_cell_NN] is the processing step of cell NN: the statements that
    bind its volumes, from the names they read to the names they bind.  The
    plotting statements that follow them in the cell are not part of it;
    [show_plane] and [display] are modelled on their own.  The library
    routines the steps call are an interface.  Intensities are
    rationals, 8-bit images and label images hold integers, masks hold
    booleans.  [float32] is the rounding numpy applies when it stores into
    a single-precision array; [fresh_q] and [fresh_z] are what newly
    allocated buffers hold. *)
Record Library := {
  float32 : Q -> Q;
  fresh_q : nat -> Q;
  fresh_z : nat -> Z;
  imread : string -> outcome (ndarray Q);
  adjust_gamma : ndarray Q -> Q -> outcome (ndarray Q);
  equalize_hist : ndarray Q -> outcome (ndarray Q);
  scoreatpercentile : ndarray Q -> list Q -> outcome (list Q);
  rescale_intensity : ndarray Q -> Q * Q -> outcome (ndarray Q);
  sobel : ndarray Q -> outcome (ndarray Q);
  gaussian : ndarray Q -> list float64 -> outcome (ndarray Q);
  img_as_ubyte : ndarray Q -> outcome (ndarray Z);
  median : ndarray Z -> outcome (ndarray Z);
  img_as_float : ndarray Z -> outcome (ndarray Q);
  denoise_bilateral : ndarray Q -> outcome (ndarray Q);
  threshold_li : ndarray Q -> outcome Q;
  threshold_otsu : ndarray Q -> outcome Q;
  ball : nat -> outcome (ndarray Z);
  closing : forall A, ndarray A -> ndarray Z -> outcome (ndarray A);
  dilation : forall A, ndarray A -> ndarray Z -> outcome (ndarray A);
  erosion : forall A, ndarray A -> ndarray Z -> outcome (ndarray A);
  opening : forall A, ndarray A -> ndarray Z -> outcome (ndarray A);
  binary_closing : ndarray bool -> ndarray Z -> outcome (ndarray bool);
  binary_dilation : ndarray bool -> ndarray Z -> outcome (ndarray bool);
  binary_erosion : ndarray bool -> ndarray Z -> outcome (ndarray bool);
  binary_opening : ndarray bool -> ndarray Z -> outcome (ndarray bool);
  remove_small_holes : ndarray bool -> Z -> outcome (ndarray bool);
  remove_small_objects : ndarray bool -> Z -> outcome (ndarray bool);
  label : ndarray bool -> outcome (ndarray Z);
  distance_transform_edt : ndarray bool -> outcome (ndarray Q);
  (* [indices=False]: the peaks come back as a mask *)
  peak_local_max :
    ndarray Q -> ndarray bool -> ndarray Z -> outcome (ndarray bool);
  watershed : ndarray Q -> ndarray Z -> ndarray bool -> outcome (ndarray Z)
}.
Arguments closing _ {A} _ _.
Arguments dilation _ {A} _ _.
Arguments erosion _ {A} _ _.
Arguments opening _ {A} _ _.

(** [a, b = v] *)
Definition unpack2 {A} (v : list A) : outcome (A * A) :=
  match v with
  | [a; b] => Ok (a, b)
  | _ :: _ :: _ :: _ => raise ValueError "too many values to unpack (expected 2)"
  | _ => raise ValueError "not enough values to unpack (expected 2)"
  end.

(** [np.ones(shape, dtype=np.bool)] *)
Definition ones (s : list nat) : ndarray bool :=
  {| shape := s; flat := replicate (size_of s) true |}.

Section Pipeline.
Variable lib : Library.

(** Cell 3 *)
Definition run_cell_03 : outcome (ndarray Q) :=
  imread lib "../images/cells.tif".

(** Cell 17 *)
Definition run_cell_17 (data : ndarray Q) : outcome (ndarray Q * ndarray Q) :=
  gamma_low ← adjust_gamma lib data (5 # 10);
  gamma_high ← adjust_gamma lib data (15 # 10);
  Ok (gamma_low, gamma_high).

(** Cell 19 *)
Definition run_cell_19 (data : ndarray Q) : outcome (ndarray Q) :=
  equalize_hist lib data.

(** Cell 21 *)
Definition run_cell_21 (data : ndarray Q) : outcome (ndarray Q) :=
  v ← scoreatpercentile lib data [5 # 10; 995 # 10]%Q;
  '(vmin, vmax) ← unpack2 v;
  r ← rescale_intensity lib data (vmin, vmax);
  Ok (amap (float32 lib) r).

(** Cell 24 *)
Definition run_cell_24 (rescaled : ndarray Q) : outcome (ndarray Q) :=
  planewise (sobel lib) (float32 lib) (fresh_q lib) rescaled.

(** Cell 27: [base_sigma = 3.0], [sigma = base_sigma / spacing], in double
    precision as Python computes it *)
Definition base_sigma : float64 := f64_literal 30 1.

Definition sigma : outcome (list float64) :=
  sp ← Float64.spacing;
  broadcast1 f64_div [base_sigma] sp.

Definition run_cell_27 (rescaled : ndarray Q) : outcome (ndarray Q) :=
  sigma ← sigma;
  gaussian lib rescaled sigma.

(** Cell 29 *)
Definition run_cell_29 (rescaled : ndarray Q) :
    outcome (ndarray Z * ndarray Q) :=
  rescaled_uint8 ← img_as_ubyte lib rescaled;
  median ← planewise (median lib) id (fresh_z lib) rescaled_uint8;
  median ← img_as_float lib median;
  Ok (rescaled_uint8, median).

(** Cell 31 *)
Definition run_cell_31 (rescaled : ndarray Q) : outcome (ndarray Q) :=
  planewise (denoise_bilateral lib) (float32 lib) (fresh_q lib) rescaled.

(** Cell 35 *)
Definition run_cell_35 (denoised : ndarray Q) :
    outcome (ndarray bool * ndarray bool) :=
  threshold_li ← threshold_li lib denoised;
  let li := ge_scalar denoised threshold_li in
  threshold_otsu ← threshold_otsu lib denoised;
  let otsu := ge_scalar denoised threshold_otsu in
  Ok (li, otsu).

(** Cell 41 *)
Record morphology_results := {
  closing_ : ndarray Q;
  dilation_ : ndarray Q;
  erosion_ : ndarray Q;
  opening_ : ndarray Q;
  binary_closing_ : ndarray bool;
  binary_dilation_ : ndarray bool;
  binary_erosion_ : ndarray bool;
  binary_opening_ : ndarray bool
}.

Definition run_cell_41 (rescaled : ndarray Q) (binary : ndarray bool) :
    outcome morphology_results :=
  selem ← ball lib 3;
  closing ← closing lib rescaled selem;
  dilation ← dilation lib rescaled selem;
  erosion ← erosion lib rescaled selem;
  opening ← opening lib rescaled selem;
  binary_closing ← binary_closing lib binary selem;
  binary_dilation ← binary_dilation lib binary selem;
  binary_erosion ← binary_erosion lib binary selem;
  binary_opening ← binary_opening lib binary selem;
  Ok {| closing_ := closing; dilation_ := dilation; erosion_ := erosion;
        opening_ := opening; binary_closing_ := binary_closing;
        binary_dilation_ := binary_dilation;
        binary_erosion_ := binary_erosion;
        binary_opening_ := binary_opening |}.

(** Cell 43 *)
Definition despeckle (binary_equalized : ndarray bool) (r : nat) :
    outcome (ndarray bool) :=
  selem ← ball lib r;
  opened ← opening lib binary_equalized selem;
  selem ← ball lib r;
  closing lib opened selem.

Definition run_cell_43 (equalized : ndarray Q) :
    outcome (ndarray bool * ndarray bool * ndarray bool) :=
  threshold ← threshold_li lib equalized;
  let binary_equalized := ge_scalar equalized threshold in
  despeckled1 ← despeckle binary_equalized 1;
  despeckled3 ← despeckle binary_equalized 3;
  Ok (binary_equalized, despeckled1, despeckled3).

(** Cells 45 and 46: [width = 20], [min_size=width ** 3] *)
Definition width : Z := 20.

Definition run_cell_45 (binary : ndarray bool) : outcome (ndarray bool) :=
  remove_small_holes lib binary (width ^ 3)%Z.

Definition run_cell_46 (remove_holes : ndarray bool) :
    outcome (ndarray bool) :=
  remove_small_objects lib remove_holes (width ^ 3)%Z.

(** Cell 50 *)
Definition run_cell_50 (remove_objects : ndarray bool) :
    outcome (ndarray Z) :=
  label lib remove_objects.

(** Cell 54 *)
Definition run_cell_54 (rescaled : ndarray Q) (remove_objects : ndarray bool) :
    outcome (ndarray Q * ndarray bool * ndarray Z * ndarray Z) :=
  distance ← distance_transform_edt lib remove_objects;
  components ← label lib remove_objects;
  peaks ← peak_local_max lib distance (ones [15; 15; 15]%nat) components;
  markers ← label lib peaks;
  labels ← watershed lib (amap Qopp rescaled) markers remove_objects;
  Ok (distance, peaks, markers, labels).

End Pipeline.

(** What the notebook relies on from the library routines that map a
    volume to a volume: the result has the shape of the (first) argument.
    The 2D routines applied plane by plane need no such promise. *)
Record shape_contract (lib : Library) : Prop := {
  adjust_gamma_shape : forall a g b,
    adjust_gamma lib a g = Ok b -> shape b = shape a;
  equalize_hist_shape : forall a b,
    equalize_hist lib a = Ok b -> shape b = shape a;
  rescale_intensity_shape : forall a r b,
    rescale_intensity lib a r = Ok b -> shape b = shape a;
  gaussian_shape : forall a sigma b,
    gaussian lib a sigma = Ok b -> shape b = shape a;
  img_as_ubyte_shape : forall a b,
    img_as_ubyte lib a = Ok b -> shape b = shape a;
  img_as_float_shape : forall a b,
    img_as_float lib a = Ok b -> shape b = shape a;
  closing_shape : forall A (a : ndarray A) selem b,
    closing lib a selem = Ok b -> shape b = shape a;
  dilation_shape : forall A (a : ndarray A) selem b,
    dilation lib a selem = Ok b -> shape b = shape a;
  erosion_shape : forall A (a : ndarray A) selem b,
    erosion lib a selem = Ok b -> shape b = shape a;
  opening_shape : forall A (a : ndarray A) selem b,
    opening lib a selem = Ok b -> shape b = shape a;
  binary_closing_shape : forall a selem b,
    binary_closing lib a selem = Ok b -> shape b = shape a;
  binary_dilation_shape : forall a selem b,
    binary_dilation lib a selem = Ok b -> shape b = shape a;
  binary_erosion_shape : forall a selem b,
    binary_erosion lib a selem = Ok b -> shape b = shape a;
  binary_opening_shape : forall a selem b,
    binary_opening lib a selem = Ok b -> shape b = shape a;
  remove_small_holes_shape : forall a n b,
    remove_small_holes lib a n = Ok b -> shape b = shape a;
  remove_small_objects_shape : forall a n b,
    remove_small_objects lib a n = Ok b -> shape b = shape a;
  label_shape : forall a b,
    label lib a = Ok b -> shape b = shape a;
  distance_transform_edt_shape : forall a b,
    distance_transform_edt lib a = Ok b -> shape b = shape a;
  peak_local_max_shape : forall a footprint labels b,
    peak_local_max lib a footprint labels = Ok b -> shape b = shape a;
  watershed_shape : forall a markers mask b,
    watershed lib a markers mask = Ok b -> shape b = shape a
}.

(** *** Concrete inputs used to exercise the models *)

(** A region whose perimeter is not implemented, as for the 3D regions of
    cell 68. *)
Definition region_3d : region Z :=
  {| prop_names := ["area"; "perimeter"];
     prop := fun p =>
       if String.eqb p "perimeter" then raise NotImplementedError EmptyString
       else Ok 7%Z |}.

(** A region one of whose properties fails in another way. *)
Definition region_broken : region Z :=
  {| prop_names := ["area"; "perimeter"; "centroid"; "label"];
     prop := fun p =>
       if String.eqb p "perimeter" then raise NotImplementedError EmptyString
       else if String.eqb p "centroid" then raise ValueError "no centroid"
       else Ok 7%Z |}.

(** A volume of [p] planes of one pixel each, holding 0, 1, ... *)
Definition ramp (p : nat) : ndarray Q :=
  {| shape := [p; 1; 1]%nat;
     flat := map (fun n => inject_Z (Z.of_nat n)) (seq 0 p) |}.

(** A namespace as cell 7 finds it, and a figure-drawing routine that
    applies matplotlib's test. *)
Definition namespace_07 : state (ndarray Q + exception) :=
  {| vars := {[ "data" := inl (ramp 60) ]}; stdout := [] |}.

Definition imshow_value (v : ndarray Q + exception) (cmap : string) :
    outcome (ndarray Q + exception) :=
  match v with
  | inl a => a' ← matplotlib_imshow a cmap; Ok (inl a')
  | inr _ => raise TypeError "Image data cannot be converted to float"
  end.

(** A drawing routine that fails for want of memory, whatever it is
    given. *)
Definition imshow_broken (v : ndarray Q + exception) (cmap : string) :
    outcome (ndarray Q + exception) :=
  raise RuntimeError "out of memory".

(** A library of stand-ins that honour the contract: the file holds a
    volume of two planes of two by two pixels, filters return what they
    are given, thresholds are 4. *)
Definition toy_volume : ndarray Q :=
  {| shape := [2; 2; 2]%nat; flat := [0; 1; 2; 3; 4; 5; 6; 7]%Q |}.

Definition toy_library : Library :=
  {| float32 := Qred;
     fresh_q := fun _ => 0%Q;
     fresh_z := fun _ => 0%Z;
     imread := fun _ => Ok toy_volume;
     adjust_gamma := fun a _ => Ok a;
     equalize_hist := fun a => Ok a;
     scoreatpercentile := fun _ _ => Ok [0; 7]%Q;
     rescale_intensity := fun a _ => Ok a;
     sobel := fun a => Ok a;
     gaussian := fun a _ => Ok a;
     img_as_ubyte := fun a => Ok (amap Qfloor a);
     median := fun a => Ok a;
     img_as_float := fun a => Ok (amap inject_Z a);
     denoise_bilateral := fun a => Ok a;
     threshold_li := fun _ => Ok 4%Q;
     threshold_otsu := fun _ => Ok 4%Q;
     ball := fun r => Ok {| shape := [1; 1; 1]%nat; flat := [1%Z] |};
     closing := fun _ a _ => Ok a;
     dilation := fun _ a _ => Ok a;
     erosion := fun _ a _ => Ok a;
     opening := fun _ a _ => Ok a;
     binary_closing := fun a _ => Ok a;
     binary_dilation := fun a _ => Ok a;
     binary_erosion := fun a _ => Ok a;
     binary_opening := fun a _ => Ok a;
     remove_small_holes := fun a _ => Ok a;
     remove_small_objects := fun a _ => Ok a;
     label := fun a => Ok (amap (fun b : bool => if b then 1%Z else 0%Z) a);
     distance_transform_edt :=
       fun a => Ok (amap (fun b : bool => if b then 1%Q else 0%Q) a);
     peak_local_max := fun a _ _ => Ok (amap (fun x => Qle_bool 1 x) a);
     watershed := fun a _ _ => Ok (amap (fun _ => 1%Z) a) |}.

(** A 2D routine that, like [filters.sobel], refuses anything but a 2D
    image. *)
Definition only_2d {A} (a : ndarray A) : outcome (ndarray A) :=
  if decide (ndim a = 2%nat) then Ok a
  else raise ValueError "The parameter `image` must be a 2-dimensional array".

(** *** Indexing by position: [a[i]], [a[:, i, :]], [a.transpose(...)] *)

(** [offset s idx]: where the item at index [idx] of an array of shape [s]
    lies in row-major order; nowhere when [idx] has the wrong length or a
    coordinate out of range. *)
Fixpoint offset (s idx : list nat) : option nat :=
  match s, idx with
  | [], [] => Some 0%nat
  | d :: s', i :: idx' =>
      if decide (i < d)%nat then
        o ← offset s' idx'; Some (i * size_of s' + o)%nat
      else None
  | _, _ => None
  end.

Definition item {A} (a : ndarray A) (idx : list nat) : option A :=
  o ← offset (shape a) idx; flat a !! o.

(** Every index of an array of shape [s], in row-major order. *)
Fixpoint indices (s : list nat) : list (list nat) :=
  match s with
  | [] => [[]]
  | d :: s' => flat_map (fun i => map (cons i) (indices s')) (seq 0 d)
  end.

(** The array of shape [s] whose item at [idx] is the item of [a] at
    [src idx]. *)
Definition gather {A} (s : list nat) (src : list nat -> list nat)
    (a : ndarray A) : ndarray A :=
  {| shape := s; flat := omap (fun idx => item a (src idx)) (indices s) |}.

(** An index expression of [n] entries, the integer [i] at axis [ax] and
    [:] on the other axes: [a[i]] is [index_axis 1 0 i a], [a[:, i, :]] is
    [index_axis 3 1 i a]. *)
Definition index_axis {A} (n ax i : nat) (a : ndarray A) :
    outcome (ndarray A) :=
  if decide (ndim a < n)%nat then
    raise IndexError "too many indices for array"
  else
    match shape a !! ax with
    | None => raise IndexError "too many indices for array"
    | Some d =>
        if decide (i < d)%nat then
          Ok (gather (delete ax (shape a))
                     (fun idx => take ax idx ++ i :: drop ax idx) a)
        else raise IndexError "index out of bounds"
    end.

Fixpoint index_of (x : nat) (l : list nat) : nat :=
  match l with
  | [] => 0%nat
  | y :: l' => if decide (x = y) then 0%nat else S (index_of x l')
  end.

(** [a.transpose(axes)]: axis [k] of the result is axis [axes[k]] of [a];
    [axes] must name every axis of [a] once. *)
Definition names_every_axis (axes : list nat) (n : nat) : bool :=
  bool_decide (length axes = n)
  && forallb (fun ax => bool_decide (ax ∈ axes)) (seq 0 n).

Definition transpose {A} (axes : list nat) (a : ndarray A) :
    outcome (ndarray A) :=
  if names_every_axis axes (ndim a) then
    Ok (gather (map (fun ax => nth ax (shape a) 0%nat) axes)
               (fun idx => map (fun ax => nth (index_of ax axes) idx 0%nat)
                               (seq 0 (ndim a)))
               a)
  else raise ValueError "axes don't match array".

(** [np.nonzero(a)]: one list per axis, holding the coordinates along that
    axis of the items that are true, in row-major order. *)
Definition nonzero (a : ndarray bool) : list (list nat) :=
  let hits :=
    List.filter (fun idx => bool_decide (item a idx = Some true))
                (indices (shape a)) in
  map (fun ax => map (fun idx => nth ax idx 0%nat) hits) (seq 0 (ndim a)).

(** *** Axes, and the [show_plane] helper of cell 9 *)

(** What has been drawn on a matplotlib axes: the images with their colour
    map and colour limits, the point sets with their format, the tick
    positions if they were set, and the title. *)
Record drawn_image (A : Type) := {
  image_data : ndarray A;
  image_cmap : string;
  image_limits : option (Q * Q)
}.
Arguments image_data {A} _.
Arguments image_cmap {A} _.
Arguments image_limits {A} _.

Record axes (A : Type) := {
  axes_images : list (drawn_image A);
  axes_lines : list (list nat * list nat * string);
  axes_xticks : option (list Q);
  axes_yticks : option (list Q);
  axes_title : string
}.
Arguments axes_images {A} _.
Arguments axes_lines {A} _.
Arguments axes_xticks {A} _.
Arguments axes_yticks {A} _.
Arguments axes_title {A} _.

(** An axes as [plt.subplots] hands it out. *)
Definition new_axes {A} : axes A :=
  {| axes_images := []; axes_lines := []; axes_xticks := None;
     axes_yticks := None; axes_title := EmptyString |}.

Definition imshow {A} (ax : axes A) (image : ndarray A) (cmap : string)
    (limits : option (Q * Q)) : outcome (axes A) :=
  _ ← matplotlib_imshow image cmap;
  Ok {| axes_images :=
          axes_images ax
          ++ [{| image_data := image; image_cmap := cmap;
                 image_limits := limits |}];
        axes_lines := axes_lines ax; axes_xticks := axes_xticks ax;
        axes_yticks := axes_yticks ax; axes_title := axes_title ax |}.

Definition plot {A} (ax : axes A) (xs ys : list nat) (fmt : string) :
    outcome (axes A) :=
  if decide (length xs = length ys) then
    Ok {| axes_images := axes_images ax;
          axes_lines := axes_lines ax ++ [(xs, ys, fmt)];
          axes_xticks := axes_xticks ax; axes_yticks := axes_yticks ax;
          axes_title := axes_title ax |}
  else raise ValueError "x and y must have same first dimension".

Definition set_xticks {A} (ax : axes A) (ticks : list Q) : axes A :=
  {| axes_images := axes_images ax; axes_lines := axes_lines ax;
     axes_xticks := Some ticks; axes_yticks := axes_yticks ax;
     axes_title := axes_title ax |}.

Definition set_yticks {A} (ax : axes A) (ticks : list Q) : axes A :=
  {| axes_images := axes_images ax; axes_lines := axes_lines ax;
     axes_xticks := axes_xticks ax; axes_yticks := Some ticks;
     axes_title := axes_title ax |}.

Definition set_title {A} (ax : axes A) (title : string) : axes A :=
  {| axes_images := axes_images ax; axes_lines := axes_lines ax;
     axes_xticks := axes_xticks ax; axes_yticks := axes_yticks ax;
     axes_title := title |}.

(** [if title:] for a title that is [None] or a string. *)
Definition truthy (title : option string) : bool :=
  match title with
  | Some (String _ _) => true
  | _ => false
  end.

(** [def show_plane(ax, plane, cmap="gray", title=None)] *)
Definition show_plane {A} (ax : axes A) (plane : ndarray A) (cmap : string)
    (title : option string) : outcome (axes A) :=
  ax ← imshow ax plane cmap None;
  let ax := set_xticks ax [] in
  let ax := set_yticks ax [] in
  if truthy title then Ok (set_title ax (default EmptyString title))
  else Ok ax.

(** *** Cell 10: three sections through the volume *)
Definition run_cell_10 {A} (data : ndarray A) : outcome (list (axes A)) :=
  let a := new_axes in
  let b := new_axes in
  let c := new_axes in
  plane ← index_axis 1 0 32 data;
  a ← show_plane a plane "gray" (Some "Plane = 32");
  plane ← index_axis 3 1 128 data;
  b ← show_plane b plane "gray" (Some "Row = 128");
  plane ← index_axis 3 2 128 data;
  c ← show_plane c plane "gray" (Some "Column = 128");
  Ok [a; b; c].

(** *** Cell 60: the distance map and its peaks, plane by plane *)
Definition cell_60_step (distance : ndarray Q) (peak_local_max : ndarray bool)
    (vmin vmax : Q) (index : nat) (ax : axes Q) : outcome (axes Q) :=
  plane ← index_axis 1 0 (31 + index) distance;
  ax ← imshow ax plane "gray" (Some (vmin, vmax));
  mask ← index_axis 1 0 (31 + index) peak_local_max;
  let peaks := nonzero mask in
  xs ← getitem peaks 1;
  ys ← getitem peaks 0;
  ax ← plot ax xs ys "r.";
  let ax := set_xticks ax [] in
  let ax := set_yticks ax [] in
  Ok ax.

Fixpoint cell_60_loop (distance : ndarray Q) (peak_local_max : ndarray bool)
    (vmin vmax : Q) (items : list (nat * axes Q)) : outcome (list (axes Q)) :=
  match items with
  | [] => Ok []
  | (index, ax) :: items' =>
      ax' ← cell_60_step distance peak_local_max vmin vmax index ax;
      rest ← cell_60_loop distance peak_local_max vmin vmax items';
      Ok (ax' :: rest)
  end.

Definition run_cell_60 (distance : ndarray Q) (peak_local_max : ndarray bool) :
    outcome (list (axes Q)) :=
  let axes := replicate (3 * 4) new_axes in
  vmin ← amin distance;
  vmax ← amax distance;
  cell_60_loop distance peak_local_max vmin vmax (enumerate axes).

(** *** Cell 76: the surface of one region

    [volume = (relabeled == regionprops[3].label).transpose(1, 2, 0)], then
    two meshes of it, one with unit spacing and one with [spacing]. *)
Record measured := { measured_label : Z; measured_area : Z }.

Section Surface.
Context {M : Type}.
(** The mesh comes back as vertices, faces, normals and values. *)
Variable marching_cubes :
  ndarray bool -> Q -> list Q -> outcome (M * M * M * M).
Variable mesh_surface_area : M -> M -> outcome Q.

Definition run_cell_76 (spacing : list Q) (relabeled : ndarray Z)
    (regionprops : list measured) : outcome (ndarray bool * Q * Q) :=
  r ← getitem regionprops 3;
  volume ← transpose [1; 2; 0]%nat
             (amap (fun x => Z.eqb x (measured_label r)) relabeled);
  '(verts_px, faces_px, _, _) ← marching_cubes volume 0 [1; 1; 1]%Q;
  surface_area_pixels ← mesh_surface_area verts_px faces_px;
  '(verts, faces, _, _) ← marching_cubes volume 0 spacing;
  surface_area_actual ← mesh_surface_area verts faces;
  Ok (volume, surface_area_pixels, surface_area_actual).
End Surface.

(** *** Cells 72 and 74: the volumes of the regions and their statistics *)

(** [volumes = [regionprop.area for regionprop in regionprops]] *)
Definition run_cell_72 (regionprops : list measured) : list Z :=
  map measured_area regionprops.

Definition np_max (l : list Z) : outcome Z :=
  match l with
  | [] => raise ValueError
            "zero-size array to reduction operation maximum which has no identity"
  | x :: xs => Ok (foldl Z.max x xs)
  end.

Definition np_min (l : list Z) : outcome Z :=
  match l with
  | [] => raise ValueError
            "zero-size array to reduction operation minimum which has no identity"
  | x :: xs => Ok (foldl Z.min x xs)
  end.

(** The areas are pixel counts held as 64-bit integers; [np.sum] adds them
    in 64 bits and wraps around. *)
Definition int64 (z : Z) : Z := ((z + 2 ^ 63) mod 2 ^ 64 - 2 ^ 63)%Z.

Definition np_sum (l : list Z) : Z :=
  foldl (fun acc x => int64 (acc + x)) 0%Z l.

Record statistics := {
  max_volume : Z;
  mean_volume : float64;
  min_volume : Z;
  sd_volume : float64;
  total_volume : Z
}.

Section Statistics.
(** [np.mean] and [np.std] return doubles; how numpy rounds them is numpy's
    business, so the two are parameters. *)
Variable np_mean : list Z -> float64.
Variable np_std : list Z -> float64.

Definition run_cell_74 (volumes : list Z) : outcome statistics :=
  max_volume ← np_max volumes;
  let mean_volume := np_mean volumes in
  min_volume ← np_min volumes;
  let sd_volume := np_std volumes in
  let total_volume := np_sum volumes in
  Ok {| max_volume := max_volume; mean_volume := mean_volume;
        min_volume := min_volume; sd_volume := sd_volume;
        total_volume := total_volume |}.
End Statistics.

(** *** More inputs to exercise the models *)

(** A volume of [p] planes of [r] rows and [c] columns holding 0, 1, ... *)
Definition count_up (p r c : nat) : ndarray Q :=
  {| shape := [p; r; c];
     flat := map (fun n => inject_Z (Z.of_nat n)) (seq 0 (p * r * c)) |}.

(** A label image of two planes of two by three pixels, and four measured
    regions. *)
Definition toy_labels : ndarray Z :=
  {| shape := [2; 2; 3]%nat;
     flat := [1; 1; 2; 3; 4; 4; 1; 4; 2; 3; 3; 4]%Z |}.

Definition toy_regions : list measured :=
  map (fun la => Build_measured la.1 la.2)
      [(1, 3); (2, 2); (3, 3); (4, 4)]%Z.

(** A mesher that only counts the voxels set, weighted by the first
    spacing. *)
Definition toy_marching_cubes (volume : ndarray bool) (level : Q)
    (spacing : list Q) : outcome (Q * Q * Q * Q) :=
  let n := inject_Z (Z.of_nat (length (List.filter id (flat volume)))) in
  Ok (n, hd 0%Q spacing, 0%Q, 0%Q).

Definition toy_mesh_surface_area (verts faces : Q) : outcome Q :=
  Ok (Qred (verts * faces)).

(** A routine that fails on planes holding a negative value. *)
Definition refuses_negative (a : ndarray Q) : outcome (ndarray Q) :=
  if forallb (fun x => Qle_bool 0 x) (flat a) then Ok a
  else raise ValueError "negative intensity".

(** A 2D image, and a volume whose middle plane holds a negative value. *)
Definition toy_image : ndarray Q :=
  {| shape := [2; 2]%nat; flat := [0; 1; 2; 3]%Q |}.

Definition dipping : ndarray Q :=
  {| shape := [3; 1; 1]%nat; flat := [0; -1; 2]%Q |}.

End Sem.

(** ** Properties *)

Import Ast Sem.

(** *** Order of events *)

Lemma forallb_lookup {A} (f : A -> bool) (l : list A) i x :
  forallb f l = true -> l !! i = Some x -> f x = true.
Proof.
  intros Hall Hx. apply (proj1 (forallb_forall f l) Hall).
  apply list_elem_of_In. by eapply list_elem_of_lookup_2.
Qed.

Lemma precedesb_sound {A} (p q : A -> bool) (l : list A) :
  precedesb p q l = true -> precedes p q l.
Proof.
  induction l as [|a l IH]; intros Hb i j x y Hi Hj Hp Hq.
  - by rewrite lookup_nil in Hi.
  - cbn [precedesb] in Hb. destruct (q a) eqn:Hqa.
    + pose proof (forallb_lookup _ _ _ _ Hb Hi) as Hn. cbn beta in Hn.
      rewrite Hp in Hn. discriminate.
    + destruct j as [|j]; simpl in Hj.
      * injection Hj as ->. congruence.
      * destruct i as [|i]; [lia|]. simpl in Hi.
        specialize (IH Hb i j x y Hi Hj Hp Hq). lia.
Qed.

(** *** The script as a sequence of stages *)

Lemma not_precedes {A} (p q : A -> bool) (l : list A) i j x y :
  l !! i = Some x -> l !! j = Some y -> p x = true -> q y = true ->
  (j <= i)%nat -> ~ precedes p q l.
Proof. intros Hi Hj Hp Hq Hle Hpre. specialize (Hpre i j x y Hi Hj Hp Hq). lia. Qed.

(** C4 (as the claim states it, this fails).  The stages do not follow one
    another in one pass.  The 95th call of the run is the
    [morphology.closing] of cell 41 and the 112th the
    [filters.threshold_li(equalized)] of cell 43: a thresholding that
    follows a morphological operation, and that is applied to the equalized
    volume, not to the denoised one.  The 13th call is the [io.imshow] of
    cell 7 and the 21st the first [exposure.adjust_gamma] of cell 17: a
    plotting call before a processing call.  So thresholding does not
    precede morphology, the processing stages do not precede visualization,
    and visualization is the second stage entered, not the last. *)
Lemma stages_are_interleaved :
  events !! 94%nat
  = Some (41%nat,
          Call (Attribute (Name "morphology") "closing") [Name "rescaled"]
               [("selem", Name "selem")])
  /\ events !! 111%nat
     = Some (43%nat,
             Call (Attribute (Name "filters") "threshold_li")
                  [Name "equalized"] [])
  /\ ~ precedes (at_stage Threshold) (at_stage Morphology) events
  /\ events !! 12%nat
     = Some (7%nat,
             Call (Attribute (Name "io") "imshow") [Name "data"]
                  [("cmap", Constant (Str "gray"))])
  /\ events !! 20%nat
     = Some (17%nat,
             Call (Attribute (Name "exposure") "adjust_gamma") [Name "data"]
                  [("gamma", Name "gamma_low_val")])
  /\ ~ precedes (fun ev => negb (at_stage Visualize ev)) (at_stage Visualize)
                events
  /\ first_occurrences (stages_of events)
     <> [Load; Contrast; Edge; Denoise; Threshold; Morphology; Labeling;
         Watershed; Measure; Visualize].
Proof.
  assert (H94 : events !! 94%nat
                = Some (41%nat,
                        Call (Attribute (Name "morphology") "closing")
                             [Name "rescaled"] [("selem", Name "selem")]))
    by (vm_compute; reflexivity).
  assert (H111 : events !! 111%nat
                 = Some (43%nat,
                         Call (Attribute (Name "filters") "threshold_li")
                              [Name "equalized"] []))
    by (vm_compute; reflexivity).
  assert (H12 : events !! 12%nat
                = Some (7%nat,
                        Call (Attribute (Name "io") "imshow") [Name "data"]
                             [("cmap", Constant (Str "gray"))]))
    by (vm_compute; reflexivity).
  assert (H20 : events !! 20%nat
                = Some (17%nat,
                        Call (Attribute (Name "exposure") "adjust_gamma")
                             [Name "data"] [("gamma", Name "gamma_low_val")]))
    by (vm_compute; reflexivity).
  repeat split; try assumption.
  - apply (not_precedes _ _ _ _ _ _ _ H111 H94); [reflexivity|reflexivity|lia].
  - apply (not_precedes _ _ _ _ _ _ _ H20 H12); [reflexivity|reflexivity|lia].
  - vm_compute. discriminate.
Qed.

(** C4 (amended).  The order the script does run in.  The first call the
    kernel makes reads the volume.  Every contrast adjustment comes before
    every edge-map call, and every edge-map call before every denoising
    filter.  The binary volume is the denoised volume compared with its Li
    threshold, the denoised volume being the array the bilateral-filter
    loop of cell 31 fills.  Every morphological operation comes after that
    thresholding (cell 35); cell 43, after the morphology of cell 41,
    thresholds the equalized volume and cleans the result up.  Every
    labeling call comes before the watershed call, and the watershed before
    every measurement.  Plotting apart, the stages are first entered in the
    order load, contrast, edge map, denoising, thresholding, morphology,
    labeling, watershed, measurement, and passed through in that order but
    for the second round of thresholding and morphology.  Visualization is
    the second stage entered and the last one left: from cell 7 on the
    cells plot what they have computed, as the table lists cell by cell,
    and the final cell makes plotting calls only, ends with [plt.show()],
    and follows every call of every other stage. *)
Theorem pipeline_order :
  head (map (fun ev => (ev.1, callee ev.2)) events) = Some (3%nat, "io.imread")
  /\ precedes (at_stage Contrast) (at_stage Edge) events
  /\ precedes (at_stage Edge) (at_stage Denoise) events
  /\ bindings (cells 33 36) !! "binary"
     = Some (Compare (Name "bilateral") GtE
               (Call (Attribute (Name "filters") "threshold_li")
                     [Name "bilateral"] []))
  /\ List.filter (fun s => in_list "bilateral" (assigned_names s)) script
     = [Assign (Name "bilateral")
               (Call (Attribute (Name "np") "empty_like") [Name "rescaled"] []);
        For (Tuple [Name "index"; Name "plane"])
            (Call (Name "enumerate") [Name "rescaled"] [])
            [Assign (Subscript (Name "bilateral") (Name "index"))
                    (Call (Attribute (Name "restoration") "denoise_bilateral")
                          [Name "plane"]
                          [("multichannel", Constant (Bool false))])]]
  /\ precedes (fun ev => at_stage Threshold ev && in_cell 35 ev)
              (at_stage Morphology) events
  /\ List.filter (at_stage Threshold) events
     = [(35%nat, Call (Attribute (Name "filters") "threshold_li")
                      [Name "denoised"] []);
        (35%nat, Call (Attribute (Name "filters") "threshold_otsu")
                      [Name "denoised"] []);
        (43%nat, Call (Attribute (Name "filters") "threshold_li")
                      [Name "equalized"] [])]
  /\ bindings (cells 43 43) !! "binary_equalized"
     = Some (Compare (Name "equalized") GtE
               (Call (Attribute (Name "filters") "threshold_li")
                     [Name "equalized"] []))
  /\ precedes (at_stage Labeling) (at_stage Watershed) events
  /\ precedes (at_stage Watershed) (at_stage Measure) events
  /\ first_occurrences
       (List.filter (fun st => negb (bool_decide (st = Visualize)))
                    (stages_of events))
     = [Load; Contrast; Edge; Denoise; Threshold; Morphology; Labeling;
        Watershed; Measure]
  /\ runs (List.filter (fun st => negb (bool_decide (st = Visualize)))
                       (stages_of events))
     = [Load; Contrast; Edge; Denoise; Threshold; Morphology; Threshold;
        Morphology; Labeling; Watershed; Measure]
  /\ first_occurrences (stages_of events)
     = [Load; Visualize; Contrast; Edge; Denoise; Threshold; Morphology;
        Labeling; Watershed; Measure]
  /\ last_occurrences (stages_of events)
     = [Load; Contrast; Edge; Denoise; Threshold; Morphology; Labeling;
        Watershed; Measure; Visualize]
  /\ cell_stages
     = [(3, [Load]); (7, [Visualize]); (10, [Visualize]); (13, [Visualize]);
        (17, [Contrast; Visualize]); (19, [Contrast; Visualize]);
        (21, [Contrast; Visualize]); (24, [Edge; Visualize]);
        (25, [Visualize; Edge; Visualize; Edge; Visualize]);
        (27, [Denoise; Visualize]); (29, [Denoise; Visualize]);
        (31, [Denoise; Visualize]); (32, [Visualize]);
        (35, [Threshold; Visualize]); (36, [Visualize]);
        (41, [Morphology; Visualize]);
        (43, [Threshold; Morphology; Visualize]);
        (45, [Morphology; Visualize]); (46, [Morphology; Visualize]);
        (50, [Labeling; Visualize]); (52, [Visualize]);
        (54, [Labeling; Watershed; Visualize]); (56, [Visualize]);
        (58, [Visualize]); (60, [Visualize]); (61, [Visualize]);
        (64, [Visualize]); (68, [Measure]); (76, [Measure]);
        (78, [Visualize])]%nat
  /\ last (map (fun ev => (ev.1, callee ev.2)) events)
     = Some (78%nat, "plt.show")
  /\ forallb (at_stage Visualize) (cell_events (78%nat, cell_78)) = true
  /\ precedes (fun ev => negb (at_stage Visualize ev)) (in_cell 78) events.
Proof.
  repeat split;
    try (apply precedesb_sound; vm_compute; reflexivity);
    vm_compute; reflexivity.
Qed.

(** *** Watershed *)

(** C6. The watershed step is seeded from local extrema.  Its markers are
    the labeled connected components of the local maxima of the Euclidean
    distance transform of the cleaned binary mask, found with
    [peak_local_max] over a 15x15x15 footprint; the regions are grown on
    the negated rescaled image, restricted to that mask.  The mask is the
    thresholded volume with small holes, then small objects, removed; the
    rescaled image is the volume with its intensities clipped to the 0.5
    and 99.5 percentiles and rescaled.  A run of the cell that ends
    normally has made exactly these calls, each on the result of the one
    before. *)
Theorem watershed_seeding :
  let mask := Name "remove_objects" in
  let label x := Call (Attribute (Name "measure") "label") [x] [] in
  let distance :=
    Call (Attribute (Name "ndi") "distance_transform_edt") [mask] [] in
  let footprint :=
    Call (Attribute (Name "np") "ones")
         [Tuple [Constant (Int 15); Constant (Int 15); Constant (Int 15)]]
         [("dtype", Attribute (Name "np") "bool")] in
  let maxima :=
    Call (Attribute (Name "feature") "peak_local_max") [distance]
         [("footprint", footprint); ("indices", Constant (Bool false));
          ("labels", label mask)] in
  let min_size := BinOp (Constant (Int 20)) Pow (Constant (Int 3)) in
  let percentiles :=
    Call (Attribute (Name "stats") "scoreatpercentile")
         [Name "data";
          Tuple [Constant (Float (5 # 10)); Constant (Float (995 # 10))]] [] in
  bindings cell_54 !! "markers" = Some (label maxima)
  /\ bindings cell_54 !! "labels"
     = Some (Call (Attribute (Name "morphology") "watershed")
                  [UnaryOp USub (Name "rescaled"); label maxima]
                  [("mask", mask)])
  /\ bindings (cells 36 46) !! "remove_objects"
     = Some (Call (Attribute (Name "morphology") "remove_small_objects")
                  [Call (Attribute (Name "morphology") "remove_small_holes")
                        [Name "li"] [("min_size", min_size)]]
                  [("min_size", min_size)])
  /\ bindings (cells 21 22) !! "rescaled"
     = Some (Call (Attribute
                     (Call (Attribute (Name "exposure") "rescale_intensity")
                           [Name "data"]
                           [("in_range",
                             Tuple [Subscript percentiles (Constant (Int 0));
                                    Subscript percentiles (Constant (Int 1))]);
                            ("out_range", Attribute (Name "np") "float32")])
                     "astype")
                  [Attribute (Name "np") "float32"] [])
  /\ (forall lib rescaled remove_objects distance peaks markers labels,
        run_cell_54 lib rescaled remove_objects
        = Ok (distance, peaks, markers, labels) ->
        exists components,
          distance_transform_edt lib remove_objects = Ok distance
          /\ Sem.label lib remove_objects = Ok components
          /\ peak_local_max lib distance (ones [15; 15; 15]%nat) components
             = Ok peaks
          /\ Sem.label lib peaks = Ok markers
          /\ watershed lib (amap Qopp rescaled) markers remove_objects
             = Ok labels).
Proof.
  repeat split; try (vm_compute; reflexivity).
  intros lib rescaled remove_objects distance peaks markers labels Hrun.
  unfold run_cell_54 in Hrun.
  destruct (distance_transform_edt lib remove_objects) as [d|] eqn:Hd;
    [|discriminate].
  cbn [mbind outcome_bind] in Hrun.
  destruct (Sem.label lib remove_objects) as [components|] eqn:Hc;
    [|discriminate].
  cbn [mbind outcome_bind] in Hrun.
  destruct (peak_local_max lib d (ones [15; 15; 15]%nat) components)
    as [pk|] eqn:Hp; [|discriminate].
  cbn [mbind outcome_bind] in Hrun.
  destruct (Sem.label lib pk) as [m|] eqn:Hm; [|discriminate].
  cbn [mbind outcome_bind] in Hrun.
  destruct (watershed lib (amap Qopp rescaled) m remove_objects)
    as [l|] eqn:Hl; [|discriminate].
  cbn [mbind outcome_bind] in Hrun. injection Hrun as <- <- <- <-.
  by exists components.
Qed.

Lemma watershed_seeding_witness :
  exists components,
    Sem.label toy_library (ge_scalar toy_volume 4) = Ok components
    /\ watershed toy_library (amap Qopp toy_volume)
                 (amap (fun b : bool => if b then 1%Z else 0%Z)
                       (amap (fun x => Qle_bool 1 x)
                             (amap (fun b : bool => if b then 1%Q else 0%Q)
                                   (ge_scalar toy_volume 4))))
                 (ge_scalar toy_volume 4)
       = Ok (amap (fun _ => 1%Z) (amap Qopp toy_volume)).
Proof.
  destruct watershed_seeding as (_ & _ & _ & _ & Hrun).
  destruct (Hrun toy_library toy_volume (ge_scalar toy_volume 4)
                 _ _ _ _ eq_refl)
    as (components & _ & Hc & _ & _ & Hw).
  exists components. split; [exact Hc|exact Hw].
Defined.

(** *** Error handling *)

(** The [try] statements of the program, as a fact used below. *)
Lemma try_statements_script :
  try_statements script
  = [Try [Expr (Call (Attribute (Name "io") "imshow") [Name "data"]
                     [("cmap", Constant (Str "gray"))])]
         [ExceptHandler (Some (Name "TypeError")) (Some "e")
            [Expr (Call (Name "print") [Call (Name "str") [Name "e"] []] [])]]
         [] [];
     Try [Expr (Subscript (Subscript (Name "regionprops") (Constant (Int 0)))
                          (Name "prop"));
          Expr (Call (Attribute (Name "supported") "append") [Name "prop"] [])]
         [ExceptHandler (Some (Name "NotImplementedError")) None
            [Expr (Call (Attribute (Name "unsupported") "append")
                        [Name "prop"] [])]]
         [] []].
Proof. vm_compute. reflexivity. Qed.

(** The classes derived from [TypeError] and [NotImplementedError] are the
    classes themselves. *)
Lemma issubclass_TypeError c : issubclass c TypeError = bool_decide (c = TypeError).
Proof. by destruct c. Qed.

Lemma issubclass_NotImplementedError c :
  issubclass c NotImplementedError = bool_decide (c = NotImplementedError).
Proof. by destruct c. Qed.

(** The probe loop, when every failing property fails with a
    [NotImplementedError]: the names split into those that compute and
    those that do not. *)
Lemma probe_loop_partition {V} (r0 : region V) (props : list string) acc :
  (forall p e, In p props -> prop r0 p = Raise e ->
               issubclass (exc_type e) NotImplementedError = true) ->
  probe_loop r0 props acc
  = Ok (acc.1 ++ List.filter (computes r0) props,
        acc.2 ++ List.filter (fun p => negb (computes r0 p)) props).
Proof.
  revert acc. induction props as [|p props IH]; intros [sup unsup] Hcls.
  - simpl. by rewrite !app_nil_r.
  - cbn [probe_loop List.filter]. unfold probe_step.
    destruct (prop r0 p) as [v|e] eqn:Hp.
    + assert (computes r0 p = true) as -> by (unfold computes; by rewrite Hp).
      cbn. rewrite IH by (intros; eapply Hcls; [by right|done]).
      cbn. by rewrite <- !app_assoc.
    + assert (computes r0 p = false) as -> by (unfold computes; by rewrite Hp).
      cbn. rewrite (Hcls p e) by (done || by left). cbn.
      rewrite IH by (intros; eapply Hcls; [by right|done]).
      cbn. by rewrite <- !app_assoc.
Qed.

(** An exception of another class leaves the loop at the property that
    raised it. *)
Lemma probe_loop_propagates {V} (r0 : region V) before p after acc e :
  (forall q e', In q before -> prop r0 q = Raise e' ->
                issubclass (exc_type e') NotImplementedError = true) ->
  prop r0 p = Raise e ->
  issubclass (exc_type e) NotImplementedError = false ->
  probe_loop r0 (before ++ p :: after) acc = Raise e.
Proof.
  revert acc. induction before as [|q before IH]; intros acc Hcls Hp Hne.
  - cbn. unfold probe_step. rewrite Hp. cbn. by rewrite Hne.
  - cbn [app probe_loop]. unfold probe_step at 1.
    destruct (prop r0 q) as [v|e'] eqn:Hq; cbn.
    + apply IH; [|done..]. intros; eapply Hcls; [by right|done].
    + rewrite (Hcls q e') by (done || by left). cbn.
      apply IH; [|done..]. intros; eapply Hcls; [by right|done].
Qed.

(** C1 (as the claim states it, this fails).  The program handles a second
    exception class: the handlers name [NotImplementedError] besides
    [TypeError], and a run of cell 68 on a region whose perimeter is not
    implemented catches that exception and goes on to the end of the
    loop. *)
Lemma probe_catches_NotImplementedError :
  handled_exceptions script = ["TypeError"; "NotImplementedError"]
  /\ prop region_3d "perimeter" = raise NotImplementedError EmptyString
  /\ run_cell_68 [region_3d] = Ok (["area"], ["perimeter"]).
Proof. repeat split; vm_compute; reflexivity. Qed.

(** C1 (amended).  The program has exactly two error-handling constructs:
    the [try]/[except TypeError] around [io.imshow] in cell 7 and the
    [try]/[except NotImplementedError] around the property probe
    [regionprops[0][prop]] in the loop of cell 68; neither has an [else] or
    a [finally] part.  In cell 68 a property whose probe raises
    [NotImplementedError] is recorded as unsupported and the loop goes on;
    an exception of any other class leaves the loop unhandled. *)
Theorem error_handling_constructs :
  try_statements script
  = [Try [Expr (Call (Attribute (Name "io") "imshow") [Name "data"]
                     [("cmap", Constant (Str "gray"))])]
         [ExceptHandler (Some (Name "TypeError")) (Some "e")
            [Expr (Call (Name "print") [Call (Name "str") [Name "e"] []] [])]]
         [] [];
     Try [Expr (Subscript (Subscript (Name "regionprops") (Constant (Int 0)))
                          (Name "prop"));
          Expr (Call (Attribute (Name "supported") "append") [Name "prop"] [])]
         [ExceptHandler (Some (Name "NotImplementedError")) None
            [Expr (Call (Attribute (Name "unsupported") "append")
                        [Name "prop"] [])]]
         [] []]
  /\ (forall V (r0 : region V) (rest : list (region V)),
        (forall p e, In p (prop_names r0) -> prop r0 p = Raise e ->
                     exc_type e = NotImplementedError) ->
        run_cell_68 (r0 :: rest)
        = Ok (List.filter (computes r0) (prop_names r0),
              List.filter (fun p => negb (computes r0 p)) (prop_names r0)))
  /\ (forall V (r0 : region V) (rest : list (region V)) before p after e,
        prop_names r0 = before ++ p :: after ->
        (forall q e', In q before -> prop r0 q = Raise e' ->
                      exc_type e' = NotImplementedError) ->
        prop r0 p = Raise e ->
        exc_type e <> NotImplementedError ->
        run_cell_68 (r0 :: rest) = Raise e).
Proof.
  split; [apply try_statements_script|]. split.
  - intros V r0 rest Hcls. unfold run_cell_68. cbn.
    rewrite probe_loop_partition; [done|].
    intros p e Hin Hp. rewrite issubclass_NotImplementedError.
    apply bool_decide_eq_true_2. by eapply Hcls.
  - intros V r0 rest before p after e Hnames Hcls Hp Hne.
    unfold run_cell_68. cbn. rewrite Hnames.
    apply probe_loop_propagates; [|done|].
    + intros q e' Hin Hq. rewrite issubclass_NotImplementedError.
      apply bool_decide_eq_true_2. by eapply Hcls.
    + rewrite issubclass_NotImplementedError. by apply bool_decide_eq_false_2.
Qed.

Lemma error_handling_constructs_witness :
  run_cell_68 [region_3d] = Ok (["area"], ["perimeter"])
  /\ run_cell_68 [region_broken] = raise ValueError "no centroid".
Proof.
  destruct error_handling_constructs as (_ & Hloop & Hescape). split.
  - apply (Hloop Z region_3d []).
    intros p e [<-|[<-|[]]]; vm_compute; intros [= <-]; reflexivity.
  - apply (Hescape Z region_broken [] ["area"; "perimeter"] "centroid"
                   ["label"]).
    + reflexivity.
    + intros q e [<-|[<-|[]]]; vm_compute; intros [= <-]; reflexivity.
    + reflexivity.
    + discriminate.
Defined.

(** *** The guarded display of the volume *)

(** matplotlib refuses a 3D array unless its last axis holds colour
    channels. *)
Lemma matplotlib_imshow_3d {A} (a : ndarray A) (cmap : string) p r c :
  shape a = [p; r; c] -> c <> 3%nat -> c <> 4%nat ->
  matplotlib_imshow a cmap = raise TypeError "Invalid dimensions for image data".
Proof.
  intros Hs H3 H4. unfold matplotlib_imshow, imshow_accepts. rewrite Hs.
  by rewrite !bool_decide_eq_false_2.
Qed.

(** C2. When [io.imshow], applied to the volume, raises an exception [e]:
    if [e] is a [TypeError] the cell ends normally, its only effects being
    that the message of [e] is printed and that the name [e] is unbound,
    so that in a namespace that did not bind [e] (none of the earlier cells
    binds it) every variable, the volume included, is as before; if [e] is
    of a class not derived from [TypeError] it is not caught. *)
Theorem imshow_type_error_is_caught {V} (of_exception : exception -> V)
    (io_imshow : V -> string -> outcome V) (st : state V) (volume : V)
    (e : exception) :
  vars st !! "data" = Some volume ->
  io_imshow volume "gray" = Raise e ->
  (exc_type e = TypeError ->
     run_cell_07 of_exception io_imshow st
     = Ok {| vars := delete "e" (vars st);
             stdout := stdout st ++ [exc_message e] |}
     /\ (vars st !! "e" = None ->
         run_cell_07 of_exception io_imshow st
         = Ok {| vars := vars st; stdout := stdout st ++ [exc_message e] |}))
  /\ (issubclass (exc_type e) TypeError = false ->
      run_cell_07 of_exception io_imshow st = Raise e)
  /\ ~ In "e" (flat_map assigned_names (cells 0 6)).
Proof.
  intros Hdata Hraise. unfold run_cell_07, load. rewrite Hdata. cbn.
  rewrite Hraise. cbn. split; [|split].
  - intros Hty. rewrite Hty. cbn. unfold unbind, print, store. cbn.
    rewrite delete_insert_eq. split; [done|].
    intros He. by rewrite delete_id.
  - intros Hne. by rewrite Hne.
  - vm_compute. intuition discriminate.
Qed.

Lemma imshow_type_error_is_caught_witness :
  run_cell_07 inr imshow_value namespace_07
  = Ok {| vars := vars namespace_07;
          stdout := ["Invalid dimensions for image data"] |}
  /\ run_cell_07 inr imshow_broken namespace_07
     = raise RuntimeError "out of memory".
Proof.
  pose proof (matplotlib_imshow_3d (ramp 60) "gray" 60 1 1 eq_refl
                ltac:(lia) ltac:(lia)) as Hraise.
  assert (imshow_value (inl (ramp 60)) "gray"
          = raise TypeError "Invalid dimensions for image data") as Hval
    by (unfold imshow_value; rewrite Hraise; reflexivity).
  split.
  - destruct (imshow_type_error_is_caught inr imshow_value namespace_07
                (inl (ramp 60)) _ eq_refl Hval) as (Hcaught & _ & _).
    destruct (Hcaught eq_refl) as (_ & Hsame).
    apply Hsame. reflexivity.
  - destruct (imshow_type_error_is_caught inr imshow_broken namespace_07
                (inl (ramp 60)) _ eq_refl eq_refl) as (_ & Hescapes & _).
    apply Hescapes. reflexivity.
Defined.

(** *** The spacing *)

(** C7. The normalized spacing is the original spacing (0.29, 0.065, 0.065)
    multiplied elementwise by (1.0, 4.0, 4.0) and divided by its row
    component; as rationals it is (29/26, 1, 1), the row and column
    spacings being exactly 1. *)
Theorem spacing_normalized :
  let r := zip_with Qmult [1; 4; 4]%Q original_spacing in
  rescaled_spacing = Ok r
  /\ (exists d, r !! 1%nat = Some d
                /\ spacing = Ok (map (fun x => x / d)%Q r))
  /\ exists z y x,
       spacing = Ok [z; y; x]
       /\ Qred z = (29 # 26)%Q /\ Qred y = 1%Q /\ Qred x = 1%Q.
Proof.
  split; [reflexivity|]. split.
  - eexists. split; reflexivity.
  - eexists _, _, _. split; [reflexivity|]. by vm_compute.
Qed.

(** *** Thresholding *)

Lemma ge_scalar_lookup (a : ndarray Q) (t : Q) i x :
  flat a !! i = Some x ->
  flat (ge_scalar a t) !! i = Some (Qle_bool t x).
Proof. intros Hx. unfold ge_scalar, amap. cbn. by rewrite list_lookup_fmap, Hx. Qed.

(** C10. Every thresholding comparison of the program is [>=]: a pixel
    whose intensity equals the computed threshold (Li or Otsu) is
    foreground, in [li], in [otsu] and in [binary_equalized] alike. *)
Theorem threshold_is_inclusive :
  threshold_comparisons script
  = [Compare (Name "denoised") GtE (Name "threshold_li");
     Compare (Name "denoised") GtE (Name "threshold_otsu");
     Compare (Name "equalized") GtE
       (Call (Attribute (Name "filters") "threshold_li") [Name "equalized"] [])]
  /\ (forall (a : ndarray Q) (t : Q) i x,
        flat a !! i = Some x -> (x == t)%Q ->
        flat (ge_scalar a t) !! i = Some true)
  /\ (forall (a : ndarray Q) (t : Q) i x,
        flat a !! i = Some x ->
        exists b, flat (ge_scalar a t) !! i = Some b
                  /\ (b = true <-> (t <= x)%Q))
  /\ (forall lib denoised li otsu,
        run_cell_35 lib denoised = Ok (li, otsu) ->
        exists t_li t_otsu,
          threshold_li lib denoised = Ok t_li
          /\ threshold_otsu lib denoised = Ok t_otsu
          /\ li = ge_scalar denoised t_li
          /\ otsu = ge_scalar denoised t_otsu).
Proof.
  split; [vm_compute; reflexivity|]. split; [|split].
  - intros a t i x Hx Heq. rewrite (ge_scalar_lookup a t i x Hx). f_equal.
    apply Qle_bool_iff. rewrite Heq. apply Qle_refl.
  - intros a t i x Hx. exists (Qle_bool t x).
    split; [by apply ge_scalar_lookup|]. apply Qle_bool_iff.
  - intros lib denoised li otsu Hrun. unfold run_cell_35 in Hrun.
    destruct (threshold_li lib denoised) as [t1|] eqn:H1; [|discriminate].
    cbn in Hrun.
    destruct (threshold_otsu lib denoised) as [t2|] eqn:H2; [|discriminate].
    cbn in Hrun. injection Hrun as <- <-. by exists t1, t2.
Qed.

Lemma threshold_is_inclusive_witness :
  flat (ge_scalar (ramp 3) 1) !! 1%nat = Some true
  /\ exists t_li t_otsu,
       threshold_li toy_library toy_volume = Ok t_li
       /\ threshold_otsu toy_library toy_volume = Ok t_otsu
       /\ ge_scalar toy_volume 4 = ge_scalar toy_volume t_li
       /\ ge_scalar toy_volume 4 = ge_scalar toy_volume t_otsu.
Proof.
  destruct threshold_is_inclusive as (_ & Heq & _ & Hcell). split.
  - apply (Heq (ramp 3) 1%Q 1%nat 1%Q); reflexivity.
  - apply (Hcell toy_library toy_volume). reflexivity.
Defined.

(** *** Iteration and slicing along the first axis *)

Lemma length_chunks {A} (sz n : nat) (xs : list A) :
  length (chunks sz n xs) = n.
Proof. revert xs. induction n as [|n IH]; intros xs; cbn; [done|by rewrite IH]. Qed.

Lemma length_subarrays {A} (a : ndarray A) p rest :
  shape a = p :: rest -> length (subarrays a) = p.
Proof.
  intros Hs. unfold subarrays. rewrite Hs.
  by rewrite length_map, length_chunks.
Qed.

Lemma subarrays_shape {A} (a : ndarray A) p rest i b :
  shape a = p :: rest -> subarrays a !! i = Some b -> shape b = rest.
Proof.
  intros Hs Hb. unfold subarrays in Hb. rewrite Hs in Hb.
  rewrite list_lookup_fmap in Hb.
  destruct (chunks (size_of rest) p (flat a) !! i); [|done].
  by injection Hb as <-.
Qed.

Lemma ceil_div_spec (n s k : nat) :
  (0 < s)%nat -> (k < ceil_div n s)%nat -> (k * s < n)%nat.
Proof.
  intros Hs Hk. unfold ceil_div in Hk.
  pose proof (Nat.Div0.mul_div_le (n + s - 1) s) as Hle.
  assert (S k <= (n + s - 1) / s)%nat as Hk' by lia.
  apply (Nat.mul_le_mono_l _ _ s) in Hk'. lia.
Qed.

Lemma getitem_Some {A} (l : list A) i y : l !! i = Some y -> getitem l i = Ok y.
Proof. intros Hy. unfold getitem. by rewrite Hy. Qed.

Lemma collect_getitem {A} (l : list A) (idx : list nat) :
  Forall (fun i => (i < length l)%nat) idx ->
  exists ys, collect (map (getitem l) idx) = Ok ys
             /\ Forall2 (fun i y => l !! i = Some y) idx ys.
Proof.
  induction 1 as [|i idx Hi _ (ys & Hys & Hall)].
  - exists []. by split.
  - destruct (lookup_lt_is_Some_2 l i Hi) as [y Hy].
    exists (y :: ys). split.
    + cbn [map collect]. by rewrite (getitem_Some _ _ _ Hy), Hys.
    + by constructor.
Qed.

(** A slice with a positive step selects [ceil(n / step)] items, item [k]
    being item [k * step] of the list; every read is in range. *)
Lemma slice_step_positive {A} (step : Z) (l : list A) :
  (0 < step)%Z ->
  exists sel,
    slice_step step l = Ok sel
    /\ length sel = ceil_div (length l) (Z.to_nat step)
    /\ forall k y, sel !! k = Some y ->
                   (k * Z.to_nat step < length l)%nat
                   /\ l !! (k * Z.to_nat step)%nat = Some y.
Proof.
  intros Hstep. unfold slice_step.
  destruct (decide (step = 0)%Z) as [->|_]; [lia|].
  destruct (decide (0 < step)%Z) as [_|?]; [|lia].
  set (s := Z.to_nat step). assert (0 < s)%nat as Hs by lia.
  set (n := ceil_div (length l) s).
  destruct (collect_getitem l (map (fun k => k * s)%nat (seq 0 n)))
    as (sel & Hsel & Hall).
  { apply Forall_forall. intros i Hi.
    apply list_elem_of_fmap in Hi as (k & -> & Hk).
    apply elem_of_seq in Hk. apply ceil_div_spec; [done|]. unfold n in Hk. lia. }
  exists sel. rewrite map_map in Hsel. split; [done|].
  pose proof (Forall2_length _ _ _ Hall) as Hlen.
  rewrite length_map, length_seq in Hlen. split; [done|].
  intros k y Hk.
  assert (k < n)%nat as Hkn by (rewrite Hlen; by eapply lookup_lt_Some).
  assert (map (fun k => k * s)%nat (seq 0 n) !! k = Some (k * s)%nat) as Hidx.
  { rewrite list_lookup_fmap, lookup_seq_lt by done. done. }
  pose proof (Forall2_lookup_lr _ _ _ _ _ _ Hall Hidx Hk) as Hy.
  split; [|done]. exact (lookup_lt_Some _ _ _ Hy).
Qed.

(** *** Minimum and maximum *)

Lemma Qmin_cases (x y : Q) : Qmin x y = x \/ Qmin x y = y.
Proof. unfold Qmin, GenericMinMax.gmin. destruct (x ?= y)%Q; auto. Qed.

Lemma Qmax_cases (x y : Q) : Qmax x y = x \/ Qmax x y = y.
Proof. unfold Qmax, GenericMinMax.gmax. destruct (x ?= y)%Q; auto. Qed.

Lemma foldl_Qmin_spec (xs : list Q) (x : Q) :
  In (foldl Qmin x xs) (x :: xs)
  /\ Forall (fun y => (foldl Qmin x xs <= y)%Q) (x :: xs).
Proof.
  revert x. induction xs as [|y xs IH]; intros x; cbn [foldl].
  - split; [by left|]. constructor; [apply Qle_refl|constructor].
  - destruct (IH (Qmin x y)) as [Hin Hall]. split.
    + destruct Hin as [Hin|Hin]; [|by right; right].
      rewrite <- Hin. destruct (Qmin_cases x y) as [->| ->]; [by left|by right; left].
    + apply Forall_cons_1 in Hall as [Hm Hall].
      repeat constructor; [| |done].
      * eapply Qle_trans; [exact Hm|apply Q.le_min_l].
      * eapply Qle_trans; [exact Hm|apply Q.le_min_r].
Qed.

Lemma foldl_Qmax_spec (xs : list Q) (x : Q) :
  In (foldl Qmax x xs) (x :: xs)
  /\ Forall (fun y => (y <= foldl Qmax x xs)%Q) (x :: xs).
Proof.
  revert x. induction xs as [|y xs IH]; intros x; cbn [foldl].
  - split; [by left|]. constructor; [apply Qle_refl|constructor].
  - destruct (IH (Qmax x y)) as [Hin Hall]. split.
    + destruct Hin as [Hin|Hin]; [|by right; right].
      rewrite <- Hin. destruct (Qmax_cases x y) as [->| ->]; [by left|by right; left].
    + apply Forall_cons_1 in Hall as [Hm Hall].
      repeat constructor; [| |done].
      * eapply Qle_trans; [apply Q.le_max_l|exact Hm].
      * eapply Qle_trans; [apply Q.le_max_r|exact Hm].
Qed.

Lemma amin_spec (a : ndarray Q) :
  flat a <> [] ->
  exists m, amin a = Ok m /\ In m (flat a)
            /\ Forall (fun y => (m <= y)%Q) (flat a).
Proof.
  intros Hne. unfold amin. destruct (flat a) as [|x xs]; [done|].
  eexists. split; [done|]. apply foldl_Qmin_spec.
Qed.

Lemma amax_spec (a : ndarray Q) :
  flat a <> [] ->
  exists m, amax a = Ok m /\ In m (flat a)
            /\ Forall (fun y => (y <= m)%Q) (flat a).
Proof.
  intros Hne. unfold amax. destruct (flat a) as [|x xs]; [done|].
  eexists. split; [done|]. apply foldl_Qmax_spec.
Qed.

(** *** The display helper *)

Lemma display_loop_ok (items : list (nat * ndarray Q)) cmap vmin vmax :
  Forall (fun item => imshow_accepts (shape item.2) = true) items ->
  display_loop items cmap vmin vmax = Ok (map (mk_panel cmap vmin vmax) items).
Proof.
  induction 1 as [|[ax image] items Hacc _ IH]; [done|].
  cbn [display_loop map]. unfold ax_imshow, matplotlib_imshow.
  cbn in Hacc. rewrite Hacc. cbn. by rewrite IH.
Qed.

(** C9 (as the claim states it, this fails).  With step 1 a volume of 40
    planes, fewer than 60, is not shown in full: 30 panels are drawn for 40
    selected planes.  And a volume of shape (5, 0, 0) gets no panel at all,
    where [min(30, ceil(5 / 2))] is 3: [im3d.min()] raises. *)
Lemma display_sixty_plane_rule_fails :
  (exists panels,
     display (ramp 40) "gray" 1 = Ok panels
     /\ length (subarrays (ramp 40)) = 40%nat
     /\ length panels = 30%nat)
  /\ display {| shape := [5; 0; 0]%nat; flat := [] |} "gray" 2
     = raise ValueError
         "zero-size array to reduction operation minimum which has no identity".
Proof.
  split; [|reflexivity].
  eexists. split; [vm_compute; reflexivity|]. split; reflexivity.
Qed.

(** C9 (amended).  For every 3D volume that holds at least one voxel and
    every positive step, [display] draws exactly
    [min(30, ceil(planes / step))] panels and reads no plane out of range:
    panel [k] is on axis [k] and shows plane [k * step], and all panels
    have the minimum and the maximum of the whole volume as display
    bounds.  [zip] stops at the shorter of the 30 axes and the selected
    planes: a volume of more than [30 * step] planes (60 at the default
    step 2) is silently truncated, one of at most [30 * step] planes is
    shown in full.  On a volume without voxels [im3d.min()] raises
    [ValueError] and nothing is drawn. *)
Theorem display_panels :
  (forall (im3d : ndarray Q) (cmap : string) (step : Z) (p r c : nat),
     shape im3d = [p; r; c] ->
     flat im3d <> [] ->
     (0 < step)%Z ->
     let s := Z.to_nat step in
     exists panels vmin vmax,
       display im3d cmap step = Ok panels
       /\ length panels = Nat.min 30 (ceil_div p s)
       /\ (forall k pn, panels !! k = Some pn ->
             (k * s < p)%nat
             /\ subarrays im3d !! (k * s)%nat = Some (panel_image pn)
             /\ panel_axis pn = k /\ panel_cmap pn = cmap
             /\ panel_vmin pn = vmin /\ panel_vmax pn = vmax)
       /\ In vmin (flat im3d) /\ Forall (fun x => (vmin <= x)%Q) (flat im3d)
       /\ In vmax (flat im3d) /\ Forall (fun x => (x <= vmax)%Q) (flat im3d)
       /\ ((30 * s < p)%nat -> (length panels < ceil_div p s)%nat)
       /\ ((p <= 30 * s)%nat -> length panels = ceil_div p s))
  /\ (default_step = 2%Z)
  /\ (forall (im3d : ndarray Q) (cmap : string) (step : Z),
        flat im3d = [] ->
        display im3d cmap step
        = raise ValueError
            "zero-size array to reduction operation minimum which has no identity").
Proof.
  split; [|split; [reflexivity|]].
  - intros im3d cmap step p r c Hshape Hne Hstep s.
    destruct (amin_spec im3d Hne) as (vmin & Hmin & Hmin_in & Hmin_le).
    destruct (amax_spec im3d Hne) as (vmax & Hmax & Hmax_in & Hmax_le).
    destruct (slice_step_positive step (subarrays im3d) Hstep)
      as (sel & Hsel & Hlen & Hread).
    rewrite (length_subarrays im3d p [r; c] Hshape) in Hlen, Hread.
    fold s in Hlen, Hread.
    assert (0 < s)%nat as Hs by (unfold s; lia).
    exists (map (mk_panel cmap vmin vmax) (zip (seq 0 (5 * 6)) sel)), vmin, vmax.
    assert (length (zip (seq 0 (5 * 6)) sel) = Nat.min 30 (ceil_div p s)) as Hzip.
    { rewrite length_zip_with, length_seq, Hlen. reflexivity. }
    split; [|split; [|split]].
    + unfold display, slice_planes. rewrite Hmin, Hmax, Hshape. cbn [mbind outcome_bind].
      rewrite Hsel. cbn [mbind outcome_bind]. apply display_loop_ok.
      apply Forall_forall. intros [ax image] Hitem. cbn.
      apply elem_of_zip_r in Hitem. apply list_elem_of_lookup in Hitem as [k Hk].
      destruct (Hread k image Hk) as [_ Hplane].
      by rewrite (subarrays_shape im3d p [r; c] _ _ Hshape Hplane).
    + by rewrite length_map.
    + intros k pn Hpn. rewrite list_lookup_fmap in Hpn.
      destruct (zip (seq 0 (5 * 6)) sel !! k) as [[ax image]|] eqn:Hitem;
        [|done].
      injection Hpn as <-. cbn.
      apply lookup_zip_with_Some in Hitem as (ax' & image' & [= <- <-] & Hax & Himage).
      apply lookup_seq in Hax as [-> _].
      destruct (Hread k image Himage) as [Hlt Hplane]. done.
    + repeat split; try done.
      * intros Hbig. rewrite length_map, Hzip.
        assert (31 <= ceil_div p s)%nat; [|lia].
        unfold ceil_div. apply Nat.div_le_lower_bound; lia.
      * intros Hsmall. rewrite length_map, Hzip.
        assert (ceil_div p s < 31)%nat; [|lia].
        unfold ceil_div. apply Nat.Div0.div_lt_upper_bound; lia.
  - intros im3d cmap step Hempty. unfold display, amin. by rewrite Hempty.
Qed.

Lemma display_panels_witness :
  (exists panels,
     display (ramp 61) default_cmap default_step = Ok panels
     /\ length panels = 30%nat
     /\ (length panels < ceil_div 61 2)%nat)
  /\ display {| shape := [5; 0; 0]%nat; flat := [] |} default_cmap default_step
     = raise ValueError
         "zero-size array to reduction operation minimum which has no identity".
Proof.
  destruct display_panels as (Hdraw & _ & Hempty). split.
  - destruct (Hdraw (ramp 61) default_cmap default_step 61%nat 1%nat 1%nat
                    eq_refl ltac:(discriminate) ltac:(reflexivity))
      as (panels & vmin & vmax & Hrun & Hlen & _ & _ & _ & _ & _ & Htrunc & _).
    exists panels. split; [exact Hrun|]. split; [exact Hlen|].
    apply Htrunc. vm_compute. lia.
  - apply Hempty. reflexivity.
Defined.

(** *** Chunks, broadcasting and stores into a plane *)

Lemma concat_chunks {A} (sz n : nat) (xs : list A) :
  length xs = (n * sz)%nat -> concat (chunks sz n xs) = xs.
Proof.
  revert xs. induction n as [|n IH]; intros xs Hlen; cbn [chunks concat].
  - by apply nil_length_inv in Hlen.
  - rewrite IH; [apply take_drop|]. rewrite length_drop. lia.
Qed.

Lemma Forall_length_chunks {A} (sz n : nat) (xs : list A) :
  length xs = (n * sz)%nat ->
  Forall (fun c => length c = sz) (chunks sz n xs).
Proof.
  revert xs. induction n as [|n IH]; intros xs Hlen; cbn [chunks].
  - constructor.
  - constructor; [rewrite length_take; lia|].
    apply IH. rewrite length_drop. lia.
Qed.

Lemma chunks_concat {A} (sz : nat) (ls : list (list A)) :
  Forall (fun c => length c = sz) ls ->
  chunks sz (length ls) (concat ls) = ls.
Proof.
  induction 1 as [|c ls Hc _ IH]; [done|].
  cbn [length chunks concat].
  by rewrite take_app_length', drop_app_length', IH.
Qed.

Lemma broadcast_same {A} (s : list nat) (xs : list A) :
  length xs = size_of s -> broadcast s s xs = Some xs.
Proof.
  revert xs. induction s as [|n s IH]; intros xs Hlen; [done|].
  cbn [broadcast]. rewrite decide_True by done.
  cbn [size_of foldr] in Hlen. fold (size_of s) in Hlen.
  assert (mapM (M := option) (broadcast s s) (chunks (size_of s) n xs)
          = Some (chunks (size_of s) n xs)) as ->.
  { apply mapM_Some_2, Forall_Forall2_diag.
    eapply Forall_impl; [by apply Forall_length_chunks|].
    intros c Hc. by apply IH. }
  cbn. by rewrite concat_chunks.
Qed.

Lemma broadcast_to_same {A} (s : list nat) (v : ndarray A) :
  shape v = s -> wf v -> broadcast_to s v = Some (flat v).
Proof.
  intros <- Hwf. unfold broadcast_to, ndim.
  rewrite Nat.sub_diag. cbn [strip_ones mbind option_bind].
  rewrite Nat.sub_diag. cbn [replicate app].
  by apply broadcast_same.
Qed.

Lemma setitem_shape {A B} (cast : A -> B) (dst dst' : ndarray B) i v :
  setitem cast dst i v = Ok dst' -> shape dst' = shape dst.
Proof.
  unfold setitem. destruct (shape dst) as [|p rest] eqn:Hs; [done|].
  destruct (decide (i < p)%nat); [|done].
  destruct (broadcast_to rest v); [|done].
  by intros [= <-].
Qed.

(** A store keeps the shape, so a planewise loop does, whatever the routine
    it applies returns. *)
Lemma planewise_loop_shape {A B C} (f : ndarray A -> outcome (ndarray C))
    (cast : C -> B) items (dst dst' : ndarray B) :
  planewise_loop f cast items dst = Ok dst' -> shape dst' = shape dst.
Proof.
  revert dst. induction items as [|[i image] items IH]; intros dst.
  - by intros [= <-].
  - cbn [planewise_loop]. destruct (f image) as [v|]; [|done].
    cbn [mbind outcome_bind].
    destruct (setitem cast dst i v) as [dst1|] eqn:Hset; [|done].
    cbn [mbind outcome_bind]. intros Hloop.
    rewrite (IH _ Hloop). by eapply setitem_shape.
Qed.

Lemma planewise_shape {A B C} (f : ndarray A -> outcome (ndarray C))
    (cast : C -> B) junk (src : ndarray A) (dst : ndarray B) :
  planewise f cast junk src = Ok dst -> shape dst = shape src.
Proof.
  unfold planewise. destruct (planes src) as [items|]; [|done].
  cbn [mbind outcome_bind]. intros Hloop.
  by rewrite (planewise_loop_shape _ _ _ _ _ Hloop).
Qed.

(** The loop, started at plane [k] with [done] already written. *)
Lemma planewise_loop_spec {A B C} (f : ndarray A -> outcome (ndarray C))
    (cast : C -> B) (p : nat) (rest : list nat)
    (images : list (ndarray A)) (results : list (ndarray C)) :
  Forall2 (fun image v => f image = Ok v /\ shape v = rest /\ wf v)
          images results ->
  forall (k : nat) (done tail : list B),
    length done = (k * size_of rest)%nat ->
    length tail = (length images * size_of rest)%nat ->
    (k + length images <= p)%nat ->
    planewise_loop f cast (zip (seq k (length images)) images)
                   {| shape := p :: rest; flat := done ++ tail |}
    = Ok {| shape := p :: rest;
            flat := done ++ concat (map (fun v => map cast (flat v)) results) |}.
Proof.
  induction 1 as [|image v images results (Hf & Hshape & Hwf) _ IH];
    intros k done tail Hdone Htail Hk.
  - cbn. apply nil_length_inv in Htail as ->. done.
  - cbn [length seq zip zip_with planewise_loop]. rewrite Hf.
    cbn [mbind outcome_bind]. unfold setitem. cbn [shape flat].
    cbn [length] in Hk, Htail.
    rewrite decide_True by lia.
    rewrite (broadcast_to_same rest v Hshape Hwf).
    rewrite take_app_length' by done.
    replace ((k + 1) * size_of rest)%nat with (length done + size_of rest)%nat
      by lia.
    rewrite drop_app_add.
    cbn [mbind outcome_bind map concat].
    rewrite !(app_assoc done).
    apply IH.
    + rewrite length_app, length_map, Hdone. unfold wf in Hwf.
      rewrite Hwf, Hshape. lia.
    + rewrite length_drop, Htail. lia.
    + lia.
Qed.

Lemma subarrays_concat {B C} (cast : C -> B) (rest : list nat)
    (results : list (ndarray C)) :
  Forall (fun v => shape v = rest /\ wf v) results ->
  subarrays {| shape := length results :: rest;
               flat := concat (map (fun v => map cast (flat v)) results) |}
  = map (amap cast) results.
Proof.
  intros Hall. unfold subarrays. cbn [shape flat].
  replace (length results)
    with (length (map (fun v => map cast (flat v)) results))
    by apply length_map.
  rewrite chunks_concat.
  - rewrite map_map. induction Hall as [|v results [Hv _] _ IH]; [done|].
    cbn [map]. f_equal; [|exact IH]. unfold amap. by rewrite Hv.
  - induction Hall as [|v results [Hv Hwf] _ IH]; constructor; [|done].
    rewrite length_map. unfold wf in Hwf. by rewrite Hwf, Hv.
Qed.

(** A planewise loop whose routine returns a plane-shaped array for every
    plane fills the destination with the results, plane by plane. *)
Lemma planewise_spec {A B C} (f : ndarray A -> outcome (ndarray C))
    (cast : C -> B) junk (src : ndarray A) p rest
    (results : list (ndarray C)) :
  shape src = p :: rest ->
  Forall2 (fun image v => f image = Ok v /\ shape v = rest /\ wf v)
          (subarrays src) results ->
  exists dst,
    planewise f cast junk src = Ok dst
    /\ shape dst = shape src
    /\ subarrays dst = map (amap cast) results.
Proof.
  intros Hs Hres.
  pose proof (length_subarrays src p rest Hs) as Hlen.
  pose proof (Forall2_length _ _ _ Hres) as Hlen'.
  assert (Forall (fun v => shape v = rest /\ wf v) results) as Hall.
  { clear -Hres. induction Hres as [|???? (_ & ? & ?)]; by constructor. }
  exists {| shape := p :: rest;
            flat := concat (map (fun v => map cast (flat v)) results) |}.
  split; [|split].
  - unfold planewise, planes, enumerate, empty_like. rewrite Hs.
    cbn [mbind outcome_bind].
    rewrite <- (app_nil_l (map junk _)).
    rewrite (planewise_loop_spec f cast p rest _ results Hres 0 []); [done|done| |lia].
    rewrite length_map, length_seq, Hlen. cbn [size_of foldr]. done.
  - by rewrite Hs.
  - replace p with (length results) by lia. by apply subarrays_concat.
Qed.

(** *** The processing steps *)

(** C3 (as the claim states it, this fails).  The edge-detection step is
    not one library call: cell 24 holds a [for] loop of the program's own
    over the planes of the volume, and [filters.sobel] is called in its
    body, on one plane at a time.  The median-filter step of cell 29 and
    the bilateral-filter step of cell 31 are such loops as well, and the
    measurement step of cell 68 has a loop of its own around a [try] that
    catches the failure of a property. *)
Lemma edge_detection_is_a_loop :
  let loop :=
    For (Tuple [Name "plane"; Name "image"])
        (Call (Name "enumerate") [Name "rescaled"] [])
        [Assign (Subscript (Name "sobel") (Name "plane"))
                (Call (Attribute (Name "filters") "sobel") [Name "image"] [])]
  in
  let median_loop :=
    For (Tuple [Name "plane"; Name "image"])
        (Call (Name "enumerate") [Name "rescaled_uint8"] [])
        [Assign (Subscript (Name "median") (Name "plane"))
                (Call (Attribute (Name "filters") "median") [Name "image"] [])]
  in
  let bilateral_loop :=
    For (Tuple [Name "index"; Name "plane"])
        (Call (Name "enumerate") [Name "rescaled"] [])
        [Assign (Subscript (Name "bilateral") (Name "index"))
                (Call (Attribute (Name "restoration") "denoise_bilateral")
                      [Name "plane"] [("multichannel", Constant (Bool false))])]
  in
  let probe_loop :=
    For (Name "prop") (Subscript (Name "regionprops") (Constant (Int 0)))
        [Try [Expr (Subscript
                      (Subscript (Name "regionprops") (Constant (Int 0)))
                      (Name "prop"));
              Expr (Call (Attribute (Name "supported") "append")
                         [Name "prop"] [])]
             [ExceptHandler (Some (Name "NotImplementedError")) None
                [Expr (Call (Attribute (Name "unsupported") "append")
                            [Name "prop"] [])]]
             [] []]
  in
  In (24%nat, cell_24) notebook
  /\ In loop cell_24
  /\ is_control_flow loop = true
  /\ map callee (stmt_calls true loop) = ["enumerate"; "filters.sobel"]
  /\ stage_of "filters.sobel" = Some Edge
  /\ In (29%nat, cell_29) notebook
  /\ In median_loop cell_29
  /\ is_control_flow median_loop = true
  /\ In (31%nat, cell_31) notebook
  /\ In bilateral_loop cell_31
  /\ is_control_flow bilateral_loop = true
  /\ In (68%nat, cell_68) notebook
  /\ In probe_loop cell_68
  /\ is_control_flow probe_loop = true.
Proof.
  repeat split; try reflexivity;
    try (unfold notebook; repeat first [left; reflexivity | right]).
  all: repeat first [left; reflexivity | right].
Qed.

(** C3 (amended).  The notebook has ten statements of control flow, and the
    theorem lists them with the library calls inside each: the [try] of
    cell 7, which guards [io.imshow] and catches [TypeError]; [if title:]
    in the helpers [show_plane] and [plot_hist]; the drawing loops of the
    helper [display] and of cell 60; the loops of cells 24, 29 and 31;
    and, in the measurement step of cell 68, a loop over the properties of
    the first region around a [try] that catches [NotImplementedError].
    Six of them are statements of the script itself, given in full.  The
    measurement step also has two list comprehensions, in cells 70 and 72.
    The handlers call [str], [print] and [unsupported.append] only: nothing
    is retried.  Every other call into a module imported from scipy or
    scikit-image is made on the right-hand side of one top-level
    assignment.  So the steps are single
    assignments that call the library, except the edge-detection,
    median-filter and bilateral-filter steps, which are loops of the
    program's own over the planes of the volume, each iteration calling the
    2D library routine on one plane and storing the result into the same
    plane of an array allocated beforehand, and except the measurement
    step.  When the routine returns a plane-shaped array for every plane,
    such a loop ends with an array of the shape of the volume whose planes
    are those results. *)
Theorem planewise_steps :
  List.filter is_control_flow script
  = [Try [Expr (Call (Attribute (Name "io") "imshow") [Name "data"]
                     [("cmap", Constant (Str "gray"))])]
         [ExceptHandler (Some (Name "TypeError")) (Some "e")
            [Expr (Call (Name "print") [Call (Name "str") [Name "e"] []] [])]]
         [] [];
     For (Tuple [Name "plane"; Name "image"])
         (Call (Name "enumerate") [Name "rescaled"] [])
         [Assign (Subscript (Name "sobel") (Name "plane"))
                 (Call (Attribute (Name "filters") "sobel") [Name "image"] [])];
     For (Tuple [Name "plane"; Name "image"])
         (Call (Name "enumerate") [Name "rescaled_uint8"] [])
         [Assign (Subscript (Name "median") (Name "plane"))
                 (Call (Attribute (Name "filters") "median") [Name "image"] [])];
     For (Tuple [Name "index"; Name "plane"])
         (Call (Name "enumerate") [Name "rescaled"] [])
         [Assign (Subscript (Name "bilateral") (Name "index"))
                 (Call (Attribute (Name "restoration") "denoise_bilateral")
                       [Name "plane"] [("multichannel", Constant (Bool false))])];
     For (Tuple [Name "index"; Name "ax"])
         (Call (Name "enumerate")
               [Call (Attribute (Name "axes") "flatten") [] []] [])
         [Expr (Call (Attribute (Name "ax") "imshow")
                     [Subscript (Name "distance")
                                (BinOp (Constant (Int 31)) Add (Name "index"))]
                     [("cmap", Constant (Str "gray")); ("vmin", Name "vmin");
                      ("vmax", Name "vmax")]);
          Assign (Name "peaks")
                 (Call (Attribute (Name "np") "nonzero")
                       [Subscript (Name "peak_local_max")
                                  (BinOp (Constant (Int 31)) Add
                                         (Name "index"))] []);
          Expr (Call (Attribute (Name "ax") "plot")
                     [Subscript (Name "peaks") (Constant (Int 1));
                      Subscript (Name "peaks") (Constant (Int 0));
                      Constant (Str "r.")] []);
          Expr (Call (Attribute (Name "ax") "set_xticks") [ListLit []] []);
          Expr (Call (Attribute (Name "ax") "set_yticks") [ListLit []] [])];
     For (Name "prop") (Subscript (Name "regionprops") (Constant (Int 0)))
         [Try [Expr (Subscript
                       (Subscript (Name "regionprops") (Constant (Int 0)))
                       (Name "prop"));
               Expr (Call (Attribute (Name "supported") "append")
                          [Name "prop"] [])]
              [ExceptHandler (Some (Name "NotImplementedError")) None
                 [Expr (Call (Attribute (Name "unsupported") "append")
                             [Name "prop"] [])]]
              [] []]]
  /\ map (fun cs => (fst cs, heading (snd cs),
                     map callee (List.filter is_library_call
                                             (stmt_calls true (snd cs)))))
         control_flow_sites
     = [(7%nat,
         Try [] [ExceptHandler (Some (Name "TypeError")) (Some "e") []] [] [],
         ["io.imshow"]);
        (9%nat, If (Name "title") [] [], []);
        (12%nat,
         For (Tuple [Name "ax"; Name "image"])
             (Call (Name "zip")
                   [Call (Attribute (Name "axes") "flatten") [] [];
                    Subscript (Name "im3d")
                              (Slice None None (Some (Name "step")))] [])
             [],
         []);
        (16%nat, If (Name "title") [] [], []);
        (24%nat,
         For (Tuple [Name "plane"; Name "image"])
             (Call (Name "enumerate") [Name "rescaled"] []) [],
         ["filters.sobel"]);
        (29%nat,
         For (Tuple [Name "plane"; Name "image"])
             (Call (Name "enumerate") [Name "rescaled_uint8"] []) [],
         ["filters.median"]);
        (31%nat,
         For (Tuple [Name "index"; Name "plane"])
             (Call (Name "enumerate") [Name "rescaled"] []) [],
         ["restoration.denoise_bilateral"]);
        (60%nat,
         For (Tuple [Name "index"; Name "ax"])
             (Call (Name "enumerate")
                   [Call (Attribute (Name "axes") "flatten") [] []] []) [],
         []);
        (68%nat,
         For (Name "prop")
             (Subscript (Name "regionprops") (Constant (Int 0))) [],
         []);
        (68%nat,
         Try [] [ExceptHandler (Some (Name "NotImplementedError")) None []]
             [] [],
         [])]
  /\ flat_map (fun c => map (pair (fst c)) (comprehensions (snd c))) notebook
     = [(70%nat, ListComp (Attribute (Name "regionprop") "label")
                          (Name "regionprop") (Name "regionprops"));
        (72%nat, ListComp (Attribute (Name "regionprop") "area")
                          (Name "regionprop") (Name "regionprops"))]
  /\ handler_body_calls script = ["str"; "print"; "unsupported.append"]
  /\ processing_modules
     = ["ndi"; "stats"; "exposure"; "feature"; "filters"; "io"; "measure";
        "morphology"; "restoration"; "segmentation"; "util"]
  /\ forallb (fun s => implb (calls_library s && negb (is_control_flow s))
                            (is_assign s)) script = true
  /\ (forall A B C (f : ndarray A -> outcome (ndarray C)) (cast : C -> B)
             (junk : nat -> B) (src : ndarray A) p rest
             (results : list (ndarray C)),
        shape src = p :: rest ->
        Forall2 (fun image v => f image = Ok v /\ shape v = rest /\ wf v)
                (subarrays src) results ->
        exists dst,
          planewise f cast junk src = Ok dst
          /\ shape dst = shape src
          /\ subarrays dst = map (amap cast) results).
Proof.
  do 6 (split; [vm_compute; reflexivity|]).
  intros A B C f cast junk src p rest results. apply planewise_spec.
Qed.

Lemma planewise_steps_witness :
  exists dst,
    planewise only_2d id (fun _ => 0%Q) (ramp 2) = Ok dst
    /\ shape dst = [2; 1; 1]%nat
    /\ subarrays dst = subarrays (ramp 2).
Proof.
  destruct planewise_steps as (_ & _ & _ & _ & _ & _ & Hloop).
  destruct (Hloop Q Q Q only_2d id (fun _ => 0%Q) (ramp 2) 2%nat [1; 1]%nat
                  (subarrays (ramp 2)) eq_refl)
    as (dst & Hrun & Hshape & Hplanes).
  - repeat constructor.
  - exists dst. split; [exact Hrun|]. split; [exact Hshape|].
    rewrite Hplanes. reflexivity.
Defined.

(** *** Shapes along the processing steps *)

Ltac bind_inv H :=
  repeat match type of H with
    | mbind _ ?m = Ok _ =>
        let E := fresh "E" in
        destruct m eqn:E; [cbn [mbind outcome_bind] in H|discriminate H]
    | (let '(_, _) := ?x in _) = Ok _ => destruct x
    end.

Lemma unpack2_inv {A} (v : list A) (a b : A) :
  unpack2 v = Ok (a, b) -> v = [a; b].
Proof.
  destruct v as [|x [|y [|z v]]]; try discriminate. by intros [= <- <-].
Qed.

(** What each step is made of: the library calls behind a result. *)
Section Steps.
Variable lib : Library.

Lemma run_cell_17_inv data gamma_low gamma_high :
  run_cell_17 lib data = Ok (gamma_low, gamma_high) ->
  adjust_gamma lib data (5 # 10) = Ok gamma_low
  /\ adjust_gamma lib data (15 # 10) = Ok gamma_high.
Proof.
  unfold run_cell_17. intros H. bind_inv H. by injection H as <- <-.
Qed.

Lemma run_cell_21_inv data clipped :
  run_cell_21 lib data = Ok clipped ->
  exists vmin vmax r0,
    scoreatpercentile lib data [5 # 10; 995 # 10]%Q = Ok [vmin; vmax]
    /\ rescale_intensity lib data (vmin, vmax) = Ok r0
    /\ clipped = amap (float32 lib) r0.
Proof.
  unfold run_cell_21. intros H. bind_inv H. injection H as <-.
  apply unpack2_inv in E0 as ->. by eexists _, _, _.
Qed.

Lemma run_cell_27_inv rescaled gaussian :
  run_cell_27 lib rescaled = Ok gaussian ->
  exists widths, sigma = Ok widths
                 /\ Sem.gaussian lib rescaled widths = Ok gaussian.
Proof.
  unfold run_cell_27. intros H. bind_inv H. by eexists.
Qed.

Lemma run_cell_29_inv rescaled rescaled_uint8 median :
  run_cell_29 lib rescaled = Ok (rescaled_uint8, median) ->
  exists filtered,
    img_as_ubyte lib rescaled = Ok rescaled_uint8
    /\ planewise (Sem.median lib) id (fresh_z lib) rescaled_uint8
       = Ok filtered
    /\ img_as_float lib filtered = Ok median.
Proof.
  unfold run_cell_29. intros H. bind_inv H. injection H as <- <-.
  by eexists.
Qed.

Lemma run_cell_35_inv denoised li otsu :
  run_cell_35 lib denoised = Ok (li, otsu) ->
  exists t_li t_otsu,
    threshold_li lib denoised = Ok t_li
    /\ threshold_otsu lib denoised = Ok t_otsu
    /\ li = ge_scalar denoised t_li
    /\ otsu = ge_scalar denoised t_otsu.
Proof.
  unfold run_cell_35. intros H. bind_inv H. injection H as <- <-.
  by eexists _, _.
Qed.

Lemma run_cell_41_inv rescaled binary m :
  run_cell_41 lib rescaled binary = Ok m ->
  exists selem,
    ball lib 3 = Ok selem
    /\ closing lib rescaled selem = Ok (closing_ m)
    /\ dilation lib rescaled selem = Ok (dilation_ m)
    /\ erosion lib rescaled selem = Ok (erosion_ m)
    /\ opening lib rescaled selem = Ok (opening_ m)
    /\ binary_closing lib binary selem = Ok (binary_closing_ m)
    /\ binary_dilation lib binary selem = Ok (binary_dilation_ m)
    /\ binary_erosion lib binary selem = Ok (binary_erosion_ m)
    /\ binary_opening lib binary selem = Ok (binary_opening_ m).
Proof.
  unfold run_cell_41. intros H. bind_inv H. injection H as <-.
  eexists. by repeat split.
Qed.

Lemma despeckle_inv binary_equalized r despeckled :
  despeckle lib binary_equalized r = Ok despeckled ->
  exists selem opened,
    ball lib r = Ok selem
    /\ opening lib binary_equalized selem = Ok opened
    /\ closing lib opened selem = Ok despeckled.
Proof.
  unfold despeckle. intros H. bind_inv H. by eexists _, _.
Qed.

Lemma run_cell_43_inv equalized binary_equalized despeckled1 despeckled3 :
  run_cell_43 lib equalized
  = Ok (binary_equalized, despeckled1, despeckled3) ->
  exists threshold,
    threshold_li lib equalized = Ok threshold
    /\ binary_equalized = ge_scalar equalized threshold
    /\ despeckle lib binary_equalized 1 = Ok despeckled1
    /\ despeckle lib binary_equalized 3 = Ok despeckled3.
Proof.
  unfold run_cell_43. intros H. bind_inv H. injection H as <- <- <-.
  by eexists.
Qed.

Lemma run_cell_54_inv rescaled remove_objects distance peaks markers labels :
  run_cell_54 lib rescaled remove_objects
  = Ok (distance, peaks, markers, labels) ->
  exists components,
    distance_transform_edt lib remove_objects = Ok distance
    /\ label lib remove_objects = Ok components
    /\ peak_local_max lib distance (ones [15; 15; 15]%nat) components
       = Ok peaks
    /\ label lib peaks = Ok markers
    /\ watershed lib (amap Qopp rescaled) markers remove_objects = Ok labels.
Proof.
  unfold run_cell_54. intros H. bind_inv H. injection H as <- <- <- <-.
  by eexists.
Qed.

End Steps.

Section Shapes.
Variable lib : Library.
Hypothesis contract : shape_contract lib.

Ltac shapes :=
  repeat first
    [ reflexivity
    | erewrite (adjust_gamma_shape lib contract) by eassumption
    | erewrite (equalize_hist_shape lib contract) by eassumption
    | erewrite (rescale_intensity_shape lib contract) by eassumption
    | erewrite (gaussian_shape lib contract) by eassumption
    | erewrite (img_as_ubyte_shape lib contract) by eassumption
    | erewrite (img_as_float_shape lib contract) by eassumption
    | erewrite (closing_shape lib contract) by eassumption
    | erewrite (dilation_shape lib contract) by eassumption
    | erewrite (erosion_shape lib contract) by eassumption
    | erewrite (opening_shape lib contract) by eassumption
    | erewrite (binary_closing_shape lib contract) by eassumption
    | erewrite (binary_dilation_shape lib contract) by eassumption
    | erewrite (binary_erosion_shape lib contract) by eassumption
    | erewrite (binary_opening_shape lib contract) by eassumption
    | erewrite (remove_small_holes_shape lib contract) by eassumption
    | erewrite (remove_small_objects_shape lib contract) by eassumption
    | erewrite (label_shape lib contract) by eassumption
    | erewrite (distance_transform_edt_shape lib contract) by eassumption
    | erewrite (peak_local_max_shape lib contract) by eassumption
    | erewrite (watershed_shape lib contract) by eassumption
    | erewrite planewise_shape by eassumption
    | progress cbn [shape amap ge_scalar] ].

Lemma run_cell_17_shape data gamma_low gamma_high :
  run_cell_17 lib data = Ok (gamma_low, gamma_high) ->
  shape gamma_low = shape data /\ shape gamma_high = shape data.
Proof using contract.
  intros H. apply run_cell_17_inv in H as [H1 H2]. split; shapes.
Qed.

Lemma run_cell_21_shape data clipped :
  run_cell_21 lib data = Ok clipped -> shape clipped = shape data.
Proof using contract.
  unfold run_cell_21. intros H. bind_inv H. injection H as <-. shapes.
Qed.

Lemma run_cell_24_shape rescaled sobel :
  run_cell_24 lib rescaled = Ok sobel -> shape sobel = shape rescaled.
Proof. apply planewise_shape. Qed.

Lemma run_cell_27_shape rescaled gaussian :
  run_cell_27 lib rescaled = Ok gaussian -> shape gaussian = shape rescaled.
Proof using contract.
  unfold run_cell_27. intros H. bind_inv H. shapes.
Qed.

Lemma run_cell_29_shape rescaled rescaled_uint8 median :
  run_cell_29 lib rescaled = Ok (rescaled_uint8, median) ->
  shape rescaled_uint8 = shape rescaled /\ shape median = shape rescaled.
Proof using contract.
  unfold run_cell_29. intros H. bind_inv H. injection H as <- <-.
  split; shapes.
Qed.

Lemma run_cell_31_shape rescaled bilateral :
  run_cell_31 lib rescaled = Ok bilateral -> shape bilateral = shape rescaled.
Proof. apply planewise_shape. Qed.

Lemma run_cell_35_shape denoised li otsu :
  run_cell_35 lib denoised = Ok (li, otsu) ->
  shape li = shape denoised /\ shape otsu = shape denoised.
Proof.
  unfold run_cell_35. intros H. bind_inv H. by injection H as <- <-.
Qed.

Lemma run_cell_41_shape rescaled binary m :
  run_cell_41 lib rescaled binary = Ok m ->
  Forall (fun s => s = shape rescaled)
         [shape (closing_ m); shape (dilation_ m); shape (erosion_ m);
          shape (opening_ m)]
  /\ Forall (fun s => s = shape binary)
            [shape (binary_closing_ m); shape (binary_dilation_ m);
             shape (binary_erosion_ m); shape (binary_opening_ m)].
Proof using contract.
  intros H. apply run_cell_41_inv in H as (selem & H).
  destruct H as (_ & ? & ? & ? & ? & ? & ? & ? & ?).
  split; repeat constructor; shapes.
Qed.

Lemma despeckle_shape binary_equalized r despeckled :
  despeckle lib binary_equalized r = Ok despeckled ->
  shape despeckled = shape binary_equalized.
Proof using contract.
  unfold despeckle. intros H. bind_inv H. shapes.
Qed.

Lemma run_cell_43_shape equalized binary_equalized despeckled1 despeckled3 :
  run_cell_43 lib equalized
  = Ok (binary_equalized, despeckled1, despeckled3) ->
  shape binary_equalized = shape equalized
  /\ shape despeckled1 = shape equalized
  /\ shape despeckled3 = shape equalized.
Proof using contract.
  intros H. apply run_cell_43_inv in H as (t & _ & -> & H1 & H3).
  apply despeckle_shape in H1, H3. by rewrite H1, H3.
Qed.

Lemma run_cell_54_shape rescaled remove_objects distance peaks markers labels :
  run_cell_54 lib rescaled remove_objects
  = Ok (distance, peaks, markers, labels) ->
  shape distance = shape remove_objects
  /\ shape peaks = shape remove_objects
  /\ shape markers = shape remove_objects
  /\ shape labels = shape rescaled.
Proof using contract.
  unfold run_cell_54. intros H. bind_inv H. injection H as <- <- <- <-.
  repeat split; shapes.
Qed.

End Shapes.

(** A planewise step, run forwards: when the 2D routine returns a
    well-formed image of the shape of a plane for every plane, the step
    returns a volume of the same shape whose planes are those images. *)
Lemma planewise_volume {A B C} (f : ndarray A -> outcome (ndarray C))
    (cast : C -> B) junk (src : ndarray A) (p r c : nat)
    (results : list (ndarray C)) :
  shape src = [p; r; c] ->
  Forall2 (fun plane v => f plane = Ok v /\ shape v = [r; c] /\ wf v)
          (subarrays src) results ->
  exists dst,
    planewise f cast junk src = Ok dst
    /\ shape dst = [p; r; c]
    /\ subarrays dst = map (amap cast) results.
Proof.
  intros Hs Hres.
  destruct (planewise_spec f cast junk src p [r; c] results Hs Hres)
    as (dst & Hrun & Hshape & Hplanes).
  exists dst. by rewrite <- Hs.
Qed.


Lemma toy_library_contract : shape_contract toy_library.
Proof. constructor; intros *; cbn; intros [= <-]; reflexivity. Qed.


(** *** File access *)

(** C8. The only file the program touches is the volumetric image
    [../images/cells.tif], read once: the only call of a file-reading
    routine anywhere in the program is [io.imread] on that path, a
    statement of cell 3 outside every loop and function; no call of a
    file-writing routine or method occurs; the routines called are the ones
    listed; and figures are rendered inline. *)
Theorem only_file_access_is_imread :
  List.filter reads_file (all_calls script)
  = [Call (Attribute (Name "io") "imread")
          [Constant (Str "../images/cells.tif")] []]
  /\ List.filter writes_file (all_calls script) = []
  /\ In (Assign (Name "data")
                (Call (Attribute (Name "io") "imread")
                      [Constant (Str "../images/cells.tif")] []))
        cell_03
  /\ cell_00 = [Magic "matplotlib inline"]
  /\ callees script
     = ["io.imread"; "data.min"; "data.max"; "np.multiply"; "io.imshow";
        "str"; "im3d.min"; "im3d.max"; "zip"; "ax.hist";
        "ax.ticklabel_format"; "ax.set_title"; "exposure.adjust_gamma";
        "exposure.equalize_hist"; "data.ravel"; "c.plot"; "c.set_title";
        "equalized.ravel"; "exposure.cumulative_distribution"; "d.plot";
        "d.set_title"; "stats.scoreatpercentile";
        "exposure.rescale_intensity"; "<expr>.astype"; "filters.sobel";
        "filters.gaussian"; "util.img_as_ubyte"; "filters.median";
        "util.img_as_float"; "np.empty_like";
        "restoration.denoise_bilateral"; "filters.threshold_otsu";
        "plot_hist"; "a.axvline"; "morphology.cube"; "morphology.dilation";
        "morphology.erosion"; "morphology.binary_closing";
        "morphology.binary_dilation"; "morphology.binary_erosion";
        "morphology.binary_opening"; "filters.threshold_li";
        "morphology.opening"; "morphology.ball"; "morphology.closing";
        "morphology.remove_small_holes"; "morphology.remove_small_objects";
        "cm.get_cmap"; "np.ma.masked_where"; "cmap.set_bad";
        "ndi.distance_transform_edt"; "np.ones"; "feature.peak_local_max";
        "measure.label"; "morphology.watershed"; "distance.min";
        "distance.max"; "axes.flatten"; "enumerate"; "ax.imshow";
        "np.nonzero"; "ax.plot"; "ax.set_xticks"; "ax.set_yticks";
        "plt.subplots"; "show_plane"; "segmentation.clear_border";
        "get_cmap"; "display"; "segmentation.relabel_sequential";
        "np.unique"; "measure.regionprops"; "supported.append";
        "unsupported.append"; "<expr>.join"; "np.max"; "np.mean"; "np.min";
        "np.std"; "np.sum"; "<expr>.transpose"; "tuple";
        "measure.marching_cubes"; "measure.mesh_surface_area";
        "<expr>.format"; "print"; "plt.figure"; "fig.add_subplot";
        "Poly3DCollection"; "mesh.set_edgecolor"; "ax.add_collection3d";
        "ax.set_xlabel"; "ax.set_ylabel"; "ax.set_zlabel"; "ax.set_xlim";
        "ax.set_ylim"; "ax.set_zlim"; "plt.tight_layout"; "plt.show"].
Proof.
  split; [vm_compute; reflexivity|]. split; [vm_compute; reflexivity|].
  split; [by left|]. split; [reflexivity|]. vm_compute. reflexivity.
Qed.

(** ** Further properties of the cells *)

(** *** Indexing by position *)

Lemma size_of_cons (d : nat) (s : list nat) :
  size_of (d :: s) = (d * size_of s)%nat.
Proof. reflexivity. Qed.

Lemma offset_is_Some (s idx : list nat) :
  is_Some (offset s idx) <-> Forall2 lt idx s.
Proof.
  revert idx. induction s as [|d s IH]; intros [|i idx]; cbn [offset].
  - split; [constructor|done].
  - split; [by intros []|inversion 1].
  - split; [by intros []|inversion 1].
  - destruct (decide (i < d)%nat) as [Hi|Hi].
    + split.
      * intros [o Ho]. constructor; [done|]. apply IH.
        destruct (offset s idx); [done|discriminate Ho].
      * inversion 1 as [|???? _ Hrest]; subst. apply IH in Hrest as [o ->].
        done.
    + split; [by intros []|]. inversion 1; subst. lia.
Qed.

Lemma offset_lt (s idx : list nat) (o : nat) :
  offset s idx = Some o -> (o < size_of s)%nat.
Proof.
  revert idx o. induction s as [|d s IH]; intros [|i idx] o; cbn [offset];
    try done.
  - intros [= <-]. cbn. lia.
  - destruct (decide (i < d)%nat); [|done].
    destruct (offset s idx) as [o'|] eqn:E; [|done].
    cbn [mbind option_bind]. intros [= <-].
    specialize (IH _ _ E). rewrite size_of_cons. nia.
Qed.

Lemma length_concat_uniform {A} (m : nat) (ls : list (list A)) :
  Forall (fun l => length l = m) ls ->
  length (concat ls) = (length ls * m)%nat.
Proof.
  induction 1 as [|l ls Hl _ IH]; [done|].
  cbn [concat length]. rewrite length_app, IH, Hl. lia.
Qed.

Lemma lookup_concat_uniform {A} (m : nat) (ls : list (list A)) (i j : nat) :
  Forall (fun l => length l = m) ls ->
  (j < m)%nat ->
  concat ls !! (i * m + j)%nat = ls !! i ≫= (.!! j).
Proof.
  intros Hall Hj. revert i. induction Hall as [|l ls Hl _ IH]; intros i.
  - by rewrite !lookup_nil.
  - destruct i as [|i]; cbn [concat].
    + rewrite lookup_app_l by lia. done.
    + rewrite lookup_app_r by lia.
      replace (S i * m + j - length l)%nat with (i * m + j)%nat by lia.
      apply IH.
Qed.

Lemma length_indices (s : list nat) : length (indices s) = size_of s.
Proof.
  induction s as [|d s IH]; [done|].
  cbn [indices]. rewrite flat_map_concat_map, size_of_cons.
  rewrite (length_concat_uniform (size_of s)).
  - by rewrite length_map, length_seq.
  - apply Forall_forall. intros l Hl.
    apply list_elem_of_fmap in Hl as (i & -> & _).
    by rewrite length_map.
Qed.

(** The index found at an offset is the index that has this offset. *)
Lemma indices_lookup (s idx : list nat) (o : nat) :
  offset s idx = Some o -> indices s !! o = Some idx.
Proof.
  revert idx o. induction s as [|d s IH]; intros [|i idx] o; cbn [offset];
    try done.
  - by intros [= <-].
  - destruct (decide (i < d)%nat) as [Hi|]; [|done].
    destruct (offset s idx) as [o'|] eqn:E; [|done].
    cbn [mbind option_bind]. intros [= <-].
    cbn [indices]. rewrite flat_map_concat_map.
    rewrite (lookup_concat_uniform (size_of s)).
    + rewrite list_lookup_fmap, lookup_seq_lt by done. cbn.
      rewrite list_lookup_fmap, (IH _ _ E). done.
    + apply Forall_forall. intros l Hl.
      apply list_elem_of_fmap in Hl as (k & -> & _).
      by rewrite length_map, length_indices.
    + by eapply offset_lt.
Qed.

Lemma indices_in_range (s idx : list nat) :
  In idx (indices s) -> is_Some (offset s idx).
Proof.
  revert idx. induction s as [|d s IH]; intros idx; cbn [indices].
  - intros [<-|[]]. done.
  - intros Hin. apply in_flat_map in Hin as (i & Hi & Hin).
    apply in_map_iff in Hin as (idx' & <- & Hin).
    apply in_seq in Hi. destruct (IH _ Hin) as [o Ho].
    cbn [offset]. rewrite decide_True by lia. rewrite Ho. done.
Qed.

Lemma lookup_omap_total {A B} (f : A -> option B) (l : list A) (o : nat) :
  Forall (fun x => is_Some (f x)) l ->
  omap f l !! o = l !! o ≫= f.
Proof.
  intros Hall. revert o. induction Hall as [|x l [y Hy] _ IH]; intros o.
  - done.
  - cbn [omap list_omap]. rewrite Hy. destruct o as [|o]; [by cbn|].
    cbn. apply IH.
Qed.

Lemma length_omap_total {A B} (f : A -> option B) (l : list A) :
  Forall (fun x => is_Some (f x)) l ->
  length (omap f l) = length l.
Proof.
  induction 1 as [|x l [y Hy] _ IH]; [done|].
  cbn [omap list_omap]. rewrite Hy. cbn. by rewrite IH.
Qed.

Lemma item_is_Some {A} (a : ndarray A) (idx : list nat) :
  wf a -> is_Some (offset (shape a) idx) -> is_Some (item a idx).
Proof.
  intros Hwf [o Ho]. unfold item. rewrite Ho. cbn.
  apply lookup_lt_is_Some. rewrite Hwf. by eapply offset_lt.
Qed.

Lemma item_amap {A B} (f : A -> B) (a : ndarray A) (idx : list nat) :
  item (amap f a) idx = f <$> item a idx.
Proof.
  unfold item, amap. cbn [shape flat].
  destruct (offset (shape a) idx) as [o|]; [|done].
  cbn. apply list_lookup_fmap.
Qed.

Section Gather.
Context {A : Type}.
Variables (s : list nat) (src : list nat -> list nat) (a : ndarray A).
Hypothesis in_range :
  forall idx, is_Some (offset s idx) -> is_Some (item a (src idx)).

Lemma gather_total :
  Forall (fun idx => is_Some (item a (src idx))) (indices s).
Proof.
  apply List.Forall_forall. intros idx Hin.
  by apply in_range, indices_in_range.
Qed.

Lemma gather_wf : wf (gather s src a).
Proof.
  unfold wf, gather. cbn [shape flat].
  rewrite length_omap_total by apply gather_total. apply length_indices.
Qed.

Lemma item_gather (idx : list nat) :
  is_Some (offset s idx) -> item (gather s src a) idx = item a (src idx).
Proof.
  intros [o Ho]. unfold item at 1, gather. cbn [shape flat]. rewrite Ho. cbn.
  rewrite lookup_omap_total by apply gather_total.
  by rewrite (indices_lookup _ _ _ Ho).
Qed.
End Gather.

(** Putting a coordinate back at the axis an index expression removed. *)
Lemma offset_insert (s : list nat) (ax d i : nat) (idx : list nat) :
  s !! ax = Some d -> (i < d)%nat ->
  is_Some (offset (delete ax s) idx) ->
  is_Some (offset s (take ax idx ++ i :: drop ax idx)).
Proof.
  rewrite !offset_is_Some. revert ax idx.
  induction s as [|d' s IH]; intros [|ax] idx Hd Hi Hidx; try done.
  - injection Hd as ->. cbn in *. by constructor.
  - cbn in Hd. cbn [delete list_delete] in Hidx.
    inversion Hidx as [|j ? idx' ? Hj Hrest]; subst.
    cbn [take drop app]. constructor; [done|]. by apply IH.
Qed.

(** An index expression with one integer: the result has lost that axis,
    and its item at [idx] is the item of the array at [idx] with the
    integer put back. *)
Lemma index_axis_spec {A} (n ax i d : nat) (a : ndarray A) :
  wf a -> (n <= ndim a)%nat -> shape a !! ax = Some d -> (i < d)%nat ->
  exists b,
    index_axis n ax i a = Ok b
    /\ shape b = delete ax (shape a)
    /\ wf b
    /\ forall idx, is_Some (offset (shape b) idx) ->
                   item b idx = item a (take ax idx ++ i :: drop ax idx).
Proof.
  intros Hwf Hn Hd Hi. unfold index_axis.
  rewrite decide_False by lia. rewrite Hd, decide_True by done.
  eexists. split; [reflexivity|].
  assert (forall idx, is_Some (offset (delete ax (shape a)) idx) ->
                      is_Some (item a (take ax idx ++ i :: drop ax idx)))
    as Hrange.
  { intros idx Hidx. apply item_is_Some; [done|]. by eapply offset_insert. }
  split; [done|]. split; [by apply gather_wf|].
  intros idx Hidx.
  exact (item_gather _ (fun idx => take ax idx ++ i :: drop ax idx) a
                     Hrange idx Hidx).
Qed.

Lemma index_axis_out_of_bounds {A} (n ax i d : nat) (a : ndarray A) :
  (n <= ndim a)%nat -> shape a !! ax = Some d -> (d <= i)%nat ->
  index_axis n ax i a = raise IndexError "index out of bounds".
Proof.
  intros Hn Hd Hi. unfold index_axis.
  rewrite decide_False by lia. rewrite Hd, decide_False by lia. done.
Qed.

(** *** Transposition *)

Lemma index_of_lookup (x : nat) (l : list nat) :
  x ∈ l -> l !! index_of x l = Some x.
Proof.
  induction l as [|y l IH]; [by intros ?%elem_of_nil|].
  intros Hin. cbn [index_of]. destruct (decide (x = y)) as [->|Hne]; [done|].
  apply elem_of_cons in Hin as [?|Hin]; [done|]. cbn. by apply IH.
Qed.

Lemma names_every_axis_spec (axes : list nat) (n : nat) :
  names_every_axis axes n = true ->
  length axes = n /\ forall ax, (ax < n)%nat -> ax ∈ axes.
Proof.
  unfold names_every_axis. intros [Hlen Hall]%andb_prop.
  apply bool_decide_eq_true in Hlen. split; [done|].
  intros ax Hax. rewrite forallb_forall in Hall.
  eapply bool_decide_eq_true_1, Hall, in_seq. lia.
Qed.

Lemma transpose_spec {A} (axes : list nat) (a : ndarray A) :
  wf a -> names_every_axis axes (ndim a) = true ->
  exists b,
    transpose axes a = Ok b
    /\ shape b = map (fun ax => nth ax (shape a) 0%nat) axes
    /\ wf b
    /\ forall idx, is_Some (offset (shape b) idx) ->
         item b idx
         = item a (map (fun ax => nth (index_of ax axes) idx 0%nat)
                       (seq 0 (ndim a))).
Proof.
  intros Hwf Haxes. unfold transpose. rewrite Haxes.
  destruct (names_every_axis_spec _ _ Haxes) as [Hlen Hall].
  eexists. split; [reflexivity|].
  set (s' := map (fun ax => nth ax (shape a) 0%nat) axes).
  set (src := fun idx => map (fun ax => nth (index_of ax axes) idx 0%nat)
                             (seq 0 (ndim a))).
  assert (forall idx, is_Some (offset s' idx) -> is_Some (item a (src idx)))
    as Hrange.
  { intros idx Hidx. apply item_is_Some; [done|].
    apply offset_is_Some in Hidx. apply offset_is_Some.
    pose proof (Forall2_length _ _ _ Hidx) as Hlen'.
    unfold s' in Hlen'. rewrite length_map in Hlen'.
    apply Forall2_same_length_lookup_2.
    { unfold src. by rewrite length_map, length_seq. }
    intros ax x dim Hx Hdim. unfold src in Hx.
    rewrite list_lookup_fmap in Hx.
    destruct (seq 0 (ndim a) !! ax) as [ax'|] eqn:Hax; [|done].
    apply lookup_seq in Hax as [-> Hax]. cbn in Hx. injection Hx as <-.
    pose proof (index_of_lookup _ _ (Hall ax Hax)) as Hpos.
    destruct (idx !! index_of ax axes) as [x|] eqn:Hx.
    2:{ apply lookup_ge_None in Hx. apply lookup_lt_Some in Hpos. lia. }
    assert (s' !! index_of ax axes = Some dim) as Hs'.
    { unfold s'. rewrite list_lookup_fmap, Hpos. cbn.
      by rewrite (nth_lookup_Some _ _ _ _ Hdim). }
    rewrite (nth_lookup_Some _ _ _ _ Hx).
    exact (Forall2_lookup_lr _ _ _ _ _ _ Hidx Hx Hs'). }
  split; [done|]. split; [by apply gather_wf|].
  intros idx Hidx. exact (item_gather s' src a Hrange idx Hidx).
Qed.

(** *** The coordinates [np.nonzero] returns *)

Lemma nonzero_2d (a : ndarray bool) (r c : nat) :
  shape a = [r; c] ->
  exists ys xs,
    nonzero a = [ys; xs]
    /\ length xs = length ys
    /\ forall x y, In (x, y) (zip xs ys) <-> item a [y; x] = Some true.
Proof.
  intros Hs. unfold nonzero, ndim. rewrite Hs. cbn [length seq map].
  set (hits := List.filter _ _).
  eexists _, _. split; [reflexivity|]. split; [by rewrite !length_map|].
  intros x y.
  assert (zip (map (fun idx => nth 1 idx 0%nat) hits)
              (map (fun idx => nth 0 idx 0%nat) hits)
          = map (fun idx => (nth 1 idx 0%nat, nth 0 idx 0%nat)) hits) as ->.
  { induction hits as [|h hits IH]; [done|]. cbn. by rewrite <- IH. }
  rewrite in_map_iff. unfold hits. split.
  - intros (idx & [= <- <-] & Hin). apply filter_In in Hin as [Hin Htrue].
    apply bool_decide_eq_true in Htrue.
    apply indices_in_range, offset_is_Some in Hin.
    inversion Hin as [|y' ? idx' ? _ Hin']; subst.
    inversion Hin' as [|x' ? idx'' ? _ Hin'']; subst.
    inversion Hin''; subst. exact Htrue.
  - intros Htrue. exists [y; x]. split; [done|]. apply filter_In. split.
    + unfold item in Htrue. rewrite Hs in Htrue.
      destruct (offset [r; c] [y; x]) as [o|] eqn:Ho; [|done].
      apply indices_lookup in Ho. apply list_elem_of_In. eapply list_elem_of_lookup_2, Ho.
    + by apply bool_decide_eq_true.
Qed.

(** *** The [show_plane] helper and the sections of cell 10 *)

Lemma show_plane_image {A} (ax : axes A) (plane : ndarray A) (cmap : string)
    (title : option string) :
  imshow_accepts (shape plane) = true ->
  show_plane ax plane cmap title
  = Ok {| axes_images :=
            axes_images ax
            ++ [{| image_data := plane; image_cmap := cmap;
                   image_limits := None |}];
          axes_lines := axes_lines ax;
          axes_xticks := Some []; axes_yticks := Some [];
          axes_title := if truthy title then default EmptyString title
                        else axes_title ax |}.
Proof.
  intros Hok. unfold show_plane, imshow, matplotlib_imshow. rewrite Hok.
  cbn [mbind outcome_bind]. by destruct (truthy title).
Qed.

(** X1.  [show_plane] puts a title on the axes only when it is given a
    non-empty string: with [title=None] or an empty title the axes keep the
    title they had.  In every case the plane is added to what the axes
    show and both tick lists are emptied; a plane that is not an image
    makes the call raise [TypeError]. *)
Theorem show_plane_title {A} (ax : axes A) (plane : ndarray A)
    (cmap : string) (title : option string) :
  (imshow_accepts (shape plane) = true ->
   exists ax',
     show_plane ax plane cmap title = Ok ax'
     /\ (title = None \/ title = Some EmptyString ->
         axes_title ax' = axes_title ax)
     /\ (forall t, title = Some t -> t <> EmptyString -> axes_title ax' = t)
     /\ axes_images ax'
        = axes_images ax
          ++ [{| image_data := plane; image_cmap := cmap;
                 image_limits := None |}]
     /\ axes_xticks ax' = Some [] /\ axes_yticks ax' = Some []
     /\ axes_lines ax' = axes_lines ax)
  /\ (imshow_accepts (shape plane) = false ->
      show_plane ax plane cmap title
      = raise TypeError "Invalid dimensions for image data").
Proof.
  split.
  - intros Hok. eexists. split; [by apply show_plane_image|].
    cbn [axes_title axes_images axes_xticks axes_yticks axes_lines].
    repeat split.
    + by intros [->| ->].
    + intros t -> Ht. by destruct t.
  - intros Hno. unfold show_plane, imshow, matplotlib_imshow.
    by rewrite Hno.
Qed.

Lemma in_range_2 (r c y x : nat) :
  (y < r)%nat -> (x < c)%nat -> is_Some (offset [r; c] [y; x]).
Proof. intros. apply offset_is_Some. by repeat constructor. Qed.

(** X2.  Cell 10 shows plane 32, row 128 and column 128 of the volume.
    For a volume of [p] planes, [r] rows and [c] columns it completes when
    [32 < p], [128 < r] and [128 < c]: the three axes then hold, under
    their titles, images of shapes [(r, c)], [(p, c)] and [(p, r)] whose
    pixels are [data[32, y, x]], [data[k, 128, x]] and [data[k, y, 128]].
    When one of the bounds fails the cell raises [IndexError]. *)
Theorem run_cell_10_sections {A} (data : ndarray A) (p r c : nat) :
  wf data ->
  shape data = [p; r; c] ->
  ((32 < p)%nat -> (128 < r)%nat -> (128 < c)%nat ->
   exists plane row column,
     run_cell_10 data
     = Ok (map (fun shown : ndarray A * string =>
                  {| axes_images :=
                       [{| image_data := shown.1; image_cmap := "gray";
                           image_limits := None |}];
                     axes_lines := [];
                     axes_xticks := Some []; axes_yticks := Some [];
                     axes_title := shown.2 |})
               [(plane, "Plane = 32"); (row, "Row = 128");
                (column, "Column = 128")])
     /\ shape plane = [r; c] /\ shape row = [p; c] /\ shape column = [p; r]
     /\ (forall y x, (y < r)%nat -> (x < c)%nat ->
           item plane [y; x] = item data [32; y; x]%nat)
     /\ (forall k x, (k < p)%nat -> (x < c)%nat ->
           item row [k; x] = item data [k; 128; x]%nat)
     /\ (forall k y, (k < p)%nat -> (y < r)%nat ->
           item column [k; y] = item data [k; y; 128]%nat))
  /\ ((p <= 32)%nat \/ (r <= 128)%nat \/ (c <= 128)%nat ->
      run_cell_10 data = raise IndexError "index out of bounds").
Proof.
  intros Hwf Hs.
  assert (3 <= ndim data)%nat as Hn by (unfold ndim; rewrite Hs; cbn; lia).
  assert (1 <= ndim data)%nat as Hn1 by lia.
  assert (forall i, (i < p)%nat -> exists b,
            index_axis 1 0 i data = Ok b /\ shape b = [r; c]
            /\ forall y x, (y < r)%nat -> (x < c)%nat ->
                 item b [y; x] = item data [i; y; x]) as Hplane.
  { intros i Hi.
    destruct (index_axis_spec 1 0 i p data Hwf Hn1) as (b & Hb & Hsb & _ & Hit);
      [by rewrite Hs|done|].
    rewrite Hs in Hsb. cbn in Hsb. exists b. split; [done|]. split; [done|].
    intros y x Hy Hx. rewrite Hit; [done|]. rewrite Hsb. by apply in_range_2. }
  assert (forall i, (i < r)%nat -> exists b,
            index_axis 3 1 i data = Ok b /\ shape b = [p; c]
            /\ forall k x, (k < p)%nat -> (x < c)%nat ->
                 item b [k; x] = item data [k; i; x]) as Hrow.
  { intros i Hi.
    destruct (index_axis_spec 3 1 i r data Hwf Hn) as (b & Hb & Hsb & _ & Hit);
      [by rewrite Hs|done|].
    rewrite Hs in Hsb. cbn in Hsb. exists b. split; [done|]. split; [done|].
    intros y x Hy Hx. rewrite Hit; [done|]. rewrite Hsb. by apply in_range_2. }
  assert (forall i, (i < c)%nat -> exists b,
            index_axis 3 2 i data = Ok b /\ shape b = [p; r]
            /\ forall k y, (k < p)%nat -> (y < r)%nat ->
                 item b [k; y] = item data [k; y; i]) as Hcol.
  { intros i Hi.
    destruct (index_axis_spec 3 2 i c data Hwf Hn) as (b & Hb & Hsb & _ & Hit);
      [by rewrite Hs|done|].
    rewrite Hs in Hsb. cbn in Hsb. exists b. split; [done|]. split; [done|].
    intros y x Hy Hx. rewrite Hit; [done|]. rewrite Hsb. by apply in_range_2. }
  split.
  - intros Hp Hr Hc.
    destruct (Hplane 32%nat Hp) as (plane & Eplane & Splane & Iplane).
    destruct (Hrow 128%nat Hr) as (row & Erow & Srow & Irow).
    destruct (Hcol 128%nat Hc) as (column & Ecol & Scol & Icol).
    exists plane, row, column. split; [|done].
    unfold run_cell_10. rewrite Eplane. cbn [mbind outcome_bind].
    rewrite show_plane_image by (by rewrite Splane).
    cbn [mbind outcome_bind]. rewrite Erow. cbn [mbind outcome_bind].
    rewrite show_plane_image by (by rewrite Srow).
    cbn [mbind outcome_bind]. rewrite Ecol. cbn [mbind outcome_bind].
    rewrite show_plane_image by (by rewrite Scol).
    reflexivity.
  - intros Hout. unfold run_cell_10.
    destruct (decide (p <= 32)%nat) as [Hp|Hp].
    { rewrite (index_axis_out_of_bounds 1 0 32 p) by (done || by rewrite Hs).
      done. }
    destruct (Hplane 32%nat ltac:(lia)) as (plane & -> & Splane & _).
    cbn [mbind outcome_bind].
    rewrite show_plane_image by (by rewrite Splane).
    cbn [mbind outcome_bind].
    destruct (decide (r <= 128)%nat) as [Hr|Hr].
    { rewrite (index_axis_out_of_bounds 3 1 128 r) by (done || by rewrite Hs).
      done. }
    destruct (Hrow 128%nat ltac:(lia)) as (row & -> & Srow & _).
    cbn [mbind outcome_bind].
    rewrite show_plane_image by (by rewrite Srow).
    cbn [mbind outcome_bind].
    rewrite (index_axis_out_of_bounds 3 2 128 c)
      by (done || by rewrite Hs || lia).
    done.
Qed.

(** *** Cell 60: the distance map and its peaks *)

Lemma in_range_3 (p r c k y x : nat) :
  is_Some (offset [p; r; c] [k; y; x])
  <-> (k < p)%nat /\ (y < r)%nat /\ (x < c)%nat.
Proof.
  rewrite offset_is_Some. split.
  - intros H. inversion H as [|???? ? H1]; subst.
    inversion H1 as [|???? ? H2]; subst. inversion H2; subst. done.
  - intros (? & ? & ?). by repeat constructor.
Qed.

Lemma item_in_range {A} (a : ndarray A) (idx : list nat) (v : A) :
  item a idx = Some v -> is_Some (offset (shape a) idx).
Proof. unfold item. by destruct (offset (shape a) idx). Qed.

Lemma cell_60_step_ok (distance : ndarray Q) (peaks : ndarray bool)
    (vmin vmax : Q) (p r c k : nat) (ax : axes Q) :
  wf distance -> wf peaks ->
  shape distance = [p; r; c] -> shape peaks = [p; r; c] ->
  (31 + k < p)%nat ->
  exists plane xs ys,
    cell_60_step distance peaks vmin vmax k ax
    = Ok {| axes_images :=
              axes_images ax
              ++ [{| image_data := plane; image_cmap := "gray";
                     image_limits := Some (vmin, vmax) |}];
            axes_lines := axes_lines ax ++ [(xs, ys, "r.")];
            axes_xticks := Some []; axes_yticks := Some [];
            axes_title := axes_title ax |}
    /\ shape plane = [r; c]
    /\ (forall y x, (y < r)%nat -> (x < c)%nat ->
          item plane [y; x] = item distance [31 + k; y; x]%nat)
    /\ (forall x y, In (x, y) (zip xs ys)
                    <-> item peaks [31 + k; y; x]%nat = Some true).
Proof.
  intros Hwd Hwp Hsd Hsp Hk. unfold cell_60_step.
  destruct (index_axis_spec 1 0 (31 + k) p distance Hwd)
    as (plane & Eplane & Splane & _ & Iplane);
    [unfold ndim; rewrite Hsd; cbn; lia|by rewrite Hsd|done|].
  destruct (index_axis_spec 1 0 (31 + k) p peaks Hwp)
    as (mask & Emask & Smask & _ & Imask);
    [unfold ndim; rewrite Hsp; cbn; lia|by rewrite Hsp|done|].
  rewrite Hsd in Splane. rewrite Hsp in Smask. cbn in Splane, Smask.
  destruct (nonzero_2d mask r c Smask) as (ys & xs & Hnz & Hlen & Hpeaks).
  exists plane, xs, ys. split; [|split; [done|split]].
  - rewrite Eplane. cbn [mbind outcome_bind]. unfold imshow, matplotlib_imshow.
    rewrite Splane. cbn [imshow_accepts mbind outcome_bind].
    rewrite Emask. cbn [mbind outcome_bind]. rewrite Hnz.
    unfold getitem. cbn [lookup list_lookup mbind outcome_bind].
    unfold plot. rewrite decide_True by done. reflexivity.
  - intros y x Hy Hx. apply Iplane. rewrite Splane. by apply in_range_2.
  - intros x y. rewrite Hpeaks. split; intros Htrue.
    + rewrite <- Htrue. symmetry. apply (Imask [y; x]).
      by apply item_in_range in Htrue.
    + rewrite <- Htrue. apply (Imask [y; x]).
      apply item_in_range in Htrue. rewrite Hsp in Htrue.
      apply in_range_3 in Htrue as (_ & ? & ?).
      rewrite Smask. by apply in_range_2.
Qed.

Lemma cell_60_step_out_of_bounds (distance : ndarray Q)
    (peaks : ndarray bool) (vmin vmax : Q) (p r c k : nat) (ax : axes Q) :
  shape distance = [p; r; c] -> (p <= 31 + k)%nat ->
  cell_60_step distance peaks vmin vmax k ax
  = raise IndexError "index out of bounds".
Proof.
  intros Hsd Hk. unfold cell_60_step.
  rewrite (index_axis_out_of_bounds 1 0 (31 + k) p distance);
    [reflexivity|unfold ndim; rewrite Hsd; cbn; lia|by rewrite Hsd|done].
Qed.

Lemma cell_60_loop_ok (distance : ndarray Q) (peaks : ndarray bool)
    (vmin vmax : Q) (p r c : nat) (items : list (nat * axes Q)) :
  wf distance -> wf peaks ->
  shape distance = [p; r; c] -> shape peaks = [p; r; c] ->
  Forall (fun it => (31 + it.1 < p)%nat) items ->
  exists drawn,
    cell_60_loop distance peaks vmin vmax items = Ok drawn
    /\ Forall2
         (fun it ax' =>
            exists plane xs ys,
              ax' = {| axes_images :=
                         axes_images it.2
                         ++ [{| image_data := plane; image_cmap := "gray";
                                image_limits := Some (vmin, vmax) |}];
                       axes_lines := axes_lines it.2 ++ [(xs, ys, "r.")];
                       axes_xticks := Some []; axes_yticks := Some [];
                       axes_title := axes_title it.2 |}
              /\ shape plane = [r; c]
              /\ (forall y x, (y < r)%nat -> (x < c)%nat ->
                    item plane [y; x] = item distance [31 + it.1; y; x]%nat)
              /\ (forall x y, In (x, y) (zip xs ys)
                              <-> item peaks [31 + it.1; y; x]%nat = Some true))
         items drawn.
Proof.
  intros Hwd Hwp Hsd Hsp. induction 1 as [|[k ax] items Hk _ IH].
  - exists []. split; [done|constructor].
  - destruct IH as (drawn & Hloop & Hall).
    destruct (cell_60_step_ok distance peaks vmin vmax p r c k ax
                Hwd Hwp Hsd Hsp Hk) as (plane & xs & ys & Hstep & Hspec).
    eexists (_ :: drawn). split.
    + cbn [cell_60_loop]. rewrite Hstep. cbn [mbind outcome_bind].
      rewrite Hloop. reflexivity.
    + constructor; [|done]. exists plane, xs, ys. split; [done|exact Hspec].
Qed.

Lemma cell_60_loop_out_of_bounds (distance : ndarray Q)
    (peaks : ndarray bool) (vmin vmax : Q) (p r c : nat)
    (items : list (nat * axes Q)) :
  wf distance -> wf peaks ->
  shape distance = [p; r; c] -> shape peaks = [p; r; c] ->
  Exists (fun it => (p <= 31 + it.1)%nat) items ->
  cell_60_loop distance peaks vmin vmax items
  = raise IndexError "index out of bounds".
Proof.
  intros Hwd Hwp Hsd Hsp. induction items as [|[k ax] items IH]; intros Hex.
  - by apply Exists_nil in Hex.
  - cbn [cell_60_loop]. destruct (decide (31 + k < p)%nat) as [Hk|Hk].
    + destruct (cell_60_step_ok distance peaks vmin vmax p r c k ax
                  Hwd Hwp Hsd Hsp Hk) as (plane & xs & ys & Hstep & _).
      rewrite Hstep. cbn [mbind outcome_bind]. rewrite IH; [done|].
      apply Exists_cons in Hex as [Hhd|Htl]; [cbn in Hhd; lia|done].
    + rewrite (cell_60_step_out_of_bounds _ _ _ _ p r c) by (done || lia).
      done.
Qed.

(** X3.  Cell 60 draws planes 31 to 42 of the distance map on its twelve
    axes, so it needs a volume of at least 43 planes: with fewer it raises
    [IndexError].  With 43 or more, axes [k] shows plane [31 + k] between
    the minimum and the maximum of the whole map, and the red points drawn
    over it are, as (x, y) = (column, row), exactly the voxels of plane
    [31 + k] where [peak_local_max] is true. *)
Theorem run_cell_60_planes (distance : ndarray Q) (peaks : ndarray bool)
    (p r c : nat) :
  wf distance -> wf peaks ->
  shape distance = [p; r; c] -> shape peaks = [p; r; c] ->
  flat distance <> [] ->
  ((43 <= p)%nat ->
   exists drawn vmin vmax,
     run_cell_60 distance peaks = Ok drawn
     /\ length drawn = 12%nat
     /\ amin distance = Ok vmin /\ amax distance = Ok vmax
     /\ forall k ax, drawn !! k = Some ax ->
          exists plane xs ys,
            ax = {| axes_images :=
                      [{| image_data := plane; image_cmap := "gray";
                          image_limits := Some (vmin, vmax) |}];
                    axes_lines := [(xs, ys, "r.")];
                    axes_xticks := Some []; axes_yticks := Some [];
                    axes_title := EmptyString |}
            /\ shape plane = [r; c]
            /\ (forall y x, (y < r)%nat -> (x < c)%nat ->
                  item plane [y; x] = item distance [31 + k; y; x]%nat)
            /\ (forall x y, In (x, y) (zip xs ys)
                            <-> item peaks [31 + k; y; x]%nat = Some true))
  /\ ((p < 43)%nat ->
      run_cell_60 distance peaks = raise IndexError "index out of bounds").
Proof.
  intros Hwd Hwp Hsd Hsp Hne.
  destruct (amin_spec distance Hne) as (vmin & Hmin & _).
  destruct (amax_spec distance Hne) as (vmax & Hmax & _).
  unfold run_cell_60. rewrite Hmin, Hmax. cbn [mbind outcome_bind]. split.
  - intros Hp.
    destruct (cell_60_loop_ok distance peaks vmin vmax p r c
                (enumerate (replicate (3 * 4) new_axes)) Hwd Hwp Hsd Hsp)
      as (drawn & Hloop & Hall).
    { cbn. repeat constructor; cbn; lia. }
    exists drawn, vmin, vmax. split; [done|].
    pose proof (Forall2_length _ _ _ Hall) as Hlen. split; [done|].
    split; [done|]. split; [done|]. intros k ax Hk.
    destruct (Forall2_lookup_r _ _ _ _ _ Hall Hk) as ([k' ax0] & Hit & Hspec).
    unfold enumerate in Hit.
    apply lookup_zip_with_Some in Hit as (k'' & ax1 & [= <- <-] & Hseq & Hrep).
    apply lookup_seq in Hseq as [-> _].
    apply lookup_replicate in Hrep as [-> _].
    exact Hspec.
  - intros Hp.
    apply (cell_60_loop_out_of_bounds distance peaks vmin vmax p r c);
      try done.
    apply Exists_exists. exists (11%nat, new_axes). split; [|cbn; lia].
    by apply (list_elem_of_lookup_2 _ 11%nat).
Qed.

(** *** Cell 76: the volume handed to the mesher *)

(** X4.  Cell 76 meshes the region of the fourth measured label: it raises
    [IndexError] when fewer than four regions were measured.  Otherwise
    the volume it hands to [marching_cubes], both times, is the mask of
    that label with the axes reordered from (plane, row, column) to
    (row, column, plane): its item at [i, j, k] is
    [relabeled[k, i, j] == label].  The first call is made with unit
    spacing, the second with the value of [spacing]. *)
Theorem run_cell_76_volume {M}
    (marching_cubes : ndarray bool -> Q -> list Q -> outcome (M * M * M * M))
    (mesh_surface_area : M -> M -> outcome Q)
    (spacing : list Q) (relabeled : ndarray Z) (regionprops : list measured)
    (p r c : nat) :
  wf relabeled ->
  shape relabeled = [p; r; c] ->
  (forall region, regionprops !! 3%nat = Some region ->
     exists volume,
       shape volume = [r; c; p]
       /\ wf volume
       /\ (forall i j k, (i < r)%nat -> (j < c)%nat -> (k < p)%nat ->
             exists l, item relabeled [k; i; j] = Some l
                       /\ item volume [i; j; k]
                          = Some (Z.eqb l (measured_label region)))
       /\ run_cell_76 marching_cubes mesh_surface_area spacing relabeled
                      regionprops
          = ('(verts_px, faces_px, _, _) ← marching_cubes volume 0%Q [1; 1; 1]%Q;
             surface_area_pixels ← mesh_surface_area verts_px faces_px;
             '(verts, faces, _, _) ← marching_cubes volume 0%Q spacing;
             surface_area_actual ← mesh_surface_area verts faces;
             Ok (volume, surface_area_pixels, surface_area_actual)))
  /\ ((length regionprops <= 3)%nat ->
      run_cell_76 marching_cubes mesh_surface_area spacing relabeled
                  regionprops
      = raise IndexError "index out of bounds").
Proof.
  intros Hwf Hs. split.
  - intros region Hregion.
    set (mask := amap (fun x => Z.eqb x (measured_label region)) relabeled).
    assert (wf mask) as Hwm.
    { unfold wf, mask, amap. cbn [shape flat]. by rewrite length_map. }
    assert (ndim mask = 3%nat) as Hn by (unfold ndim, mask; cbn; by rewrite Hs).
    destruct (transpose_spec [1; 2; 0]%nat mask Hwm)
      as (volume & Hvolume & Hsv & Hwv & Hitems); [by rewrite Hn|].
    assert (shape volume = [r; c; p]) as Hsv'.
    { rewrite Hsv. unfold mask. cbn [amap shape]. by rewrite Hs. }
    exists volume. split; [done|]. split; [done|]. split.
    + intros i j k Hi Hj Hk.
      destruct (item_is_Some relabeled [k; i; j] Hwf) as [l Hl].
      { rewrite Hs. by apply in_range_3. }
      exists l. split; [done|].
      rewrite Hitems by (rewrite Hsv'; by apply in_range_3).
      rewrite Hn.
      change (map _ (seq 0 3)) with [k; i; j]. unfold mask.
      by rewrite item_amap, Hl.
    + unfold run_cell_76, getitem. rewrite Hregion. cbn [mbind outcome_bind].
      fold mask. rewrite Hvolume. reflexivity.
  - intros Hfew. unfold run_cell_76, getitem.
    rewrite (lookup_ge_None_2 regionprops 3) by lia. reflexivity.
Qed.

(** *** [display] with other steps and other inputs *)

Lemma slice_step_negative {A} (step : Z) (l : list A) :
  (step < 0)%Z ->
  exists sel,
    slice_step step l = Ok sel
    /\ length sel = ceil_div (length l) (Z.to_nat (- step))
    /\ forall k y, sel !! k = Some y ->
                   (k * Z.to_nat (- step) < length l)%nat
                   /\ l !! (length l - 1 - k * Z.to_nat (- step))%nat = Some y.
Proof.
  intros Hstep. unfold slice_step.
  destruct (decide (step = 0)%Z) as [->|_]; [lia|].
  destruct (decide (0 < step)%Z) as [?|_]; [lia|].
  set (s := Z.to_nat (- step)). assert (0 < s)%nat as Hs by lia.
  set (n := ceil_div (length l) s).
  destruct (collect_getitem l
              (map (fun k => length l - 1 - k * s)%nat (seq 0 n)))
    as (sel & Hsel & Hall).
  { apply Forall_forall. intros i Hi.
    apply list_elem_of_fmap in Hi as (k & -> & Hk).
    apply elem_of_seq in Hk.
    assert (k * s < length l)%nat; [|lia].
    apply ceil_div_spec; [done|]. unfold n in Hk. lia. }
  exists sel. rewrite map_map in Hsel. split; [done|].
  pose proof (Forall2_length _ _ _ Hall) as Hlen.
  rewrite length_map, length_seq in Hlen. split; [done|].
  intros k y Hk.
  assert (k < n)%nat as Hkn by (rewrite Hlen; by eapply lookup_lt_Some).
  assert (map (fun k => length l - 1 - k * s)%nat (seq 0 n) !! k
          = Some (length l - 1 - k * s)%nat) as Hidx.
  { rewrite list_lookup_fmap, lookup_seq_lt by done. done. }
  pose proof (Forall2_lookup_lr _ _ _ _ _ _ Hall Hidx Hk) as Hy.
  split; [|done]. apply ceil_div_spec; [done|]. by fold n.
Qed.

Lemma ceil_div_pos (n s : nat) :
  (0 < n)%nat -> (0 < s)%nat -> (0 < ceil_div n s)%nat.
Proof.
  intros Hn Hs. unfold ceil_div. apply Nat.div_str_pos. lia.
Qed.

(** X5.  With a negative step [display] walks the volume backwards: panel
    [k] shows plane [p - 1 - k * |step|], starting from the last plane,
    and again at most thirty panels are drawn. *)
Theorem display_negative_step (im3d : ndarray Q) (cmap : string) (step : Z)
    (p r c : nat) :
  shape im3d = [p; r; c] ->
  flat im3d <> [] ->
  (step < 0)%Z ->
  let s := Z.to_nat (- step) in
  exists panels,
    display im3d cmap step = Ok panels
    /\ length panels = Nat.min 30 (ceil_div p s)
    /\ forall k pn, panels !! k = Some pn ->
         (k * s < p)%nat
         /\ subarrays im3d !! (p - 1 - k * s)%nat = Some (panel_image pn)
         /\ panel_axis pn = k /\ panel_cmap pn = cmap.
Proof.
  intros Hshape Hne Hstep s.
  destruct (amin_spec im3d Hne) as (vmin & Hmin & _).
  destruct (amax_spec im3d Hne) as (vmax & Hmax & _).
  destruct (slice_step_negative step (subarrays im3d) Hstep)
    as (sel & Hsel & Hlen & Hread).
  rewrite (length_subarrays im3d p [r; c] Hshape) in Hlen, Hread.
  fold s in Hlen, Hread.
  exists (map (mk_panel cmap vmin vmax) (zip (seq 0 (5 * 6)) sel)).
  split; [|split].
  - unfold display, slice_planes. rewrite Hmin, Hmax, Hshape.
    cbn [mbind outcome_bind]. rewrite Hsel. cbn [mbind outcome_bind].
    apply display_loop_ok.
    apply Forall_forall. intros [ax image] Hitem. cbn.
    apply elem_of_zip_r in Hitem. apply list_elem_of_lookup in Hitem as [k Hk].
    destruct (Hread k image Hk) as [_ Hplane].
    by rewrite (subarrays_shape im3d p [r; c] _ _ Hshape Hplane).
  - rewrite length_map, length_zip_with, length_seq, Hlen. reflexivity.
  - intros k pn Hpn. rewrite list_lookup_fmap in Hpn.
    destruct (zip (seq 0 (5 * 6)) sel !! k) as [[ax image]|] eqn:Hitem;
      [|done].
    injection Hpn as <-. cbn.
    apply lookup_zip_with_Some in Hitem
      as (ax' & image' & [= <- <-] & Hax & Himage).
    apply lookup_seq in Hax as [-> _].
    destruct (Hread k image Himage) as [Hlt Hplane]. done.
Qed.

(** X6.  What [display] refuses.  A step of zero raises [ValueError]; an
    array without axes raises [IndexError]; and an array whose sub-arrays
    along the first axis are not images (a single 2D image, say, whose
    rows are one-dimensional) raises [TypeError] as soon as the first
    panel is drawn. *)
Theorem display_rejects (im3d : ndarray Q) (cmap : string) (step : Z) :
  flat im3d <> [] ->
  (shape im3d <> [] -> step = 0%Z ->
   display im3d cmap step = raise ValueError "slice step cannot be zero")
  /\ (shape im3d = [] ->
      display im3d cmap step = raise IndexError "too many indices for array")
  /\ (forall p rest,
        shape im3d = p :: rest -> (0 < p)%nat -> step <> 0%Z ->
        imshow_accepts rest = false ->
        display im3d cmap step
        = raise TypeError "Invalid dimensions for image data").
Proof.
  intros Hne.
  destruct (amin_spec im3d Hne) as (vmin & Hmin & _).
  destruct (amax_spec im3d Hne) as (vmax & Hmax & _).
  unfold display. rewrite Hmin, Hmax. cbn [mbind outcome_bind].
  split; [|split].
  - intros Hs ->. unfold slice_planes.
    destruct (shape im3d); [done|]. reflexivity.
  - intros Hs. unfold slice_planes. rewrite Hs. reflexivity.
  - intros p rest Hs Hp Hstep Hrest. unfold slice_planes. rewrite Hs.
    assert (exists image sel,
              slice_step step (subarrays im3d) = Ok (image :: sel)
              /\ shape image = rest) as (image & sel & Hsel & Himage).
    { pose proof (length_subarrays im3d p rest Hs) as Hlen.
      destruct (decide (0 < step)%Z) as [Hpos|Hneg].
      - destruct (slice_step_positive step (subarrays im3d) Hpos)
          as (sel & Hsel & Hn & Hread).
        rewrite Hlen in Hn.
        pose proof (ceil_div_pos p (Z.to_nat step) Hp ltac:(lia)).
        destruct sel as [|image sel]; [cbn in Hn; lia|].
        exists image, sel. split; [done|].
        destruct (Hread 0%nat image eq_refl) as [_ Hplane].
        exact (subarrays_shape im3d p rest _ _ Hs Hplane).
      - destruct (slice_step_negative step (subarrays im3d) ltac:(lia))
          as (sel & Hsel & Hn & Hread).
        rewrite Hlen in Hn.
        pose proof (ceil_div_pos p (Z.to_nat (- step)) Hp ltac:(lia)).
        destruct sel as [|image sel]; [cbn in Hn; lia|].
        exists image, sel. split; [done|].
        destruct (Hread 0%nat image eq_refl) as [_ Hplane].
        exact (subarrays_shape im3d p rest _ _ Hs Hplane). }
    rewrite Hsel. cbn [mbind outcome_bind].
    cbn [seq Nat.mul Nat.add zip zip_with display_loop].
    unfold ax_imshow, matplotlib_imshow. rewrite Himage, Hrest. reflexivity.
Qed.

(** *** The planewise loops when a plane goes wrong *)

Lemma planewise_loop_app {A B C} (f : ndarray A -> outcome (ndarray C))
    (cast : C -> B) (l1 l2 : list (nat * ndarray A)) (dst : ndarray B) :
  planewise_loop f cast (l1 ++ l2) dst
  = (dst' ← planewise_loop f cast l1 dst; planewise_loop f cast l2 dst').
Proof.
  revert dst. induction l1 as [|[i image] l1 IH]; intros dst; [done|].
  cbn [app planewise_loop]. destruct (f image) as [v|e]; [|done].
  cbn [mbind outcome_bind]. destruct (setitem cast dst i v) as [dst'|e];
    [|done].
  cbn [mbind outcome_bind]. apply IH.
Qed.

Lemma planewise_loop_runs {A B C} (f : ndarray A -> outcome (ndarray C))
    (cast : C -> B) (p : nat) (rest : list nat)
    (images : list (ndarray A)) (results : list (ndarray C)) :
  Forall2 (fun image v => f image = Ok v /\ shape v = rest /\ wf v)
          images results ->
  forall (k : nat) (dst : ndarray B),
    shape dst = p :: rest ->
    (k + length images <= p)%nat ->
    exists dst',
      planewise_loop f cast (zip (seq k (length images)) images) dst = Ok dst'
      /\ shape dst' = p :: rest.
Proof.
  induction 1 as [|image v images results (Hf & Hshape & Hwf) _ IH];
    intros k dst Hdst Hk.
  - by exists dst.
  - cbn [length seq zip zip_with planewise_loop]. rewrite Hf.
    cbn [mbind outcome_bind]. unfold setitem. rewrite Hdst.
    cbn [length] in Hk. rewrite decide_True by lia.
    rewrite (broadcast_to_same rest v Hshape Hwf). cbn [mbind outcome_bind].
    apply IH; [done|lia].
Qed.

Lemma enumerate_app {A} (l1 l2 : list A) :
  enumerate (l1 ++ l2)
  = enumerate l1 ++ zip (seq (length l1) (length l2)) l2.
Proof.
  unfold enumerate. rewrite length_app, seq_app.
  apply zip_with_app. by rewrite length_seq.
Qed.

(** X7.  The planewise loops of cells 24, 29 and 31 have no handler: when
    the routine raises on some plane, after returning plane-shaped results
    for the planes before it, the loop raises the same exception; and a
    result that cannot be broadcast to the shape of a plane raises
    [ValueError] instead of being stored. *)
Theorem planewise_stops_at_failure {A B C}
    (f : ndarray A -> outcome (ndarray C)) (cast : C -> B) (junk : nat -> B)
    (src : ndarray A) (p : nat) (rest : list nat)
    (before after : list (ndarray A)) (image : ndarray A)
    (results : list (ndarray C)) :
  shape src = p :: rest ->
  subarrays src = before ++ image :: after ->
  Forall2 (fun image v => f image = Ok v /\ shape v = rest /\ wf v)
          before results ->
  (forall e, f image = Raise e -> planewise f cast junk src = Raise e)
  /\ (forall v, f image = Ok v -> broadcast_to rest v = None ->
        planewise f cast junk src
        = raise ValueError "could not broadcast input array").
Proof.
  intros Hs Hsub Hres.
  pose proof (length_subarrays src p rest Hs) as Hlen.
  rewrite Hsub, length_app in Hlen. cbn [length] in Hlen.
  destruct (planewise_loop_runs f cast p rest before results Hres 0
              (empty_like junk src)) as (dst & Hloop & Hdst);
    [by rewrite <- Hs|lia|].
  assert (planewise f cast junk src
          = (v ← f image;
             dst' ← setitem cast dst (length before) v;
             planewise_loop f cast
               (zip (seq (S (length before)) (length after)) after) dst'))
    as ->.
  { unfold planewise, planes. rewrite Hs, Hsub. cbn [mbind outcome_bind].
    rewrite enumerate_app, planewise_loop_app. unfold enumerate.
    rewrite Hloop. reflexivity. }
  split.
  - by intros e ->.
  - intros v -> Hv. cbn [mbind outcome_bind]. unfold setitem.
    rewrite Hdst, decide_True by lia. by rewrite Hv.
Qed.

(** X8.  The edges of a planewise loop.  An array without axes cannot be
    iterated: [TypeError].  A volume of no planes gives the empty volume
    of the same shape, whatever the routine is: it is never called. *)
Theorem planewise_without_planes {A B C}
    (f : ndarray A -> outcome (ndarray C)) (cast : C -> B) (junk : nat -> B)
    (src : ndarray A) :
  (shape src = [] ->
   planewise f cast junk src = raise TypeError "iteration over a 0-d array")
  /\ (forall rest, shape src = 0%nat :: rest ->
        planewise f cast junk src
        = Ok {| shape := 0%nat :: rest; flat := [] |}).
Proof.
  split.
  - intros Hs. unfold planewise, planes. by rewrite Hs.
  - intros rest Hs. unfold planewise, planes, empty_like, enumerate, subarrays.
    rewrite Hs. reflexivity.
Qed.

Lemma planewise_value {A B C} (f : ndarray A -> outcome (ndarray C))
    (cast : C -> B) (junk : nat -> B) (src : ndarray A) (p : nat)
    (rest : list nat) (results : list (ndarray C)) :
  shape src = p :: rest ->
  Forall2 (fun image v => f image = Ok v /\ shape v = rest /\ wf v)
          (subarrays src) results ->
  let dst := {| shape := p :: rest;
                flat := concat (map (fun v => map cast (flat v)) results) |} in
  planewise f cast junk src = Ok dst /\ wf dst /\ length results = p.
Proof.
  intros Hs Hres dst.
  pose proof (length_subarrays src p rest Hs) as Hlen.
  pose proof (Forall2_length _ _ _ Hres) as Hlen'.
  assert (Forall (fun l => length l = size_of rest)
                 (map (fun v => map cast (flat v)) results)) as Hall.
  { clear -Hres. induction Hres as [|???? (_ & Hv & Hwf)]; constructor;
      [|done].
    rewrite length_map. unfold wf in Hwf. by rewrite Hwf, Hv. }
  split; [|split; [|lia]].
  - unfold planewise, planes, enumerate, empty_like. rewrite Hs.
    cbn [mbind outcome_bind].
    rewrite <- (app_nil_l (map junk _)).
    rewrite (planewise_loop_spec f cast p rest _ results Hres 0 []);
      [done|done| |lia].
    rewrite length_map, length_seq, Hlen. cbn [size_of foldr]. done.
  - unfold wf, dst. cbn [shape flat].
    rewrite (length_concat_uniform _ _ Hall), length_map, size_of_cons. lia.
Qed.

(** X9.  What a planewise loop builds is a well-formed array: when the
    routine returns a well-formed plane-shaped result for every plane, the
    destination holds one item for every position of its shape, and they
    are the items of the results, cast and laid end to end. *)
Theorem planewise_well_formed {A B C}
    (f : ndarray A -> outcome (ndarray C)) (cast : C -> B) (junk : nat -> B)
    (src : ndarray A) (p : nat) (rest : list nat)
    (results : list (ndarray C)) :
  shape src = p :: rest ->
  Forall2 (fun image v => f image = Ok v /\ shape v = rest /\ wf v)
          (subarrays src) results ->
  exists dst,
    planewise f cast junk src = Ok dst
    /\ wf dst
    /\ flat dst = concat (map (fun v => map cast (flat v)) results)
    /\ forall i, (i < size_of (shape src))%nat -> is_Some (flat dst !! i).
Proof.
  intros Hs Hres.
  destruct (planewise_value f cast junk src p rest results Hs Hres)
    as (Hrun & Hwf & _).
  eexists. split; [exact Hrun|]. split; [exact Hwf|]. split; [done|].
  intros i Hi. apply lookup_lt_is_Some.
  unfold wf in Hwf. cbn [shape flat] in Hwf. cbn [flat].
  by rewrite Hwf, <- Hs.
Qed.

(** The index found at an offset, the other way round. *)
Lemma indices_offset (s idx : list nat) (o : nat) :
  indices s !! o = Some idx -> offset s idx = Some o.
Proof.
  revert idx o. induction s as [|d s IH]; intros idx o Hidx.
  - destruct o; [|done]. by injection Hidx as <-.
  - pose proof (lookup_lt_Some _ _ _ Hidx) as Ho.
    rewrite length_indices, size_of_cons in Ho.
    assert (0 < size_of s)%nat as Hsz by (destruct (size_of s); lia).
    set (i := (o / size_of s)%nat). set (j := (o mod size_of s)%nat).
    assert (o = i * size_of s + j)%nat as Ho'.
    { unfold i, j. rewrite Nat.mul_comm. apply Nat.div_mod_eq. }
    assert (j < size_of s)%nat as Hj by (apply Nat.mod_upper_bound; lia).
    assert (i < d)%nat as Hi.
    { apply Nat.Div0.div_lt_upper_bound. lia. }
    cbn [indices] in Hidx. rewrite flat_map_concat_map, Ho' in Hidx.
    rewrite (lookup_concat_uniform (size_of s)) in Hidx; [|
      apply Forall_forall; intros l Hl;
      apply list_elem_of_fmap in Hl as (k & -> & _);
      by rewrite length_map, length_indices|done].
    rewrite list_lookup_fmap, lookup_seq_lt in Hidx by done.
    cbn in Hidx. rewrite list_lookup_fmap in Hidx.
    destruct (indices s !! j) as [idx'|] eqn:Hidx'; [|done].
    injection Hidx as <-. cbn [offset].
    rewrite decide_True by done. rewrite (IH _ _ Hidx'). cbn. by rewrite Ho'.
Qed.

(** Integer indexing of the first axis and iteration agree: [a[i]] is the
    [i]-th sub-array a loop over [a] meets. *)
Lemma index_axis_subarrays {A} (a : ndarray A) (p : nat) (rest : list nat)
    (i : nat) :
  wf a -> shape a = p :: rest -> (i < p)%nat ->
  exists b, subarrays a !! i = Some b /\ index_axis 1 0 i a = Ok b.
Proof.
  intros Hwf Hs Hi. unfold wf in Hwf. rewrite Hs, size_of_cons in Hwf.
  exists {| shape := rest;
            flat := take (size_of rest) (drop (i * size_of rest) (flat a)) |}.
  split.
  - unfold subarrays. rewrite Hs, list_lookup_fmap.
    assert (forall n (xs : list A) k, (k < n)%nat ->
              chunks (size_of rest) n xs !! k
              = Some (take (size_of rest) (drop (k * size_of rest) xs)))
      as Hchunks.
    { induction n as [|n IHn]; intros xs k Hk; [lia|].
      destruct k as [|k]; [done|]. cbn [chunks lookup list_lookup].
      rewrite IHn by lia. rewrite drop_drop. repeat f_equal; lia. }
    by rewrite Hchunks.
  - unfold index_axis, ndim. rewrite Hs. cbn [length].
    rewrite decide_False by lia. cbn [lookup list_lookup].
    rewrite decide_True by done. unfold gather. f_equal. f_equal.
    change (fun idx : list nat => item a (take 0 idx ++ i :: drop 0 idx))
      with (fun idx : list nat => item a (i :: idx)).
    change (delete 0 (p :: rest)) with rest.
    apply list_eq. intros o.
    rewrite lookup_omap_total.
    2:{ apply List.Forall_forall. intros idx Hin.
        apply indices_in_range in Hin as [o' Ho'].
        unfold item. rewrite Hs. cbn [offset].
        rewrite decide_True by done. rewrite Ho'. cbn.
        apply lookup_lt_is_Some. apply offset_lt in Ho'. nia. }
    destruct (decide (o < size_of rest)%nat) as [Ho|Ho].
    + rewrite lookup_take_lt, lookup_drop by done.
      destruct (indices rest !! o) as [idx|] eqn:Hidx.
      2:{ apply lookup_ge_None in Hidx. rewrite length_indices in Hidx. lia. }
      cbn. unfold item. rewrite Hs. cbn [offset].
      rewrite decide_True by done.
      rewrite (indices_offset _ _ _ Hidx). done.
    + rewrite lookup_take_ge by lia.
      rewrite (lookup_ge_None_2 (indices rest)); [done|].
      rewrite length_indices. lia.
Qed.

Lemma planewise_plane {A B C} (f : ndarray A -> outcome (ndarray C))
    (cast : C -> B) (junk : nat -> B) (src : ndarray A) (p : nat)
    (rest : list nat) (results : list (ndarray C)) (k : nat)
    (v : ndarray C) :
  shape src = p :: rest ->
  Forall2 (fun image v => f image = Ok v /\ shape v = rest /\ wf v)
          (subarrays src) results ->
  results !! k = Some v ->
  let dst := {| shape := p :: rest;
                flat := concat (map (fun v => map cast (flat v)) results) |} in
  planewise f cast junk src = Ok dst
  /\ wf dst
  /\ (k < p)%nat
  /\ index_axis 1 0 k dst = Ok (amap cast v).
Proof.
  intros Hs Hres Hv dst.
  destruct (planewise_value f cast junk src p rest results Hs Hres)
    as (Hrun & Hwd & Hlen).
  assert (k < p)%nat as Hk by (rewrite <- Hlen; by eapply lookup_lt_Some).
  split; [exact Hrun|]. split; [exact Hwd|]. split; [exact Hk|].
  destruct (index_axis_subarrays _ p rest k Hwd eq_refl Hk)
    as (b & Hb & Hindex).
  assert (Forall (fun v => shape v = rest /\ wf v) results) as Hall.
  { clear -Hres. induction Hres as [|???? (_ & ? & ?)]; by constructor. }
  rewrite <- Hlen in Hb at 1.
  rewrite (subarrays_concat cast rest results Hall) in Hb.
  rewrite list_lookup_fmap, Hv in Hb. injection Hb as <-. exact Hindex.
Qed.

(** X10.  Writing through the loop and reading back by index agree: after
    a planewise loop, [dst[i]] is the routine applied to [src[i]], cast to
    the item type of the destination.  So what cell 32 shows as
    [bilateral[32]] is [restoration.denoise_bilateral(rescaled[32])]. *)
Theorem planewise_then_index {A B C}
    (f : ndarray A -> outcome (ndarray C)) (cast : C -> B) (junk : nat -> B)
    (src : ndarray A) (p : nat) (rest : list nat)
    (results : list (ndarray C)) (i : nat) :
  wf src ->
  shape src = p :: rest ->
  Forall2 (fun image v => f image = Ok v /\ shape v = rest /\ wf v)
          (subarrays src) results ->
  (i < p)%nat ->
  exists dst image v,
    planewise f cast junk src = Ok dst
    /\ index_axis 1 0 i src = Ok image
    /\ f image = Ok v
    /\ index_axis 1 0 i dst = Ok (amap cast v).
Proof.
  intros Hwf Hs Hres Hi.
  destruct (index_axis_subarrays src p rest i Hwf Hs Hi)
    as (image & Himage & Hindex).
  destruct (Forall2_lookup_l _ _ _ _ _ Hres Himage) as (v & Hv & Hf & _).
  destruct (planewise_plane f cast junk src p rest results i v Hs Hres Hv)
    as (Hrun & _ & _ & Hplane).
  eexists _, image, v. split; [exact Hrun|]. by repeat split.
Qed.

(** X11.  A section across the planes of a planewise result is made of
    rows of the plane results: after the loop of cell 24, row [k] of
    [sobel[:, i, :]], which cell 25 shows, is row [i] of the routine
    applied to plane [k] alone, cast to the item type of the
    destination. *)
Theorem planewise_section {A B C}
    (f : ndarray A -> outcome (ndarray C)) (cast : C -> B) (junk : nat -> B)
    (src : ndarray A) (p r c : nat) (results : list (ndarray C)) (i : nat) :
  shape src = [p; r; c] ->
  Forall2 (fun image v => f image = Ok v /\ shape v = [r; c] /\ wf v)
          (subarrays src) results ->
  (i < r)%nat ->
  exists dst section,
    planewise f cast junk src = Ok dst
    /\ index_axis 3 1 i dst = Ok section
    /\ shape section = [p; c]
    /\ forall k v x, results !! k = Some v -> (x < c)%nat ->
          item section [k; x] = cast <$> item v [i; x].
Proof.
  intros Hs Hres Hi.
  destruct (planewise_value f cast junk src p [r; c] results Hs Hres)
    as (Hrun & Hwd & Hlen).
  set (dst := {| shape := [p; r; c];
                 flat := concat (map (fun v => map cast (flat v)) results) |})
    in *.
  destruct (index_axis_spec 3 1 i r dst Hwd)
    as (section & Hsection & Hshape & _ & Hitems); [cbn; lia|done|done|].
  cbn in Hshape.
  exists dst, section. split; [exact Hrun|]. split; [exact Hsection|].
  split; [exact Hshape|]. intros k v x Hv Hx.
  destruct (planewise_plane f cast junk src p [r; c] results k v Hs Hres Hv)
    as (_ & _ & Hk & Hplane).
  destruct (index_axis_spec 1 0 k p dst Hwd)
    as (plane & Hplane' & Hsp & _ & Hitems'); [cbn; lia|done|done|].
  fold dst in Hplane. rewrite Hplane in Hplane'. injection Hplane' as <-.
  rewrite Hitems by (rewrite Hshape; by apply in_range_2).
  change (take 1 [k; x] ++ i :: drop 1 [k; x]) with ([k; i; x]).
  rewrite <- item_amap.
  symmetry. apply (Hitems' [i; x]). cbn [amap shape].
  assert (shape v = [r; c]) as ->.
  { destruct (Forall2_lookup_r _ _ _ _ _ Hres Hv) as (? & _ & _ & ? & _).
    done. }
  by apply in_range_2.
Qed.

(** *** The two thresholds of cell 35 *)

(** X12.  Both masks of cell 35 are cut from the same volume, so they are
    nested: whichever threshold is the higher, its mask lies inside the
    other.  If Li's threshold is at most Otsu's, every voxel of [otsu] is
    a voxel of [li]. *)
Theorem otsu_within_li (lib : Library) (denoised : ndarray Q)
    (li otsu : ndarray bool) (t_li t_otsu : Q) :
  run_cell_35 lib denoised = Ok (li, otsu) ->
  threshold_li lib denoised = Ok t_li ->
  threshold_otsu lib denoised = Ok t_otsu ->
  shape li = shape otsu
  /\ length (flat li) = length (flat otsu)
  /\ ((t_li <= t_otsu)%Q ->
      forall i, flat otsu !! i = Some true -> flat li !! i = Some true)
  /\ ((t_otsu <= t_li)%Q ->
      forall i, flat li !! i = Some true -> flat otsu !! i = Some true).
Proof.
  intros Hrun Hli Hotsu. unfold run_cell_35 in Hrun.
  rewrite Hli in Hrun. cbn [mbind outcome_bind] in Hrun.
  rewrite Hotsu in Hrun. cbn [mbind outcome_bind] in Hrun.
  injection Hrun as <- <-.
  assert (forall t1 t2 i, (t1 <= t2)%Q ->
            flat (ge_scalar denoised t2) !! i = Some true ->
            flat (ge_scalar denoised t1) !! i = Some true) as Hmono.
  { intros t1 t2 i Ht. unfold ge_scalar, amap. cbn [flat].
    rewrite !list_lookup_fmap.
    destruct (flat denoised !! i) as [x|]; [|done]. cbn.
    intros [= Hx]. f_equal. apply Qle_bool_iff.
    apply Qle_bool_iff in Hx. by eapply Qle_trans. }
  split; [done|]. split.
  { unfold ge_scalar, amap. cbn [flat]. by rewrite !length_map. }
  split; intros Ht i; by apply Hmono.
Qed.

(** *** The probe of cell 68 *)

Lemma probe_loop_returns {V} (r0 : region V) (props : list string) acc res :
  probe_loop r0 props acc = Ok res ->
  forall p e, In p props -> prop r0 p = Raise e ->
              issubclass (exc_type e) NotImplementedError = true.
Proof.
  revert acc. induction props as [|q props IH]; intros acc Hrun p e Hin Hp;
    [done|].
  cbn [probe_loop] in Hrun. unfold probe_step, try_except in Hrun.
  destruct Hin as [->|Hin].
  - rewrite Hp in Hrun. cbn [mbind outcome_bind] in Hrun.
    by destruct (issubclass (exc_type e) NotImplementedError).
  - destruct (prop r0 q) as [v|e'].
    + cbn [mbind outcome_bind] in Hrun. by eapply IH.
    + cbn [mbind outcome_bind] in Hrun.
      destruct (issubclass (exc_type e') NotImplementedError); [|done].
      cbn [mbind outcome_bind] in Hrun. by eapply IH.
Qed.

Lemma filter_split_Permutation {X} (f : X -> bool) (l : list X) :
  Permutation (List.filter f l ++ List.filter (fun x => negb (f x)) l) l.
Proof.
  induction l as [|x l IH]; [done|]. cbn [List.filter].
  destruct (f x); cbn [negb app].
  - by constructor.
  - rewrite <- Permutation_middle. by constructor.
Qed.

(** X13.  Whenever the probe of cell 68 returns, its two lists split the
    property names of the region between them: [supported] holds, in
    order, the names whose value could be computed, [unsupported] the
    others, no name is in both, together they are a rearrangement of all
    the names, and every failure met was a [NotImplementedError]. *)
Theorem probe_lists_partition {V} (r0 : region V) (rest : list (region V))
    (supported unsupported : list string) :
  run_cell_68 (r0 :: rest) = Ok (supported, unsupported) ->
  supported = List.filter (computes r0) (prop_names r0)
  /\ unsupported = List.filter (fun p => negb (computes r0 p)) (prop_names r0)
  /\ Permutation (supported ++ unsupported) (prop_names r0)
  /\ (forall p, In p supported -> ~ In p unsupported)
  /\ (forall p e, In p (prop_names r0) -> prop r0 p = Raise e ->
                  exc_type e = NotImplementedError).
Proof.
  intros Hrun. unfold run_cell_68, getitem in Hrun.
  cbn [lookup list_lookup mbind outcome_bind] in Hrun.
  pose proof (probe_loop_returns r0 _ _ _ Hrun) as Hnie.
  rewrite (probe_loop_partition r0 _ _ Hnie) in Hrun.
  cbn [fst snd app] in Hrun. injection Hrun as <- <-.
  split; [done|]. split; [done|]. split; [apply filter_split_Permutation|].
  split.
  - intros p [_ Hp]%filter_In [_ Hq]%filter_In. by rewrite Hp in Hq.
  - intros p e Hin Hp. specialize (Hnie p e Hin Hp).
    rewrite issubclass_NotImplementedError in Hnie.
    by apply bool_decide_eq_true in Hnie.
Qed.

(** X14.  With no measured region the probe of cell 68 raises
    [IndexError] before anything is probed, and the regions after the
    first play no part in what it returns. *)
Theorem probe_first_region_only {V} (r0 : region V) (rest : list (region V)) :
  @run_cell_68 V [] = raise IndexError "index out of bounds"
  /\ run_cell_68 (r0 :: rest) = run_cell_68 [r0]
  /\ (forall p, ~ In p (prop_names r0) ->
        forall supported unsupported,
          run_cell_68 (r0 :: rest) = Ok (supported, unsupported) ->
          ~ In p supported /\ ~ In p unsupported).
Proof.
  split; [reflexivity|]. split; [reflexivity|].
  intros p Hp supported unsupported Hrun.
  unfold run_cell_68, getitem in Hrun.
  cbn [lookup list_lookup mbind outcome_bind] in Hrun.
  pose proof (probe_loop_returns r0 _ _ _ Hrun) as Hnie.
  rewrite (probe_loop_partition r0 _ _ Hnie) in Hrun.
  cbn [fst snd app] in Hrun. injection Hrun as <- <-.
  split; intros [Hin _]%filter_In; done.
Qed.

(** *** Cell 27: the width of the Gaussian filter *)

(** X15.  Cell 27 divides the base width of 3.0 by the spacing, axis by
    axis, in double precision.  With the spacing of cell 5, which as
    doubles is (1.1153846153846152, 1.0, 1.0), the filter is called with
    the widths (2.6896551724137936, 3.0, 3.0) for planes, rows and
    columns.  The first is the double 189267656753717 / 2^46, next to but
    not equal to 78/29; multiplied by the spacing in double precision it
    gives 3.0 again, as the other two do. *)
Theorem sigma_follows_spacing (lib : Library) (rescaled : ndarray Q) :
  let sp := [S754_finite false 5023245738220937 (-52);
             S754_finite false 4503599627370496 (-52);
             S754_finite false 4503599627370496 (-52)] in
  let widths := [S754_finite false 6056565016118944 (-51);
                 S754_finite false 6755399441055744 (-51);
                 S754_finite false 6755399441055744 (-51)] in
  Float64.spacing = Ok sp
  /\ base_sigma = S754_finite false 6755399441055744 (-51)
  /\ sigma = Ok widths
  /\ run_cell_27 lib rescaled = gaussian lib rescaled widths
  /\ map (fun x => Qred <$> f64_value x) sp
     = [Some (5023245738220937 # 4503599627370496); Some 1; Some 1]%Q
  /\ map (fun x => Qred <$> f64_value x) widths
     = [Some (189267656753717 # 70368744177664); Some 3; Some 3]%Q
  /\ ~ (189267656753717 # 70368744177664 == 78 # 29)%Q
  /\ zip_with f64_mul widths sp = [base_sigma; base_sigma; base_sigma].
Proof.
  intros sp widths.
  assert (sigma = Ok widths) as Hsigma by (vm_compute; reflexivity).
  split; [vm_compute; reflexivity|]. split; [vm_compute; reflexivity|].
  split; [exact Hsigma|]. split.
  - unfold run_cell_27. rewrite Hsigma. reflexivity.
  - split; [vm_compute; reflexivity|]. split; [vm_compute; reflexivity|].
    split; [|vm_compute; reflexivity].
    unfold Qeq. cbn. lia.
Qed.

(** *** Names, helpers and their call sites *)

(** X16.  Run from top to bottom, no statement of the notebook reads a
    name before it is bound: every name read has by then been bound by an
    import, an assignment, a definition, a loop or a handler, or is one
    of seven built-ins.  The four helper functions read nothing of the
    notebook's own variables: only their parameters, their locals, the
    imported modules and built-ins. *)
Theorem names_bound_before_use :
  unbound_reads script = []
  /\ remove_dups (fst (unbound_block [] script))
     = ["TypeError"; "str"; "zip"; "enumerate"; "NotImplementedError";
        "tuple"; "print"]
  /\ flat_map
       (fun s => match s with
                 | FunctionDef _ _ _ =>
                     fst (unbound (builtins ++ snd (unbound_block [] cell_01)) s)
                 | _ => []
                 end) script
     = []
  /\ remove_dups (fst (unbound_block builtins (cells 0 4 ++ cells 6 78)))
     = ["spacing"].
Proof. repeat split; vm_compute; reflexivity. Qed.

(** X17.  Every call of the helpers [show_plane], [display], [plot_hist]
    and [get_cmap] (67 call sites) binds each parameter at most once and
    every parameter that has no default, so none can fail on its
    arguments' count or names. *)
Theorem helper_calls_fit :
  map fst (definitions script)
  = ["show_plane"; "display"; "plot_hist"; "get_cmap"]
  /\ length (helper_calls script) = 67%nat
  /\ misfit_calls script = []
  /\ forallb (fun c => match c with
                       | Call (Name f) args kws =>
                           match assoc f (definitions script) with
                           | Some d => fits (fst d) args kws
                           | None => false
                           end
                       | _ => false
                       end) (helper_calls script) = true.
Proof. repeat split; vm_compute; reflexivity. Qed.

(** X18.  [get_cmap] never reads its [name] parameter, and it is the only
    parameter of a helper that goes unread: the colour map it returns is
    always the one [cm.get_cmap] gives for the literal "viridis". *)
Theorem get_cmap_ignores_name :
  unused_parameters script = [("get_cmap", "name")]
  /\ forall params body,
       assoc "get_cmap" (definitions script) = Some (params, body) ->
       map fst params = ["labels"; "name"]
       /\ ~ In "name" (flat_map stmt_reads body)
       /\ bindings body !! "cmap"
          = Some (Call (Attribute (Name "cm") "get_cmap")
                       [Constant (Str "viridis")] [])
       /\ last body = Some (Return (Some (Tuple [Name "masked_labels";
                                                Name "cmap"]))).
Proof.
  split; [vm_compute; reflexivity|].
  intros params body Hdef. vm_compute in Hdef. injection Hdef as <- <-.
  split; [reflexivity|]. split; [|split; [vm_compute; reflexivity|reflexivity]].
  cbn. intros H. repeat destruct H as [H|H]; try discriminate H. exact H.
Qed.

(** *** Cell 7 when nothing is caught *)

(** X19.  The guard of cell 7 catches [TypeError] only.  When [data] is
    not bound the cell raises [NameError]; when the drawing routine
    returns, nothing is printed and the namespace is left as it was, a
    variable [e] included. *)
Theorem imshow_guard_other_paths {V} (of_exception : exception -> V)
    (io_imshow : V -> string -> outcome V) (st : state V) :
  (vars st !! "data" = None ->
   run_cell_07 of_exception io_imshow st
   = raise NameError "name 'data' is not defined")
  /\ (forall volume shown,
        vars st !! "data" = Some volume ->
        io_imshow volume "gray" = Ok shown ->
        run_cell_07 of_exception io_imshow st = Ok st).
Proof.
  split.
  - intros Hdata. unfold run_cell_07, load. rewrite Hdata. reflexivity.
  - intros volume shown Hdata Hshown. unfold run_cell_07, load.
    rewrite Hdata. cbn [mbind outcome_bind]. rewrite Hshown. reflexivity.
Qed.

(** *** Cells 72 and 74: the statistics of the volumes *)

Lemma foldl_Zmax_spec (xs : list Z) (x : Z) :
  In (foldl Z.max x xs) (x :: xs)
  /\ Forall (fun y => (y <= foldl Z.max x xs)%Z) (x :: xs).
Proof.
  revert x. induction xs as [|y xs IH]; intros x.
  - cbn [foldl]. split; [by left|]. constructor; [lia|constructor].
  - cbn [foldl]. destruct (IH (Z.max x y)) as [Hin Hall].
    inversion Hall as [|?? Hhd Htl]; subst. split.
    + destruct Hin as [Hin|Hin]; [|by right; right].
      rewrite <- Hin. destruct (Z.max_spec x y) as [[_ ->]|[_ ->]];
        [right; by left|by left].
    + constructor; [lia|]. constructor; [lia|done].
Qed.

Lemma foldl_Zmin_spec (xs : list Z) (x : Z) :
  In (foldl Z.min x xs) (x :: xs)
  /\ Forall (fun y => (foldl Z.min x xs <= y)%Z) (x :: xs).
Proof.
  revert x. induction xs as [|y xs IH]; intros x.
  - cbn [foldl]. split; [by left|]. constructor; [lia|constructor].
  - cbn [foldl]. destruct (IH (Z.min x y)) as [Hin Hall].
    inversion Hall as [|?? Hhd Htl]; subst. split.
    + destruct Hin as [Hin|Hin]; [|by right; right].
      rewrite <- Hin. destruct (Z.min_spec x y) as [[_ ->]|[_ ->]];
        [by left|right; by left].
    + constructor; [lia|]. constructor; [lia|done].
Qed.

Lemma sum_bounds (l : list Z) (lo hi : Z) :
  Forall (fun v => (lo <= v <= hi)%Z) l ->
  (Z.of_nat (length l) * lo <= foldr Z.add 0 l
   <= Z.of_nat (length l) * hi)%Z.
Proof.
  induction 1 as [|v l Hv _ IH]; [cbn; lia|].
  cbn [foldr length]. lia.
Qed.

Lemma int64_small (z : Z) : (- 2 ^ 63 <= z < 2 ^ 63)%Z -> int64 z = z.
Proof. intros Hz. unfold int64. rewrite Z.mod_small; lia. Qed.

Lemma int64_add (y x : Z) : int64 (int64 y + x) = int64 (y + x).
Proof.
  unfold int64. f_equal.
  replace ((y + 2 ^ 63) mod 2 ^ 64 - 2 ^ 63 + x + 2 ^ 63)%Z
    with ((y + 2 ^ 63) mod 2 ^ 64 + x)%Z by lia.
  rewrite Z.add_mod_idemp_l by lia. f_equal. lia.
Qed.

(** Adding in 64 bits gives the exact sum, wrapped once. *)
Lemma np_sum_spec (l : list Z) : np_sum l = int64 (foldr Z.add 0%Z l).
Proof.
  unfold np_sum. destruct l as [|x l]; [reflexivity|].
  cbn [foldl foldr]. rewrite Z.add_0_l.
  revert x. induction l as [|x' l IH]; intros x.
  - cbn [foldl foldr]. by rewrite Z.add_0_r.
  - cbn [foldl foldr]. rewrite int64_add, IH. f_equal. lia.
Qed.

(** X20.  The statistics of cell 74.  With no measured region the cell
    raises [ValueError] at its first line, [np.max].  Otherwise the
    maximum and the minimum are volumes of regions and bound all of them;
    the mean and the standard deviation are the doubles [np.mean] and
    [np.std] return for the list of volumes; and the total is the sum of
    the volumes wrapped to 64 bits, which is the sum itself, between the
    number of regions times the minimum and times the maximum, when no
    volume is negative and the sum is below 2^63. *)
Theorem volume_statistics (np_mean np_std : list Z -> float64)
    (regionprops : list measured) :
  let volumes := run_cell_72 regionprops in
  (regionprops = [] ->
   run_cell_74 np_mean np_std volumes
   = raise ValueError
       "zero-size array to reduction operation maximum which has no identity")
  /\ (regionprops <> [] ->
      exists st,
        run_cell_74 np_mean np_std volumes = Ok st
        /\ In (max_volume st) volumes /\ In (min_volume st) volumes
        /\ Forall (fun v => (min_volume st <= v <= max_volume st)%Z) volumes
        /\ mean_volume st = np_mean volumes
        /\ sd_volume st = np_std volumes
        /\ total_volume st = int64 (foldr Z.add 0%Z volumes)
        /\ (Forall (fun v => (0 <= v)%Z) volumes ->
            (foldr Z.add 0 volumes < 2 ^ 63)%Z ->
            total_volume st = foldr Z.add 0%Z volumes
            /\ (Z.of_nat (length regionprops) * min_volume st
                <= total_volume st
                <= Z.of_nat (length regionprops) * max_volume st)%Z)).
Proof.
  intros volumes. split.
  - intros ->. reflexivity.
  - intros Hne.
    assert (length volumes = length regionprops) as Hlen
      by apply length_map.
    destruct volumes as [|v vs] eqn:Hv.
    { destruct regionprops; [done|discriminate Hlen]. }
    destruct (foldl_Zmax_spec vs v) as [Hmax_in Hmax].
    destruct (foldl_Zmin_spec vs v) as [Hmin_in Hmin].
    assert (Forall (fun x => (foldl Z.min v vs <= x <= foldl Z.max v vs)%Z)
                   (v :: vs)) as Hall.
    { apply List.Forall_forall. intros x Hx.
      rewrite List.Forall_forall in Hmax, Hmin.
      split; [by apply Hmin|by apply Hmax]. }
    pose proof (sum_bounds _ _ _ Hall) as Hsum. rewrite Hlen in Hsum.
    eexists. split; [reflexivity|].
    cbn [mean_volume sd_volume max_volume min_volume total_volume].
    split; [done|]. split; [done|]. split; [done|].
    split; [reflexivity|]. split; [reflexivity|].
    split; [apply np_sum_spec|].
    intros Hpos Hbound.
    assert (0 <= foldr Z.add 0 (v :: vs))%Z as Hnonneg.
    { clear -Hpos. induction Hpos as [|x l Hx _ IH]; cbn [foldr]; lia. }
    rewrite np_sum_spec, int64_small by lia. split; [reflexivity|exact Hsum].
Qed.

(** *** The steps the program carries out itself *)

(** X22.  What the program does itself to a volume keeps its shape,
    whatever the library routines return and whatever the number of axes.
    A planewise loop (Sobel in cell 24, median in cell 29, bilateral in
    cell 31) that ends has filled an array of the shape of the volume it
    walked: a 2D routine that returns an image of another shape makes the
    store raise or broadcast, and never changes the shape of the result.
    The masks of cells 35 and 43 have the shape of the volume compared
    with the threshold, the single-precision copy of cell 21 has the shape
    of what [exposure.rescale_intensity] returned, and the negated volume
    cell 54 hands to the watershed has the shape of [rescaled]. *)
Theorem own_steps_keep_shape (lib : Library) :
  (forall rescaled sobel,
     run_cell_24 lib rescaled = Ok sobel ->
     shape sobel = shape rescaled /\ ndim sobel = ndim rescaled)
  /\ (forall rescaled rescaled_uint8 median,
        run_cell_29 lib rescaled = Ok (rescaled_uint8, median) ->
        exists filtered,
          planewise (Sem.median lib) id (fresh_z lib) rescaled_uint8
          = Ok filtered
          /\ shape filtered = shape rescaled_uint8
          /\ img_as_float lib filtered = Ok median)
  /\ (forall rescaled bilateral,
        run_cell_31 lib rescaled = Ok bilateral ->
        shape bilateral = shape rescaled /\ ndim bilateral = ndim rescaled)
  /\ (forall denoised li otsu,
        run_cell_35 lib denoised = Ok (li, otsu) ->
        shape li = shape denoised /\ shape otsu = shape denoised)
  /\ (forall equalized binary_equalized despeckled1 despeckled3,
        run_cell_43 lib equalized
        = Ok (binary_equalized, despeckled1, despeckled3) ->
        shape binary_equalized = shape equalized)
  /\ (forall data clipped,
        run_cell_21 lib data = Ok clipped ->
        exists vmin vmax r0,
          rescale_intensity lib data (vmin, vmax) = Ok r0
          /\ shape clipped = shape r0)
  /\ (forall rescaled : ndarray Q, shape (amap Qopp rescaled) = shape rescaled).
Proof.
  split; [|split; [|split; [|split; [|split; [|split]]]]].
  - intros rescaled sobel H. apply run_cell_24_shape in H.
    unfold ndim. by rewrite H.
  - intros rescaled ru median H.
    apply run_cell_29_inv in H as (filtered & _ & Hloop & Hfloat).
    exists filtered. split; [exact Hloop|]. split; [|exact Hfloat].
    by eapply planewise_shape.
  - intros rescaled bilateral H. apply run_cell_31_shape in H.
    unfold ndim. by rewrite H.
  - intros denoised li otsu. apply run_cell_35_shape.
  - intros equalized be d1 d3 H.
    by apply run_cell_43_inv in H as (t & _ & -> & _).
  - intros data clipped H.
    apply run_cell_21_inv in H as (vmin & vmax & r0 & _ & Hr & ->).
    by exists vmin, vmax, r0.
  - reflexivity.
Qed.

(** *** The properties above at concrete inputs *)

Lemma run_cell_10_sections_witness :
  (exists plane row column : ndarray bool,
     run_cell_10 (ones [33; 129; 129]%nat)
     = Ok (map (fun shown : ndarray bool * string =>
                  {| axes_images :=
                       [{| image_data := shown.1; image_cmap := "gray";
                           image_limits := None |}];
                     axes_lines := [];
                     axes_xticks := Some []; axes_yticks := Some [];
                     axes_title := shown.2 |})
               [(plane, "Plane = 32"); (row, "Row = 128");
                (column, "Column = 128")])
     /\ shape plane = [129; 129]%nat /\ shape row = [33; 129]%nat
     /\ shape column = [33; 129]%nat)
  /\ run_cell_10 (ones [32; 129; 129]%nat)
     = raise IndexError "index out of bounds".
Proof.
  split.
  - destruct (run_cell_10_sections (ones [33; 129; 129]%nat) 33 129 129)
      as [Hin _].
    + exact (length_replicate _ _).
    + reflexivity.
    + destruct Hin as (plane & row & column & Hrun & H1 & H2 & H3 & _);
        [lia|lia|lia|].
      by exists plane, row, column.
  - destruct (run_cell_10_sections (ones [32; 129; 129]%nat) 32 129 129)
      as [_ Hout].
    + exact (length_replicate _ _).
    + reflexivity.
    + apply Hout. left. lia.
Defined.

Lemma run_cell_60_planes_witness :
  (exists drawn,
     run_cell_60 (count_up 43 1 2) (ge_scalar (count_up 43 1 2) 70) = Ok drawn
     /\ length drawn = 12%nat)
  /\ run_cell_60 (count_up 42 1 2) (ge_scalar (count_up 42 1 2) 70)
     = raise IndexError "index out of bounds".
Proof.
  split.
  - destruct (run_cell_60_planes (count_up 43 1 2)
                (ge_scalar (count_up 43 1 2) 70) 43 1 2) as [Hin _];
      [reflexivity|reflexivity|reflexivity|reflexivity|discriminate|].
    destruct Hin as (drawn & vmin & vmax & Hrun & Hlen & _); [lia|].
    by exists drawn.
  - destruct (run_cell_60_planes (count_up 42 1 2)
                (ge_scalar (count_up 42 1 2) 70) 42 1 2) as [_ Hout];
      [reflexivity|reflexivity|reflexivity|reflexivity|discriminate|].
    apply Hout. lia.
Defined.

Lemma run_cell_76_volume_witness :
  (exists volume,
     shape volume = [2; 3; 2]%nat
     /\ item volume [1; 2; 0]%nat = Some true
     /\ item volume [0; 0; 1]%nat = Some false
     /\ run_cell_76 toy_marching_cubes toy_mesh_surface_area
                    [29 # 26; 1; 1]%Q toy_labels toy_regions
        = Ok (volume, 4%Q, 58 # 13))
  /\ run_cell_76 toy_marching_cubes toy_mesh_surface_area
                 [29 # 26; 1; 1]%Q toy_labels (take 3 toy_regions)
     = raise IndexError "index out of bounds".
Proof.
  split.
  - destruct (run_cell_76_volume toy_marching_cubes toy_mesh_surface_area
                [29 # 26; 1; 1]%Q toy_labels toy_regions 2 2 3)
      as [Hin _]; [reflexivity|reflexivity|].
    destruct (Hin (Build_measured 4 4) eq_refl)
      as (volume & Hs & Hwf & Hitems & Hrun).
    exists volume. split; [done|].
    destruct (Hitems 1%nat 2%nat 0%nat) as (l & Hl & Hv); [lia|lia|lia|].
    destruct (Hitems 0%nat 0%nat 1%nat) as (l' & Hl' & Hv'); [lia|lia|lia|].
    vm_compute in Hl, Hl'. injection Hl as <-. injection Hl' as <-.
    split; [exact Hv|]. split; [exact Hv'|].
    rewrite Hrun. clear Hrun.
    assert (volume = {| shape := [2; 3; 2]%nat;
                        flat := [false; false; false; true; false; false;
                                 false; false; true; false; true; true] |})
      as ->; [|vm_compute; reflexivity].
    destruct volume as [s fl]. cbn [shape] in Hs. subst s. f_equal.
    unfold wf in Hwf. cbn [shape flat] in Hwf.
    do 12 (destruct fl as [|? fl]; [discriminate Hwf|]).
    destruct fl; [|discriminate Hwf].
    pose proof (Hitems 0 0 0 ltac:(lia) ltac:(lia) ltac:(lia))%nat as H000.
    pose proof (Hitems 0 0 1 ltac:(lia) ltac:(lia) ltac:(lia))%nat as H001.
    pose proof (Hitems 0 1 0 ltac:(lia) ltac:(lia) ltac:(lia))%nat as H010.
    pose proof (Hitems 0 1 1 ltac:(lia) ltac:(lia) ltac:(lia))%nat as H011.
    pose proof (Hitems 0 2 0 ltac:(lia) ltac:(lia) ltac:(lia))%nat as H020.
    pose proof (Hitems 0 2 1 ltac:(lia) ltac:(lia) ltac:(lia))%nat as H021.
    pose proof (Hitems 1 0 0 ltac:(lia) ltac:(lia) ltac:(lia))%nat as H100.
    pose proof (Hitems 1 0 1 ltac:(lia) ltac:(lia) ltac:(lia))%nat as H101.
    pose proof (Hitems 1 1 0 ltac:(lia) ltac:(lia) ltac:(lia))%nat as H110.
    pose proof (Hitems 1 1 1 ltac:(lia) ltac:(lia) ltac:(lia))%nat as H111.
    pose proof (Hitems 1 2 0 ltac:(lia) ltac:(lia) ltac:(lia))%nat as H120.
    pose proof (Hitems 1 2 1 ltac:(lia) ltac:(lia) ltac:(lia))%nat as H121.
    repeat match goal with
           | H : exists l, _ /\ _ |- _ =>
               let l := fresh "l" in let Hl := fresh "Hl" in
               let Hv := fresh "Hv" in
               destruct H as (l & Hl & Hv); vm_compute in Hl, Hv;
               injection Hl as <-; injection Hv as ->
           end.
    reflexivity.
  - destruct (run_cell_76_volume toy_marching_cubes toy_mesh_surface_area
                [29 # 26; 1; 1]%Q toy_labels (take 3 toy_regions) 2 2 3)
      as [_ Hout]; [reflexivity|reflexivity|].
    apply Hout. cbn. lia.
Defined.

Lemma display_negative_step_witness :
  exists panels,
    display (ramp 61) default_cmap (-2) = Ok panels
    /\ length panels = 30%nat
    /\ forall k pn, panels !! k = Some pn ->
         subarrays (ramp 61) !! (60 - k * 2)%nat = Some (panel_image pn).
Proof.
  destruct (display_negative_step (ramp 61) default_cmap (-2) 61 1 1)
    as (panels & Hrun & Hlen & Hpanels);
    [reflexivity|discriminate|lia|].
  exists panels. split; [done|]. split; [done|].
  intros k pn Hk. by destruct (Hpanels k pn Hk) as (_ & Hplane & _).
Defined.

Lemma display_rejects_witness :
  display (ramp 61) default_cmap 0
  = raise ValueError "slice step cannot be zero"
  /\ display toy_image default_cmap default_step
     = raise TypeError "Invalid dimensions for image data".
Proof.
  split.
  - destruct (display_rejects (ramp 61) default_cmap 0) as (Hzero & _);
      [discriminate|].
    by apply Hzero.
  - destruct (display_rejects toy_image default_cmap default_step)
      as (_ & _ & Himage); [discriminate|].
    apply (Himage 2%nat [2%nat]); [reflexivity|lia|discriminate|reflexivity].
Defined.

Lemma planewise_stops_at_failure_witness :
  planewise refuses_negative id (fun _ => 0%Q) dipping
  = raise ValueError "negative intensity"
  /\ planewise (fun _ => Ok toy_image) id (fun _ => 0%Q) dipping
     = raise ValueError "could not broadcast input array".
Proof.
  split.
  - destruct (planewise_stops_at_failure refuses_negative id (fun _ => 0%Q)
                dipping 3 [1; 1]%nat
                [{| shape := [1; 1]%nat; flat := [0%Q] |}]
                [{| shape := [1; 1]%nat; flat := [2%Q] |}]
                {| shape := [1; 1]%nat; flat := [(-1)%Q] |}
                [{| shape := [1; 1]%nat; flat := [0%Q] |}])
      as [Hraise _]; [reflexivity|reflexivity| |by apply Hraise].
    repeat constructor.
  - destruct (planewise_stops_at_failure (fun _ => Ok toy_image) id
                (fun _ => 0%Q) dipping 3 [1; 1]%nat []
                [{| shape := [1; 1]%nat; flat := [(-1)%Q] |};
                 {| shape := [1; 1]%nat; flat := [2%Q] |}]
                {| shape := [1; 1]%nat; flat := [0%Q] |} [])
      as [_ Hfit]; [reflexivity|reflexivity|constructor|].
    by apply (Hfit toy_image).
Defined.

Lemma planewise_well_formed_witness :
  exists dst,
    planewise only_2d id (fun _ => 0%Q) (ramp 2) = Ok dst
    /\ wf dst
    /\ flat dst = [0; 1]%Q.
Proof.
  destruct (planewise_well_formed only_2d id (fun _ => 0%Q) (ramp 2) 2
              [1; 1]%nat (subarrays (ramp 2)))
    as (dst & Hrun & Hwf & Hflat & _); [reflexivity| |].
  - repeat constructor.
  - exists dst. split; [done|]. split; [done|]. rewrite Hflat. reflexivity.
Defined.

Lemma otsu_within_li_witness :
  run_cell_35 toy_library toy_volume
  = Ok (ge_scalar toy_volume 4, ge_scalar toy_volume 4)
  /\ (flat (ge_scalar toy_volume 4) !! 5%nat = Some true ->
      flat (ge_scalar toy_volume 4) !! 5%nat = Some true)
  /\ shape (ge_scalar toy_volume 4) = [2; 2; 2]%nat.
Proof.
  destruct (otsu_within_li toy_library toy_volume (ge_scalar toy_volume 4)
              (ge_scalar toy_volume 4) 4 4)
    as (_ & _ & Hin & _); [reflexivity|reflexivity|reflexivity|].
  split; [reflexivity|]. split; [|reflexivity].
  apply Hin. apply Qle_refl.
Defined.

Lemma probe_lists_partition_witness :
  Permutation (["area"] ++ ["perimeter"]) (prop_names region_3d)
  /\ forall e, prop region_3d "perimeter" = Raise e ->
               exc_type e = NotImplementedError.
Proof.
  destruct (probe_lists_partition region_3d [] ["area"] ["perimeter"])
    as (_ & _ & Hperm & _ & Hnie); [reflexivity|].
  split; [exact Hperm|]. intros e. apply Hnie. right. by left.
Defined.

Lemma planewise_then_index_witness :
  exists dst image v,
    planewise only_2d id (fun _ => 0%Q) (ramp 2) = Ok dst
    /\ index_axis 1 0 1 (ramp 2) = Ok image
    /\ only_2d image = Ok v
    /\ index_axis 1 0 1 dst = Ok (amap id v).
Proof.
  apply (planewise_then_index only_2d id (fun _ => 0%Q) (ramp 2) 2
           [1; 1]%nat (subarrays (ramp 2)) 1);
    [reflexivity|reflexivity|repeat constructor|lia].
Defined.

Lemma planewise_section_witness :
  exists dst section,
    planewise only_2d id (fun _ => 0%Q) (count_up 2 2 3) = Ok dst
    /\ index_axis 3 1 1 dst = Ok section
    /\ shape section = [2; 3]%nat
    /\ item section [1; 2]%nat = Some (11 # 1)%Q.
Proof.
  destruct (planewise_section only_2d id (fun _ => 0%Q) (count_up 2 2 3)
              2 2 3 (subarrays (count_up 2 2 3)) 1)
    as (dst & section & Hrun & Hsection & Hshape & Hitems);
    [reflexivity|repeat constructor|lia|].
  exists dst, section. split; [done|]. split; [done|]. split; [done|].
  by rewrite (Hitems 1%nat _ 2%nat eq_refl) by lia.
Defined.
